(** * smart-test-runner: the output parser and the remaining-set generator

    A shallow embedding of [scripts/parse_test_output.py] and of
    [generate_remaining_tests] from [scripts/list_tests.py], with the
    properties of the specification proved (or refuted) about it.

    Layout:
    - Python strings as lists of code points, and the part of the Unicode
      character database the scripts rely on, taken as a parameter;
    - a backtracking matcher for the fragment of Python's [re] the scripts
      use ([re.search], [re.finditer], groups, lazy and greedy repetition,
      lookahead, the IGNORECASE, DOTALL and MULTILINE flags);
    - [float] and [int] conversions;
    - the functions of the two scripts, in source order: the parser with
      its [main], the remaining-set generator, and the listers that read
      the listing of pytest, go and playwright (the outcome of
      [subprocess.run] being an input);
    - the theorems: first the properties of the specification, then
      further properties of the code (X1, X2, ...). *)

From Stdlib Require Import List ZArith NArith Bool Lia String Ascii.
From ExtLib Require Import Structures.Monad Data.Monads.EitherMonad.
Import ListNotations.
Import MonadNotation.

Local Open Scope monad_scope.

(* ===================================================================== *)
(** ** Python strings *)
(* ===================================================================== *)

(** A Python [str] is a sequence of Unicode code points. *)
Definition char := N.
Definition str := list char.

(** Literals.  [py] reads an ASCII literal and understands the escape
    backslash-n, as a Python (non-raw) literal does. *)
Fixpoint py (s : string) : str :=
  match s with
  | EmptyString => []
  | String "\" (String "n" r) => 10%N :: py r
  | String c r => N_of_ascii c :: py r
  end.

(** The non-ASCII symbols of the patterns. *)
Definition MULTIPLICATION_SIGN : char := 215%N.          (* U+00D7 *)
Definition CHECK_MARK : char := 10003%N.                 (* U+2713 *)
Definition MULTIPLICATION_X : char := 10005%N.           (* U+2715 *)
Definition BLACK_CIRCLE : char := 9679%N.                (* U+25CF *)
Definition ANGLE_QUOTE : char := 8250%N.                 (* U+203A *)
Definition NEWLINE : char := 10%N.
Definition FULL_STOP : char := 46%N.
Definition QUOTATION_MARK : char := 34%N.

Fixpoint str_eqb (a b : str) : bool :=
  match a, b with
  | [], [] => true
  | x :: a', y :: b' => N.eqb x y && str_eqb a' b'
  | _, _ => false
  end.

(** [s.startswith(p)] *)
Fixpoint startswith (p s : str) : bool :=
  match p, s with
  | [], _ => true
  | x :: p', y :: s' => N.eqb x y && startswith p' s'
  | _ :: _, [] => false
  end.

(** [needle in hay] *)
Fixpoint contains (needle hay : str) : bool :=
  startswith needle hay ||
  match hay with
  | [] => false
  | _ :: hay' => contains needle hay'
  end.

(** [sep.join(parts)] *)
Fixpoint join (sep : str) (parts : list str) : str :=
  match parts with
  | [] => []
  | [p] => p
  | p :: rest => p ++ sep ++ join sep rest
  end.

(** [s.split("\n")]: never empty, one more piece than there are newlines. *)
Fixpoint split_lines_aux (cur : str) (s : str) : list str :=
  match s with
  | [] => [rev cur]
  | c :: s' => if N.eqb c NEWLINE then rev cur :: split_lines_aux [] s'
               else split_lines_aux (c :: cur) s'
  end.
Definition split_lines (s : str) : list str := split_lines_aux [] s.

(** [s.split(sep)] for a non-empty [sep]: the pieces between the
    occurrences of [sep], found left to right without overlap.  [skip]
    counts the characters of the occurrence just found that are still to
    pass. *)
Fixpoint split_aux (sep : str) (cur : str) (s : str) (skip : nat) : list str :=
  match s with
  | [] => [rev cur]
  | c :: s' =>
      match skip with
      | S k => split_aux sep cur s' k
      | O =>
          if startswith sep s
          then rev cur :: split_aux sep [] s' (List.length sep - 1)
          else split_aux sep (c :: cur) s' 0
      end
  end.
Definition split (sep s : str) : list str := split_aux sep [] s 0.

(** [s[a:b]] for [0 <= a <= b]. *)
Definition substring (s : str) (a b : nat) : str := firstn (b - a) (skipn a s).

(** [str(n)] for a non-negative integer: its decimal digits. *)
Fixpoint digits_of_pos_fuel (fuel : nat) (n : N) (acc : str) : str :=
  match fuel with
  | O => acc
  | S f =>
      let acc' := (48 + n mod 10)%N :: acc in
      if (n <? 10)%N then acc' else digits_of_pos_fuel f (n / 10)%N acc'
  end.
Definition str_of_N (n : N) : str := digits_of_pos_fuel (S (N.to_nat (N.log2 n))) n [].
Definition str_of_Z (z : Z) : str :=
  if (z <? 0)%Z then 45%N :: str_of_N (Z.to_N (- z)) else str_of_N (Z.to_N z).

(* ===================================================================== *)
(** ** The Unicode character database *)
(* ===================================================================== *)

(** What the scripts take from CPython's Unicode tables.  The embedding is
    parametric in them, so every theorem below holds whatever the tables of
    the interpreter at hand are. *)
Record unicodedata := {
  (** [Py_UNICODE_ISSPACE]: the class [\s] and what [str.strip] removes *)
  isspace : char -> bool;
  (** [Py_UNICODE_ISDECIMAL]: the class [\d] *)
  isdecimal : char -> bool;
  (** [Py_UNICODE_TODECIMAL]: the value [int] and [float] give a digit *)
  todecimal : char -> N;
  (** how [re] compares a pattern character to a subject character under
      IGNORECASE *)
  ignorecase_eq : char -> char -> bool;
  (** [str.lower] *)
  lower : str -> str
}.

(** The tables restricted to ASCII: they agree with CPython's on U+0000 to
    U+007F; every other code point is neither space nor digit nor cased. *)
Definition ascii_isspace (c : char) : bool :=
  ((9 <=? c) && (c <=? 13) || (28 <=? c) && (c <=? 32))%N.
Definition ascii_isdecimal (c : char) : bool := ((48 <=? c) && (c <=? 57))%N.
Definition ascii_tolower (c : char) : char :=
  if ((65 <=? c) && (c <=? 90))%N then (c + 32)%N else c.
Definition ascii_tables : unicodedata := {|
  isspace := ascii_isspace;
  isdecimal := ascii_isdecimal;
  todecimal := fun c => (c - 48)%N;
  ignorecase_eq := fun p c => N.eqb (ascii_tolower p) (ascii_tolower c);
  lower := map ascii_tolower
|}.

Section Strings.
Context (U : unicodedata).

Fixpoint lstrip (s : str) : str :=
  match s with
  | c :: s' => if isspace U c then lstrip s' else s
  | [] => []
  end.

(** [s.strip()] *)
Definition strip (s : str) : str := rev (lstrip (rev (lstrip s))).

(** [int(s)] on a run of decimal digits.  Python integers are unbounded;
    the interpreter's configurable bound on the length of the digit string
    ([sys.set_int_max_str_digits], 4300 digits unless set otherwise, beyond
    which [int] raises ValueError) is not modelled: this is [int] with the
    bound switched off.  What is proved below of a result an extractor
    returns holds with any bound, since a call that returns has converted
    all its digits. *)
Definition int_of_digits (s : str) : Z :=
  Z.of_N (fold_left (fun acc c => (10 * acc + todecimal U c)%N) s 0%N).
End Strings.

(* ===================================================================== *)
(** ** Regular expressions: the fragment of [re] the scripts use *)
(* ===================================================================== *)

Module Re.

(** One-character classes. *)
Inductive cset :=
| Any                      (* .   (a newline only under DOTALL) *)
| Space                    (* \s *)
| NonSpace                 (* \S *)
| Digit                    (* \d *)
| Ch (c : char)            (* a literal character *)
| Union (a b : cset).      (* [ab] *)

(** Patterns.  Repetition is over one-character classes, which is all
    the scripts' patterns repeat. *)
Inductive t :=
| One (cs : cset)
| Lit (s : str)                              (* a literal string *)
| Seq (a b : t)
| Alt (a b : t)                              (* a|b *)
| Rep (cs : cset) (min : nat) (greedy : bool)  (* cs* cs+ cs*? cs+? *)
| Opt (a : t)                                (* a? *)
| Group (n : nat) (a : t)                    (* the n-th ( ) *)
| Ahead (a : t)                              (* (?=a) *)
| EndZ                                       (* \Z *)
| Dollar.                                    (* $ *)

Record flags := { IGNORECASE : bool; DOTALL : bool; MULTILINE : bool }.
Definition no_flags := {| IGNORECASE := false; DOTALL := false; MULTILINE := false |}.
Definition I := {| IGNORECASE := true; DOTALL := false; MULTILINE := false |}.
Definition S := {| IGNORECASE := false; DOTALL := true; MULTILINE := false |}.
Definition M := {| IGNORECASE := false; DOTALL := false; MULTILINE := true |}.

(** The state of one match attempt: the position reached, the text from
    there on, and the spans of the groups closed so far (latest first). *)
Record state := {
  pos : nat;
  rest : str;
  groups : list (nat * (nat * nat))
}.

(** A match object: the subject, the span of the whole match, the spans
    of the groups. *)
Record Match := {
  subject : str;
  span : nat * nat;
  spans : list (nat * (nat * nat))
}.

Fixpoint lookup_span (n : nat) (l : list (nat * (nat * nat))) : option (nat * nat) :=
  match l with
  | [] => None
  | (i, sp) :: l' => if Nat.eqb i n then Some sp else lookup_span n l'
  end.

(** [m.group(n)]; group 0 is the whole match.  A group that took no part
    in the match reads as the empty string (in the scripts' patterns
    every group takes part in every match). *)
Definition group (m : Match) (n : nat) : str :=
  match n with
  | O => substring (subject m) (fst (span m)) (snd (span m))
  | _ => match lookup_span n (spans m) with
         | Some (a, b) => substring (subject m) a b
         | None => []
         end
  end.

Section Matcher.
Context (U : unicodedata) (fl : flags).

Fixpoint in_cset (cs : cset) (c : char) : bool :=
  match cs with
  | Any => DOTALL fl || negb (N.eqb c NEWLINE)
  | Space => isspace U c
  | NonSpace => negb (isspace U c)
  | Digit => isdecimal U c
  | Ch p => if IGNORECASE fl then ignorecase_eq U p c else N.eqb p c
  | Union a b => in_cset a c || in_cset b c
  end.

Definition lit_eq (p c : char) : bool :=
  if IGNORECASE fl then ignorecase_eq U p c else N.eqb p c.

Definition step (st : state) (s' : str) : state :=
  {| pos := Datatypes.S (pos st); rest := s'; groups := groups st |}.

(** a literal string, character by character *)
Fixpoint lit (l : str) (st : state) : option state :=
  match l with
  | [] => Some st
  | p :: l' =>
      match rest st with
      | c :: s' => if lit_eq p c then lit l' (step st s') else None
      | [] => None
      end
  end.

(** greedy repetition: take one more character while the class allows,
    give characters back one at a time when the continuation fails *)
Fixpoint rep_greedy (cs : cset) (min : nat) (s : str) (p : nat)
    (g : list (nat * (nat * nat))) (k : state -> option state) : option state :=
  let here := if Nat.eqb min 0 then k {| pos := p; rest := s; groups := g |} else None in
  match s with
  | c :: s' =>
      if in_cset cs c then
        match rep_greedy cs (Nat.pred min) s' (Datatypes.S p) g k with
        | Some r => Some r
        | None => here
        end
      else here
  | [] => here
  end.

(** lazy repetition: try the continuation first, take one more
    character only when it fails *)
Fixpoint rep_lazy (cs : cset) (min : nat) (s : str) (p : nat)
    (g : list (nat * (nat * nat))) (k : state -> option state) : option state :=
  let more :=
    match s with
    | c :: s' => if in_cset cs c then rep_lazy cs (Nat.pred min) s' (Datatypes.S p) g k else None
    | [] => None
    end in
  if Nat.eqb min 0 then
    match k {| pos := p; rest := s; groups := g |} with
    | Some r => Some r
    | None => more
    end
  else more.

(** [$]: at the end, or just before a newline that ends the text (that
    ends a line, under MULTILINE) *)
Definition at_dollar (s : str) : bool :=
  match s with
  | [] => true
  | c :: s' => N.eqb c NEWLINE && (MULTILINE fl || match s' with [] => true | _ => false end)
  end.

(** The backtracking matcher, in continuation-passing style: [exec r st k]
    matches [r] from [st] and hands every way of doing so to [k], in
    the order Python tries them, until [k] accepts one. *)
Fixpoint exec (r : t) (st : state) (k : state -> option state) : option state :=
  match r with
  | One cs =>
      match rest st with
      | c :: s' => if in_cset cs c then k (step st s') else None
      | [] => None
      end
  | Lit l => match lit l st with Some st' => k st' | None => None end
  | Seq a b => exec a st (fun st' => exec b st' k)
  | Alt a b => match exec a st k with Some r => Some r | None => exec b st k end
  | Rep cs min true => rep_greedy cs min (rest st) (pos st) (groups st) k
  | Rep cs min false => rep_lazy cs min (rest st) (pos st) (groups st) k
  | Opt a => match exec a st k with Some r => Some r | None => k st end
  | Group n a =>
      exec a st (fun st' =>
        k {| pos := pos st'; rest := rest st';
             groups := (n, (pos st, pos st')) :: groups st' |})
  | Ahead a =>
      match exec a st Some with
      | Some st' => k {| pos := pos st; rest := rest st; groups := groups st' |}
      | None => None
      end
  | EndZ => match rest st with [] => k st | _ => None end
  | Dollar => if at_dollar (rest st) then k st else None
  end.

(** One attempt at position [p].  [must_advance] refuses the empty
    match, as [finditer] asks right after an empty match. *)
Definition match_at (r : t) (s : str) (p : nat) (must_advance : bool) : option state :=
  exec r {| pos := p; rest := s; groups := [] |}
    (fun st => if must_advance && Nat.eqb (pos st) p then None else Some st).

(** Leftmost match at or after position [p], where [s] is the text
    from [p] on. *)
Fixpoint search_from (r : t) (s : str) (p : nat) : option (nat * state) :=
  match match_at r s p false with
  | Some st => Some (p, st)
  | None =>
      match s with
      | [] => None
      | _ :: s' => search_from r s' (Datatypes.S p)
      end
  end.

Definition mk_match (text : str) (start : nat) (st : state) : Match :=
  {| subject := text; span := (start, pos st); spans := groups st |}.

(** [re.search(r, text, fl)] *)
Definition search (r : t) (text : str) : option Match :=
  match search_from r text 0 with
  | Some (p, st) => Some (mk_match text p st)
  | None => None
  end.

(** [re.finditer]: the successive non-overlapping matches, left to
    right.  [skip] counts the characters still inside the previous
    match.  After an empty match Python tries the same position again,
    this time refusing the empty match. *)
Fixpoint scan (r : t) (text : str) (s : str) (p : nat) (skip : nat) : list Match :=
  let next := fun n => match s with
                       | [] => []
                       | _ :: s' => scan r text s' (Datatypes.S p) n
                       end in
  match skip with
  | Datatypes.S n => next n
  | O =>
      match match_at r s p false with
      | None => next 0
      | Some st =>
          if Nat.eqb (pos st) p then
            mk_match text p st ::
            match match_at r s p true with
            | Some st2 => mk_match text p st2 :: next (pos st2 - p - 1)
            | None => next 0
            end
          else mk_match text p st :: next (pos st - p - 1)
      end
  end.

Definition finditer (r : t) (text : str) : list Match := scan r text text 0 0.

(** [bool(re.search(...))] *)
Definition matches (r : t) (text : str) : bool :=
  match search r text with Some _ => true | None => false end.
End Matcher.

(** [st'] lies [n] characters after [st] in the same text. *)
Definition ahead_by (n : nat) (st st' : state) : Prop :=
  n <= List.length (rest st) /\ pos st' = pos st + n /\ rest st' = skipn n (rest st).

Definition ahead (st st' : state) : Prop := exists n, ahead_by n st st'.

(** Pattern notations, close to the source syntax. *)
Declare Scope re_scope.
Delimit Scope re_scope with re.
Bind Scope re_scope with t.
Notation "a +> b" := (Seq a b) (at level 61, right associativity) : re_scope.
Notation "a // b" := (Alt a b) (at level 62, right associativity) : re_scope.
Definition L (s : string) : t := Lit (py s).
Definition star cs := Rep cs 0 true.
Definition plus cs := Rep cs 1 true.
Definition star_lazy cs := Rep cs 0 false.
Definition plus_lazy cs := Rep cs 1 false.
End Re.

(* ===================================================================== *)
(** ** Exceptions and numeric conversions *)
(* ===================================================================== *)

(** The exceptions the parser can raise. *)
Inductive exn := ValueError | OverflowError.

(** A computation that returns a value or raises. *)
Definition result (A : Type) : Type := (exn + A)%type.
Definition raise {A : Type} (e : exn) : result A := inl e.
#[global] Instance Monad_result : Monad result := Monad_either exn.

(** A non-negative binary64 value [m * 2^e], or infinity.  The parser
    builds floats from runs of digits and dots only: no sign, no NaN. *)
Inductive float :=
| Finite (m e : Z)
| Infinity.

Module Float.
Local Open Scope Z_scope.

(** [floor (log2 (p / q))] for positive [p] and [q] *)
Definition ilog2_ratio (p q : Z) : Z :=
  let e0 := Z.log2 p - Z.log2 q in
  let reaches := if 0 <=? e0 then q * 2 ^ e0 <=? p else q <=? p * 2 ^ (- e0) in
  if reaches then e0 else e0 - 1.

(** The binary64 nearest to [p / q], ties to even: 53 bits of
    precision, least exponent -1074, overflow from [2^1024] on. *)
Definition round (p q : Z) : float :=
  if p =? 0 then Finite 0 0 else
  let e := ilog2_ratio p q in
  let x := Z.max (e - 52) (-1074) in
  let n := if 0 <=? x then p else p * 2 ^ (- x) in
  let d := if 0 <=? x then q * 2 ^ x else q in
  let m := n / d in
  let r := n mod d in
  let m' := if (d <? 2 * r) || ((d =? 2 * r) && Z.odd m) then m + 1 else m in
  if 1024 <=? Z.log2 m' + x then Infinity else Finite m' x.

(** [f * 1000] *)
Definition mul1000 (f : float) : float :=
  match f with
  | Finite m e => if 0 <=? e then round (1000 * m * 2 ^ e) 1 else round (1000 * m) (2 ^ (- e))
  | Infinity => Infinity
  end.

(** [int(f)]: truncation; OverflowError on infinity *)
Definition to_int (f : float) : result Z :=
  match f with
  | Finite m e => inr (if 0 <=? e then m * 2 ^ e else m / 2 ^ (- e))
  | Infinity => raise OverflowError
  end.
End Float.

Section Numbers.
Context (U : unicodedata).

(** Reads digits with at most one dot: the digits as one integer, the
    number of digits after the dot, the number of digits in all. *)
Fixpoint read_decimal (s : str) (seen_dot : bool) (mant : N) (scale : N) (ndigits : nat)
    : option (N * N * nat) :=
  match s with
  | [] => Some (mant, scale, ndigits)
  | c :: s' =>
      if N.eqb c FULL_STOP then
        if seen_dot then None else read_decimal s' true mant scale ndigits
      else if isdecimal U c then
        read_decimal s' seen_dot (10 * mant + todecimal U c)%N
          (if seen_dot then N.succ scale else scale) (S ndigits)
      else None
  end.

(** [float(s)] for [s] made of digits and dots, which is what the
    duration patterns capture: ValueError unless there is a digit and at
    most one dot, else the nearest binary64. *)
Definition float_of_str (s : str) : result float :=
  match read_decimal s false 0%N 0%N 0 with
  | Some (mant, scale, S _) => inr (Float.round (Z.of_N mant) (10 ^ Z.of_N scale))
  | _ => raise ValueError
  end.

(** [int(float(s) * 1000)] *)
Definition seconds_to_ms (s : str) : result Z :=
  f <- float_of_str s ;;
  Float.to_int (Float.mul1000 f).
End Numbers.

(* ===================================================================== *)
(** ** parse_test_output.py: the data model *)
(* ===================================================================== *)

Module Framework.
Inductive t := JEST | VITEST | PYTEST | GO | PLAYWRIGHT | CYPRESS | UNKNOWN.

Definition eqb (a b : t) : bool :=
  match a, b with
  | JEST, JEST | VITEST, VITEST | PYTEST, PYTEST | GO, GO
  | PLAYWRIGHT, PLAYWRIGHT | CYPRESS, CYPRESS | UNKNOWN, UNKNOWN => true
  | _, _ => false
  end.

(** [fw.value] *)
Definition value (fw : t) : str :=
  match fw with
  | JEST => py "jest"
  | VITEST => py "vitest"
  | PYTEST => py "pytest"
  | GO => py "go"
  | PLAYWRIGHT => py "playwright"
  | CYPRESS => py "cypress"
  | UNKNOWN => py "unknown"
  end.

(** The members, in definition order. *)
Definition members : list t := [JEST; VITEST; PYTEST; GO; PLAYWRIGHT; CYPRESS; UNKNOWN].

(** [Framework(v)]: the member whose value is [v]; ValueError when there
    is none. *)
Definition of_value (v : str) : result t :=
  match find (fun fw => str_eqb (value fw) v) members with
  | Some fw => inr fw
  | None => raise ValueError
  end.
End Framework.

Module FailureType.
Inductive t := ASSERTION | TYPE_ERROR | TIMEOUT | MOCK_ISSUE | ENVIRONMENT | SYNTAX | UNKNOWN.

Definition value (ft : t) : str :=
  match ft with
  | ASSERTION => py "assertion"
  | TYPE_ERROR => py "type_error"
  | TIMEOUT => py "timeout"
  | MOCK_ISSUE => py "mock_issue"
  | ENVIRONMENT => py "environment"
  | SYNTAX => py "syntax"
  | UNKNOWN => py "unknown"
  end.
End FailureType.

Record FailedTest := {
  file : str;
  test_name : str;
  error_message : str;
  line_number : option Z;
  failure_type : str;
  stack_trace : option str;
  rerun_command : option str
}.

Record TestResult := {
  framework : str;
  total : Z;
  passed : Z;
  failed : Z;
  skipped : Z;
  duration_ms : option Z;
  failures : list FailedTest
}.

(** [result.framework = v] *)
Definition set_framework (r : TestResult) (v : str) : TestResult :=
  {| framework := v; total := total r; passed := passed r; failed := failed r;
     skipped := skipped r; duration_ms := duration_ms r; failures := failures r |}.

(** [len(l)] as a Python integer *)
Definition len {A : Type} (l : list A) : Z := Z.of_nat (List.length l).

(** [s[:200]] *)
Definition first200 (s : str) : str := firstn 200 s.

Definition Unknown_error : str := py "Unknown error".

(* ===================================================================== *)
(** ** The patterns, in source order *)
(* ===================================================================== *)

Module Pat.
Import Re.
Local Open Scope re_scope.

Definition digit_or_dot : cset := Union Digit (Ch FULL_STOP).          (* [\d.] *)
Definition cross : cset := Union (Ch MULTIPLICATION_SIGN) (Ch MULTIPLICATION_X).
Definition cross_or_bullet : cset := Union cross (Ch BLACK_CIRCLE).

(** detect_framework *)
Definition jest_sig : list Re.t :=
  [ L "PASS" // L "FAIL" +> star Any +> L ".test.";     (* PASS|FAIL.*\.test\. *)
    L "Jest";                                           (* Jest *)
    L "expect(" ].                                      (* expect\( *)
Definition vitest_sig : list Re.t :=
  [ L "vitest";
    Lit [CHECK_MARK] // Lit [MULTIPLICATION_SIGN] +> star Any +> plus Digit +> L "ms";
    L "RERUN" ].
Definition pytest_sig : list Re.t :=
  [ L "pytest";
    L "PASSED" // L "FAILED" // L "ERROR";
    L "===" +> star Any +> L "===" ].
Definition go_sig : list Re.t :=
  [ L "--- FAIL:" // L "--- PASS:";
    L "go test";
    (* FAIL\s+\S+\s+\d+\.\d+s *)
    L "FAIL" +> plus Space +> plus NonSpace +> plus Space +> plus Digit +> L "."
      +> plus Digit +> L "s" ].
Definition playwright_sig : list Re.t :=
  [ L "playwright";
    plus Digit +> L " passed" +> star Any +> plus Digit +> L " failed";
    L "browserType" ].
Definition cypress_sig : list Re.t :=
  [ L "cypress";
    L "Running:" +> star Any +> L ".cy.";
    Lit [CHECK_MARK] // Lit [MULTIPLICATION_X] ].

(** parse_jest *)
(* FAIL\s+(\S+)\n(.*?)(?=\n(?:PASS|FAIL|Test Suites:)|\Z) *)
Definition jest_fail : Re.t :=
  L "FAIL" +> plus Space +> Group 1 (plus NonSpace) +> L "\n" +> Group 2 (star_lazy Any)
    +> Ahead (L "\n" +> (L "PASS" // L "FAIL" // L "Test Suites:") // EndZ).
(* [xX]\s+(.+?)\s+\((\d+)\s*ms\)\n(.*?)(?=\n\s*[xX.]|\Z), with the two
   crosses and the bullet *)
Definition jest_test : Re.t :=
  One cross +> plus Space +> Group 1 (plus_lazy Any) +> plus Space +> L "("
    +> Group 2 (plus Digit) +> star Space +> L "ms)" +> L "\n" +> Group 3 (star_lazy Any)
    +> Ahead (L "\n" +> star Space +> One cross_or_bullet // EndZ).
(* :(\d+):\d+ *)
Definition jest_line : Re.t := L ":" +> Group 1 (plus Digit) +> L ":" +> plus Digit.
(* Tests:\s+(\d+)\s+failed.*?(\d+)\s+passed.*?(\d+)\s+total *)
Definition jest_summary : Re.t :=
  L "Tests:" +> plus Space +> Group 1 (plus Digit) +> plus Space +> L "failed"
    +> star_lazy Any +> Group 2 (plus Digit) +> plus Space +> L "passed"
    +> star_lazy Any +> Group 3 (plus Digit) +> plus Space +> L "total".
(* (\d+)\s+(?:tests?|specs?) *)
Definition jest_total : Re.t :=
  Group 1 (plus Digit) +> plus Space +> (L "test" +> Opt (L "s") // L "spec" +> Opt (L "s")).
(* Time:\s+([\d.]+)\s*s *)
Definition jest_duration : Re.t :=
  L "Time:" +> plus Space +> Group 1 (plus digit_or_dot) +> star Space +> L "s".

(** parse_pytest *)
(* FAILED\s+(\S+)::(\S+) *)
Definition pytest_fail : Re.t :=
  L "FAILED" +> plus Space +> Group 1 (plus NonSpace) +> L "::" +> Group 2 (plus NonSpace).
(* {re.escape(test_name)}.*?\n(.*?)(?=\n(?:FAILED|PASSED|=====)|\Z) *)
Definition pytest_error (test_name : str) : Re.t :=
  Lit test_name +> star_lazy Any +> L "\n" +> Group 1 (star_lazy Any)
    +> Ahead (L "\n" +> (L "FAILED" // L "PASSED" // L "=====") // EndZ).
(* (\d+)\s+failed.*?(\d+)\s+passed *)
Definition pytest_summary : Re.t :=
  Group 1 (plus Digit) +> plus Space +> L "failed" +> star_lazy Any
    +> Group 2 (plus Digit) +> plus Space +> L "passed".
(* (\d+)\s+passed *)
Definition n_passed : Re.t := Group 1 (plus Digit) +> plus Space +> L "passed".
(* (\d+)\s+skipped *)
Definition n_skipped : Re.t := Group 1 (plus Digit) +> plus Space +> L "skipped".
(* in\s+([\d.]+)s *)
Definition pytest_duration : Re.t :=
  L "in" +> plus Space +> Group 1 (plus digit_or_dot) +> L "s".

(** parse_go *)
(* --- FAIL:\s+(\S+)\s+\(([\d.]+)s\)\n(.*?)(?=\n--- |\nFAIL\s|\nok\s|\Z) *)
Definition go_fail : Re.t :=
  L "--- FAIL:" +> plus Space +> Group 1 (plus NonSpace) +> plus Space +> L "("
    +> Group 2 (plus digit_or_dot) +> L "s)" +> L "\n" +> Group 3 (star_lazy Any)
    +> Ahead (L "\n--- " // L "\nFAIL" +> One Space // L "\nok" +> One Space // EndZ).
(* (\S+\.go):(\d+) *)
Definition go_loc : Re.t :=
  Group 1 (plus NonSpace +> L ".go") +> L ":" +> Group 2 (plus Digit).
(* --- PASS: *)
Definition go_pass : Re.t := L "--- PASS:".
(* ([\d.]+)s\s*$ *)
Definition go_duration : Re.t :=
  Group 1 (plus digit_or_dot) +> L "s" +> star Space +> Dollar.

(** parse_playwright *)
(* (\d+)\)\s+\[.*?\]\s+>\s+(\S+):(\d+):\d+\s+>\s+(.+?)\n(.*?)(?=\n\d+\)|\n\s+\d+ passed|\Z),
   where > stands for the single angle quotation mark U+203A *)
Definition playwright_fail : Re.t :=
  Group 1 (plus Digit) +> L ")" +> plus Space +> L "[" +> star_lazy Any +> L "]"
    +> plus Space +> Lit [ANGLE_QUOTE] +> plus Space +> Group 2 (plus NonSpace) +> L ":"
    +> Group 3 (plus Digit) +> L ":" +> plus Digit +> plus Space +> Lit [ANGLE_QUOTE]
    +> plus Space +> Group 4 (plus_lazy Any) +> L "\n" +> Group 5 (star_lazy Any)
    +> Ahead (L "\n" +> plus Digit +> L ")"
              // L "\n" +> plus Space +> plus Digit +> L " passed"
              // EndZ).
(* (\d+)\s+passed.*?(\d+)\s+failed *)
Definition playwright_summary : Re.t :=
  Group 1 (plus Digit) +> plus Space +> L "passed" +> star_lazy Any
    +> Group 2 (plus Digit) +> plus Space +> L "failed".
End Pat.

(* ===================================================================== *)
(** ** parse_test_output.py: the functions *)
(* ===================================================================== *)

Section Parser.
Context (U : unicodedata).

(** *** detect_framework *)

(** The [patterns] dictionary; a Python dict iterates in insertion order. *)
Definition patterns : list (Framework.t * list Re.t) :=
  [ (Framework.JEST, Pat.jest_sig);
    (Framework.VITEST, Pat.vitest_sig);
    (Framework.PYTEST, Pat.pytest_sig);
    (Framework.GO, Pat.go_sig);
    (Framework.PLAYWRIGHT, Pat.playwright_sig);
    (Framework.CYPRESS, Pat.cypress_sig) ].

(** [sum(1 for p in pats if re.search(p, output, re.IGNORECASE))] *)
Definition count_matches (pats : list Re.t) (output : str) : nat :=
  List.length (filter (fun p => Re.matches U Re.I p output) pats).

(** The loop over [patterns.items()], with its early return. *)
Fixpoint detect_loop (items : list (Framework.t * list Re.t)) (output : str) : Framework.t :=
  match items with
  | [] => Framework.UNKNOWN
  | (fw, pats) :: items' =>
      if 2 <=? count_matches pats output then fw else detect_loop items' output
  end.

Definition detect_framework (output : str) : Framework.t := detect_loop patterns output.

(** *** classify_failure *)

Definition assertion_kw : list str :=
  map py ["expected"; "to equal"; "to be"; "assertion"; "assert"]%string.
Definition type_error_kw : list str :=
  map py ["typeerror"; "undefined is not"; "null is not"; "cannot read"]%string.
Definition timeout_kw : list str := map py ["timeout"; "exceeded"; "timed out"]%string.
Definition mock_kw : list str := map py ["mock"; "spy"; "stub"; "not called"]%string.
Definition environment_kw : list str :=
  map py ["enoent"; "connection refused"; "econnrefused"; "env"]%string.
Definition syntax_kw : list str := map py ["syntaxerror"; "unexpected token"]%string.

(** [any(kw in text for kw in kws)] *)
Definition any_in (kws : list str) (text : str) : bool :=
  existsb (fun kw => contains kw text) kws.

Definition classify_failure (error_message : str) : FailureType.t :=
  let error_lower := lower U error_message in
  if any_in assertion_kw error_lower then FailureType.ASSERTION
  else if any_in type_error_kw error_lower then FailureType.TYPE_ERROR
  else if any_in timeout_kw error_lower then FailureType.TIMEOUT
  else if any_in mock_kw error_lower then FailureType.MOCK_ISSUE
  else if any_in environment_kw error_lower then FailureType.ENVIRONMENT
  else if any_in syntax_kw error_lower then FailureType.SYNTAX
  else FailureType.UNKNOWN.

(** *** Shared pieces *)

(** [int(m.group(n)) if m else default] *)
Definition int_group_or (m : option Re.Match) (n : nat) (default : Z) : Z :=
  match m with
  | Some m => int_of_digits U (Re.group m n)
  | None => default
  end.

(** [int(float(m.group(1)) * 1000) if m else None] *)
Definition duration_of (duration_match : option Re.Match) : result (option Z) :=
  match duration_match with
  | Some m => ms <- seconds_to_ms U (Re.group m 1) ;; ret (Some ms)
  | None => ret None
  end.

(** *** parse_jest *)

(** The body of the inner loop: one failure of one FAIL block. *)
Definition jest_failure (file_path : str) (test_match : Re.Match) : FailedTest :=
  let test_name := strip U (Re.group test_match 1) in
  let error_block := strip U (Re.group test_match 3) in
  let error_lines := split_lines error_block in
  let error_message := match error_lines with l :: _ => l | [] => Unknown_error end in
  let line_match := Re.search U Re.no_flags Pat.jest_line error_block in
  let line_number :=
    match line_match with
    | Some m => Some (int_of_digits U (Re.group m 1))
    | None => None
    end in
  {| file := file_path;
     test_name := test_name;
     error_message := error_message;
     line_number := line_number;
     failure_type := FailureType.value (classify_failure error_message);
     stack_trace := None;
     rerun_command :=
       Some (py "npx jest --testNamePattern=" ++ [QUOTATION_MARK] ++ test_name
               ++ [QUOTATION_MARK]) |}.

(** The two nested loops: FAIL blocks, then the failures of each. *)
Definition jest_failures (output : str) : list FailedTest :=
  flat_map
    (fun m =>
       let file_path := Re.group m 1 in
       let block := Re.group m 2 in
       map (jest_failure file_path) (Re.finditer U Re.S Pat.jest_test block))
    (Re.finditer U Re.S Pat.jest_fail output).

Definition parse_jest (output : str) : result TestResult :=
  let failures := jest_failures output in
  let summary_match := Re.search U Re.I Pat.jest_summary output in
  let '(total, passed, failed) :=
    match summary_match with
    | Some m =>
        let failed := int_of_digits U (Re.group m 1) in
        let passed := int_of_digits U (Re.group m 2) in
        let total := int_of_digits U (Re.group m 3) in
        (total, passed, failed)
    | None =>
        let total_match := Re.search U Re.I Pat.jest_total output in
        let total := int_group_or total_match 1 (len failures) in
        let failed := len failures in
        let passed := (total - failed)%Z in
        (total, passed, failed)
    end in
  duration_ms <- duration_of (Re.search U Re.no_flags Pat.jest_duration output) ;;
  ret {| framework := py "jest";
         total := total;
         passed := passed;
         failed := failed;
         skipped := 0;
         duration_ms := duration_ms;
         failures := failures |}.

(** *** parse_pytest *)

Definition pytest_failure (output : str) (m : Re.Match) : FailedTest :=
  let file_path := Re.group m 1 in
  let test_name := Re.group m 2 in
  let error_match := Re.search U Re.S (Pat.pytest_error test_name) output in
  let error_message :=
    match error_match with
    | Some e => first200 (strip U (Re.group e 1))
    | None => Unknown_error
    end in
  {| file := file_path;
     test_name := test_name;
     error_message := error_message;
     line_number := None;
     failure_type := FailureType.value (classify_failure error_message);
     stack_trace := None;
     rerun_command := Some (py "pytest " ++ file_path ++ py "::" ++ test_name) |}.

Definition pytest_failures (output : str) : list FailedTest :=
  map (pytest_failure output) (Re.finditer U Re.no_flags Pat.pytest_fail output).

Definition parse_pytest (output : str) : result TestResult :=
  let failures := pytest_failures output in
  let summary_match := Re.search U Re.I Pat.pytest_summary output in
  let '(failed, passed) :=
    match summary_match with
    | Some m => (int_of_digits U (Re.group m 1), int_of_digits U (Re.group m 2))
    | None =>
        let failed := len failures in
        let passed_match := Re.search U Re.no_flags Pat.n_passed output in
        (failed, int_group_or passed_match 1 0)
    end in
  let skipped_match := Re.search U Re.no_flags Pat.n_skipped output in
  let skipped := int_group_or skipped_match 1 0 in
  let total := (passed + failed + skipped)%Z in
  duration_ms <- duration_of (Re.search U Re.no_flags Pat.pytest_duration output) ;;
  ret {| framework := py "pytest";
         total := total;
         passed := passed;
         failed := failed;
         skipped := skipped;
         duration_ms := duration_ms;
         failures := failures |}.

(** *** parse_go *)

Definition go_failure (m : Re.Match) : FailedTest :=
  let test_name := Re.group m 1 in
  let error_block := strip U (Re.group m 3) in
  let loc_match := Re.search U Re.no_flags Pat.go_loc error_block in
  let file_path := match loc_match with Some l => Re.group l 1 | None => py "unknown" end in
  let line_number :=
    match loc_match with
    | Some l => Some (int_of_digits U (Re.group l 2))
    | None => None
    end in
  let error_lines :=
    map (strip U)
      (filter (fun l => negb (str_eqb (strip U l) [])) (split_lines error_block)) in
  let error_message := match error_lines with l :: _ => l | [] => Unknown_error end in
  {| file := file_path;
     test_name := test_name;
     error_message := error_message;
     line_number := line_number;
     failure_type := FailureType.value (classify_failure error_message);
     stack_trace := None;
     rerun_command := Some (py "go test -run " ++ test_name ++ py " ./...") |}.

Definition go_failures (output : str) : list FailedTest :=
  map go_failure (Re.finditer U Re.S Pat.go_fail output).

Definition parse_go (output : str) : result TestResult :=
  let failures := go_failures output in
  let pass_count := len (Re.finditer U Re.no_flags Pat.go_pass output) in
  let fail_count := len failures in
  let total := (pass_count + fail_count)%Z in
  duration_ms <- duration_of (Re.search U Re.M Pat.go_duration output) ;;
  ret {| framework := py "go";
         total := total;
         passed := pass_count;
         failed := fail_count;
         skipped := 0;
         duration_ms := duration_ms;
         failures := failures |}.

(** *** parse_playwright *)

Definition playwright_failure (m : Re.Match) : FailedTest :=
  let file_path := Re.group m 2 in
  let line_number := int_of_digits U (Re.group m 3) in
  let test_name := strip U (Re.group m 4) in
  let error_block := strip U (Re.group m 5) in
  let error_lines := split_lines error_block in
  let error_message :=
    match filter (fun l => negb (str_eqb l [])) (map (strip U) error_lines) with
    | l :: _ => l
    | [] => Unknown_error
    end in
  {| file := file_path;
     test_name := test_name;
     error_message := first200 error_message;
     line_number := Some line_number;
     failure_type := FailureType.value (classify_failure error_message);
     stack_trace := None;
     rerun_command :=
       Some (py "npx playwright test " ++ file_path ++ py ":" ++ str_of_Z line_number) |}.

Definition playwright_failures (output : str) : list FailedTest :=
  map playwright_failure (Re.finditer U Re.S Pat.playwright_fail output).

Definition parse_playwright (output : str) : result TestResult :=
  let failures := playwright_failures output in
  let summary_match := Re.search U Re.no_flags Pat.playwright_summary output in
  let '(passed, failed) :=
    match summary_match with
    | Some m => (int_of_digits U (Re.group m 1), int_of_digits U (Re.group m 2))
    | None =>
        let failed := len failures in
        let passed_match := Re.search U Re.no_flags Pat.n_passed output in
        (int_group_or passed_match 1 0, failed)
    end in
  let total := (passed + failed)%Z in
  ret {| framework := py "playwright";
         total := total;
         passed := passed;
         failed := failed;
         skipped := 0;
         duration_ms := None;
         failures := failures |}.

(** *** parse_output *)

Definition parser := str -> result TestResult.

(** The [parsers] dictionary. *)
Definition parsers : list (Framework.t * parser) :=
  [ (Framework.JEST, parse_jest);
    (Framework.VITEST, parse_jest);
    (Framework.PYTEST, parse_pytest);
    (Framework.GO, parse_go);
    (Framework.PLAYWRIGHT, parse_playwright);
    (Framework.CYPRESS, parse_jest) ].

(** [d.get(key, default)] *)
Fixpoint get (d : list (Framework.t * parser)) (key : Framework.t) (default : parser) : parser :=
  match d with
  | [] => default
  | (k, v) :: d' => if Framework.eqb k key then v else get d' key default
  end.

(** Truth value of an [Optional[str]]: None and the empty string are
    false. *)
Definition truthy (framework : option str) : bool :=
  match framework with
  | Some (_ :: _) => true
  | _ => false
  end.

Definition parse_output (output : str) (framework : option str) : result TestResult :=
  fw <- (if truthy framework
         then Framework.of_value (match framework with Some f => f | None => [] end)
         else ret (detect_framework output)) ;;
  let parser := get parsers fw parse_jest in
  result <- parser output ;;
  ret (if negb (Framework.eqb fw Framework.UNKNOWN)
       then set_framework result (Framework.value fw)
       else result).
End Parser.

(* ===================================================================== *)
(** ** parse_test_output.py: main *)
(* ===================================================================== *)

(** What [--framework] can be: argparse accepts the five [choices] and
    nothing else. *)
Inductive cli_framework := cli_jest | cli_vitest | cli_pytest | cli_go | cli_playwright.

Definition cli_value (c : cli_framework) : str :=
  match c with
  | cli_jest => py "jest"
  | cli_vitest => py "vitest"
  | cli_pytest => py "pytest"
  | cli_go => py "go"
  | cli_playwright => py "playwright"
  end.

(** How [main] ends: it prints the error payload and exits with a code,
    or prints the JSON text of the result, or an exception leaves it. *)
Inductive main_outcome :=
| ExitError (message : str) (code : Z)
| Printed (text : str)
| Uncaught (e : exn).

Section Main.
Context (U : unicodedata).

(** [json.dumps(asdict(result), indent=indent)]: the text of the result,
    or the exception of the encoder (it raises ValueError on an integer
    with more digits than the interpreter converts to text). *)
Context (dumps : TestResult -> option Z -> result str).

Definition main (stdin : str) (framework : option cli_framework) (pretty : bool)
    : main_outcome :=
  let output := stdin in
  if str_eqb (strip U output) [] then ExitError (py "No input provided") 1
  else
    match parse_output U output (option_map cli_value framework) with
    | inr result =>
        let indent := if pretty then Some 2%Z else None in
        match dumps result indent with
        | inr text => Printed text
        | inl e => Uncaught e
        end
    | inl e => Uncaught e
    end.
End Main.

(* ===================================================================== *)
(** ** list_tests.py: the remaining-set generator *)
(* ===================================================================== *)

(** The pattern of list_tests.py. *)
Module ListPat.
Import Re.
Local Open Scope re_scope.

Definition LARGE_CIRCLE : char := 9711%N.                (* U+25EF *)

(** list_playwright_tests:
    [vO]\s+(\S+):(\d+):\d+\s+>\s+(.+), with the check mark and the large
    circle in the class and the single angle quotation mark for > *)
Definition playwright_line : Re.t :=
  One (Union (Ch CHECK_MARK) (Ch LARGE_CIRCLE)) +> plus Space
    +> Group 1 (plus NonSpace) +> L ":" +> Group 2 (plus Digit)
    +> L ":" +> plus Digit +> plus Space +> Lit [ANGLE_QUOTE]
    +> plus Space +> Group 3 (plus Any).
End ListPat.

Module list_tests.

(** A [TestItem], as the dictionary [asdict] makes of it. *)
Record TestItem := {
  id : str;
  name : str;
  file : str;
  line : option Z;
  suite : option str
}.

Record TestList := {
  framework : str;
  total : Z;
  tests : list TestItem;
  run_single_command : str;
  run_from_command : str;
  bail_command : str
}.

(** The dictionary [generate_remaining_tests] returns. *)
Record Remaining := {
  remaining_count : Z;
  remaining_tests : list TestItem;
  run_remaining_command : option str
}.

(** [l[start:]], for any integer [start]: a negative one counts from
    the end, and the bounds are clipped. *)
Definition slice_from {A : Type} (l : list A) (start : Z) : list A :=
  let start' := if (start <? 0)%Z then Z.max (len l + start) 0 else start in
  skipn (Z.to_nat start') l.

(** [x in tags] *)
Definition str_in (x : str) (tags : list str) : bool := existsb (str_eqb x) tags.

Definition generate_remaining_tests (test_list : TestList) (failed_index : Z) : Remaining :=
  let remaining := slice_from (tests test_list) (failed_index + 1) in
  match remaining with
  | [] =>
      {| remaining_count := 0;
         remaining_tests := [];
         run_remaining_command := None |}
  | _ :: _ =>
      let framework := framework test_list in
      let test_ids := map id remaining in
      let cmd :=
        if str_in framework [py "jest"; py "vitest"] then
          Some (py "npx " ++ framework ++ py " " ++ join (py " ") test_ids)
        else if str_eqb framework (py "pytest") then
          Some (py "pytest " ++ join (py " ") test_ids)
        else if str_eqb framework (py "go") then
          let pattern := join (py "|") test_ids in
          Some (py "go test -run '" ++ pattern ++ py "' ./...")
        else if str_eqb framework (py "playwright") then
          Some (py "npx playwright test " ++ join (py " ") test_ids)
        else None in
      {| remaining_count := len remaining;
         remaining_tests := remaining;
         run_remaining_command := cmd |}
  end.
(** *** The listers that read a tool's listing *)

(** What [subprocess.run] is asked, and what comes of it.  The listers
    catch TimeoutExpired and FileNotFoundError; any other exception
    leaves the lister. *)
Record run_args := {
  cmd : str;
  cwd : option str;
  timeout : Z
}.

Inductive run_outcome :=
| Completed (returncode : Z) (stdout : str)
| TimeoutExpired
| FileNotFoundError
| OtherException.

(** [a or b] on strings *)
Definition str_or (a b : str) : str :=
  match a with
  | [] => b
  | _ :: _ => a
  end.

Section Listers.
Context (U : unicodedata) (run : run_args -> run_outcome).

(** **** list_pytest_tests *)

(** the test of the loop: ["::" in line and not line.startswith("<")] *)
Definition pytest_wanted (line : str) : bool :=
  contains (py "::") line && negb (startswith (py "<") line).

(** the body of the loop, for a line that passed the test *)
Definition pytest_item (line : str) : TestItem :=
  let parts := split (py "::") line in
  let file_path := hd [] parts in
  let test_name := if 1 <? List.length parts then last parts [] else py "unknown" in
  {| id := line;
     name := test_name;
     file := file_path;
     line := None;
     suite := if 2 <? List.length parts
              then Some (join (py "::") (removelast (tl parts)))
              else None |}.

Definition pytest_tests (stdout : str) : list TestItem :=
  map pytest_item (filter pytest_wanted (map (strip U) (split_lines stdout))).

(** [None]: an exception the lister does not catch. *)
Definition list_pytest_tests (path : str) : option TestList :=
  match run {| cmd := py "pytest --collect-only -q " ++ path; cwd := None; timeout := 120 |} with
  | Completed _ stdout =>
      let tests := pytest_tests stdout in
      Some {| framework := py "pytest";
              total := len tests;
              tests := tests;
              run_single_command := py "pytest {test_id}";
              run_from_command := py "pytest {test_id}";
              bail_command := py "pytest -x" |}
  | TimeoutExpired | FileNotFoundError =>
      Some {| framework := py "pytest";
              total := 0;
              tests := [];
              run_single_command := py "pytest {test_id}";
              run_from_command := py "pytest {test_id}";
              bail_command := py "pytest -x" |}
  | OtherException => None
  end.

(** **** list_go_tests *)

(** [current_pkg] is never assigned after its initialisation. *)
Definition current_pkg : str := [].

(** a line the loop passes over: it starts with "ok" or "?" *)
Definition go_package_line (line : str) : bool :=
  startswith (py "ok") line || startswith (py "?") line.

Definition go_test_line (line : str) : bool :=
  startswith (py "Test") line || startswith (py "Benchmark") line.

Definition go_item (path : str) (line : str) : TestItem :=
  {| id := line;
     name := line;
     file := str_or current_pkg path;
     line := None;
     suite := None |}.

Definition go_tests (path : str) (stdout : str) : list TestItem :=
  flat_map
    (fun line =>
       if go_package_line line then []
       else if go_test_line line then [go_item path line]
       else [])
    (map (strip U) (split_lines stdout)).

Definition list_go_tests (path : str) : option TestList :=
  match run {| cmd := py "go test -list '.*' " ++ path; cwd := None; timeout := 60 |} with
  | Completed _ stdout =>
      let tests := go_tests path stdout in
      Some {| framework := py "go";
              total := len tests;
              tests := tests;
              run_single_command := py "go test -run {test_id} " ++ path;
              run_from_command := py "go test -run '{test_id}.*' " ++ path;
              bail_command := py "go test -failfast " ++ path |}
  | TimeoutExpired | FileNotFoundError =>
      Some {| framework := py "go";
              total := 0;
              tests := [];
              run_single_command := py "go test -run {test_id} " ++ path;
              run_from_command := py "go test -run '{test_id}.*' " ++ path;
              bail_command := py "go test -failfast " ++ path |}
  | OtherException => None
  end.

(** **** list_playwright_tests *)

Definition playwright_item (m : Re.Match) : TestItem :=
  let file_path := Re.group m 1 in
  let line_num := int_of_digits U (Re.group m 2) in
  let test_name := strip U (Re.group m 3) in
  {| id := file_path ++ py ":" ++ str_of_Z line_num;
     name := test_name;
     file := file_path;
     line := Some line_num;
     suite := None |}.

Definition playwright_tests (stdout : str) : list TestItem :=
  flat_map
    (fun line =>
       match Re.search U Re.no_flags ListPat.playwright_line line with
       | Some m => [playwright_item m]
       | None => []
       end)
    (split_lines stdout).

Definition list_playwright_tests (path : str) : option TestList :=
  match run {| cmd := py "npx playwright test --list"; cwd := Some path; timeout := 60 |} with
  | Completed _ stdout =>
      let tests := playwright_tests stdout in
      Some {| framework := py "playwright";
              total := len tests;
              tests := tests;
              run_single_command := py "npx playwright test {test_id}";
              run_from_command := py "npx playwright test {test_id}";
              bail_command := py "npx playwright test --max-failures=1" |}
  | TimeoutExpired | FileNotFoundError =>
      Some {| framework := py "playwright";
              total := 0;
              tests := [];
              run_single_command := py "npx playwright test {test_id}";
              run_from_command := py "npx playwright test {test_id}";
              bail_command := py "npx playwright test --max-failures=1" |}
  | OtherException => None
  end.
End Listers.
End list_tests.

(* ===================================================================== *)
(** ** The extractors and the assembler on objects *)
(* ===================================================================== *)

(** The functions above are the scripts' functions as functions of their
    arguments.  The source builds its values by mutation: every extractor
    creates a list [failures] and appends to it in its loops, creates a
    [TestResult] object at the end, and [parse_output] assigns to the
    [framework] field of the object the extractor returned.  Here are the
    same functions once more with these objects in a store of mutable
    objects, statement by statement.  A [FailedTest] and the dictionary
    [asdict] makes of it are never changed after they are made, and so are
    the dictionaries [patterns] and [parsers], which a call builds and
    reads: they stay values.  The modules have no variable of their own
    besides their classes and functions. *)
Module Store.
Inductive obj :=
| ListObj (items : list FailedTest)
| ResultObj (r : TestResult).

Definition addr := nat.
Definition t := list obj.

Definition alloc (h : t) (o : obj) : addr * t := (List.length h, h ++ [o]).

Definition read (h : t) (a : addr) : option obj := nth_error h a.

(** change the object at [a] in place *)
Fixpoint update (h : t) (a : addr) (f : obj -> obj) : t :=
  match h, a with
  | [], _ => []
  | o :: h', O => f o :: h'
  | o :: h', S a' => o :: update h' a' f
  end.
End Store.

(** A statement: from a store to an exception, or to a value and the
    store it leaves. *)
Definition M (A : Type) : Type := Store.t -> result (A * Store.t).

#[global] Instance Monad_M : Monad M :=
  {| ret := fun _ a h => inr (a, h);
     bind := fun _ _ c k h =>
               match c h with
               | inl e => inl e
               | inr (a, h') => k a h'
               end |}.

(** an expression that reads and writes no object *)
Definition lift {A : Type} (c : result A) : M A :=
  fun h => match c with inl e => inl e | inr a => inr (a, h) end.

(** [[]] *)
Definition new_list : M Store.addr :=
  fun h => inr (Store.alloc h (Store.ListObj [])).

(** [l.append(x)] *)
Definition append (l : Store.addr) (x : FailedTest) : M unit :=
  fun h =>
    inr (tt, Store.update h l
               (fun o =>
                  match o with
                  | Store.ListObj items => Store.ListObj (items ++ [x])
                  | o => o
                  end)).

(** the items of the list [l], as [len(l)] and [for f in l] read them *)
Definition items (l : Store.addr) : M (list FailedTest) :=
  fun h =>
    inr (match Store.read h l with
         | Some (Store.ListObj items) => items
         | _ => []
         end, h).

(** [TestResult(...)] *)
Definition new_result (r : TestResult) : M Store.addr :=
  fun h => inr (Store.alloc h (Store.ResultObj r)).

(** [result.framework = v] *)
Definition setattr_framework (result : Store.addr) (v : str) : M unit :=
  fun h =>
    inr (tt, Store.update h result
               (fun o =>
                  match o with
                  | Store.ResultObj r => Store.ResultObj (set_framework r v)
                  | o => o
                  end)).

(** [for x in xs: body] *)
Fixpoint for_each {A : Type} (xs : list A) (body : A -> M unit) : M unit :=
  match xs with
  | [] => ret tt
  | x :: rest => body x ;; for_each rest body
  end.

Section ParserObjects.
Context (U : unicodedata).

Definition parse_jest_obj (output : str) : M Store.addr :=
  failures <- new_list ;;
  for_each (Re.finditer U Re.S Pat.jest_fail output)
    (fun m =>
       let file_path := Re.group m 1 in
       let block := Re.group m 2 in
       for_each (Re.finditer U Re.S Pat.jest_test block)
         (fun test_match => append failures (jest_failure U file_path test_match))) ;;
  let summary_match := Re.search U Re.I Pat.jest_summary output in
  counts <- match summary_match with
            | Some m =>
                let failed := int_of_digits U (Re.group m 1) in
                let passed := int_of_digits U (Re.group m 2) in
                let total := int_of_digits U (Re.group m 3) in
                ret (total, passed, failed)
            | None =>
                let total_match := Re.search U Re.I Pat.jest_total output in
                total <- match total_match with
                         | Some m => ret (int_of_digits U (Re.group m 1))
                         | None => fs <- items failures ;; ret (len fs)
                         end ;;
                fs <- items failures ;;
                let failed := len fs in
                let passed := (total - failed)%Z in
                ret (total, passed, failed)
            end ;;
  let '(total, passed, failed) := counts in
  duration_ms <- lift (duration_of U (Re.search U Re.no_flags Pat.jest_duration output)) ;;
  fs <- items failures ;;
  new_result {| framework := py "jest";
                total := total;
                passed := passed;
                failed := failed;
                skipped := 0;
                duration_ms := duration_ms;
                failures := fs |}.

Definition parse_pytest_obj (output : str) : M Store.addr :=
  failures <- new_list ;;
  for_each (Re.finditer U Re.no_flags Pat.pytest_fail output)
    (fun m => append failures (pytest_failure U output m)) ;;
  let summary_match := Re.search U Re.I Pat.pytest_summary output in
  counts <- match summary_match with
            | Some m =>
                ret (int_of_digits U (Re.group m 1), int_of_digits U (Re.group m 2))
            | None =>
                fs <- items failures ;;
                let failed := len fs in
                let passed_match := Re.search U Re.no_flags Pat.n_passed output in
                ret (failed, int_group_or U passed_match 1 0)
            end ;;
  let '(failed, passed) := counts in
  let skipped_match := Re.search U Re.no_flags Pat.n_skipped output in
  let skipped := int_group_or U skipped_match 1 0 in
  let total := (passed + failed + skipped)%Z in
  duration_ms <- lift (duration_of U (Re.search U Re.no_flags Pat.pytest_duration output)) ;;
  fs <- items failures ;;
  new_result {| framework := py "pytest";
                total := total;
                passed := passed;
                failed := failed;
                skipped := skipped;
                duration_ms := duration_ms;
                failures := fs |}.

Definition parse_go_obj (output : str) : M Store.addr :=
  failures <- new_list ;;
  for_each (Re.finditer U Re.S Pat.go_fail output)
    (fun m => append failures (go_failure U m)) ;;
  let pass_count := len (Re.finditer U Re.no_flags Pat.go_pass output) in
  fs <- items failures ;;
  let fail_count := len fs in
  let total := (pass_count + fail_count)%Z in
  duration_ms <- lift (duration_of U (Re.search U Re.M Pat.go_duration output)) ;;
  fs <- items failures ;;
  new_result {| framework := py "go";
                total := total;
                passed := pass_count;
                failed := fail_count;
                skipped := 0;
                duration_ms := duration_ms;
                failures := fs |}.

Definition parse_playwright_obj (output : str) : M Store.addr :=
  failures <- new_list ;;
  for_each (Re.finditer U Re.S Pat.playwright_fail output)
    (fun m => append failures (playwright_failure U m)) ;;
  let summary_match := Re.search U Re.no_flags Pat.playwright_summary output in
  counts <- match summary_match with
            | Some m =>
                ret (int_of_digits U (Re.group m 1), int_of_digits U (Re.group m 2))
            | None =>
                fs <- items failures ;;
                let failed := len fs in
                let passed_match := Re.search U Re.no_flags Pat.n_passed output in
                ret (int_group_or U passed_match 1 0, failed)
            end ;;
  let '(passed, failed) := counts in
  let total := (passed + failed)%Z in
  fs <- items failures ;;
  new_result {| framework := py "playwright";
                total := total;
                passed := passed;
                failed := failed;
                skipped := 0;
                duration_ms := None;
                failures := fs |}.

Definition parser_obj := str -> M Store.addr.

(** The [parsers] dictionary. *)
Definition parsers_obj : list (Framework.t * parser_obj) :=
  [ (Framework.JEST, parse_jest_obj);
    (Framework.VITEST, parse_jest_obj);
    (Framework.PYTEST, parse_pytest_obj);
    (Framework.GO, parse_go_obj);
    (Framework.PLAYWRIGHT, parse_playwright_obj);
    (Framework.CYPRESS, parse_jest_obj) ].

(** [d.get(key, default)] *)
Fixpoint get_obj (d : list (Framework.t * parser_obj)) (key : Framework.t)
    (default : parser_obj) : parser_obj :=
  match d with
  | [] => default
  | (k, v) :: d' => if Framework.eqb k key then v else get_obj d' key default
  end.

Definition parse_output_obj (output : str) (framework : option str) : M Store.addr :=
  fw <- lift (if truthy framework
              then Framework.of_value (match framework with Some f => f | None => [] end)
              else ret (detect_framework U output)) ;;
  let parser := get_obj parsers_obj fw parse_jest_obj in
  result <- parser output ;;
  (if negb (Framework.eqb fw Framework.UNKNOWN)
   then setattr_framework result (Framework.value fw)
   else ret tt) ;;
  ret result.
End ParserObjects.

(** What a call leaves in the store: the list it appended to and, after
    it, the result. *)
Definition returned (h : Store.t) (c : result TestResult) : result (Store.addr * Store.t) :=
  match c with
  | inl e => inl e
  | inr r =>
      inr (S (List.length h), h ++ [Store.ListObj (failures r); Store.ResultObj r])
  end.

(* ===================================================================== *)
(** ** The specification's vocabulary *)
(* ===================================================================== *)

Section Vocabulary.
Context (U : unicodedata).

(** *** Classifier: the categories in priority order *)
Definition priority : list (FailureType.t * list str) :=
  [ (FailureType.ASSERTION, assertion_kw);
    (FailureType.TYPE_ERROR, type_error_kw);
    (FailureType.TIMEOUT, timeout_kw);
    (FailureType.MOCK_ISSUE, mock_kw);
    (FailureType.ENVIRONMENT, environment_kw);
    (FailureType.SYNTAX, syntax_kw) ].

(** case-insensitive substring search *)
Definition contains_ci (kw message : str) : bool := contains kw (lower U message).

(** first match wins *)
Fixpoint first_match (table : list (FailureType.t * list str)) (message : str) : FailureType.t :=
  match table with
  | [] => FailureType.UNKNOWN
  | (category, kws) :: table' =>
      if existsb (fun kw => contains_ci kw message) kws then category
      else first_match table' message
  end.

(** *** Detector: how many signature patterns of a framework match *)
Definition signature (fw : Framework.t) : list Re.t :=
  match fw with
  | Framework.JEST => Pat.jest_sig
  | Framework.VITEST => Pat.vitest_sig
  | Framework.PYTEST => Pat.pytest_sig
  | Framework.GO => Pat.go_sig
  | Framework.PLAYWRIGHT => Pat.playwright_sig
  | Framework.CYPRESS => Pat.cypress_sig
  | Framework.UNKNOWN => []
  end.

Definition score (fw : Framework.t) (text : str) : nat := count_matches U (signature fw) text.

Definition declared_order : list Framework.t :=
  [ Framework.JEST; Framework.VITEST; Framework.PYTEST; Framework.GO;
    Framework.PLAYWRIGHT; Framework.CYPRESS ].

(** the first framework, in declared order, with two matches or more *)
Definition first_reaching (text : str) : Framework.t :=
  match find (fun fw => 2 <=? score fw text) declared_order with
  | Some fw => fw
  | None => Framework.UNKNOWN
  end.

(** *** Assembler: the tag it resolves, the override when there is one,
    else what the detector says *)
Definition resolve (output : str) (framework : option str) : result Framework.t :=
  if truthy framework
  then Framework.of_value (match framework with Some f => f | None => [] end)
  else inr (detect_framework U output).

(** *** Durations: what a result of an extractor with a duration pattern
    holds, given the outcome of the search for that pattern.  No match: no
    duration.  A match: its group read as a float of seconds, times 1000,
    truncated, both conversions having gone through. *)
Definition duration_reported (duration_match : option Re.Match) (r : TestResult) : Prop :=
  match duration_match with
  | None => duration_ms r = None
  | Some m =>
      exists seconds ms,
        float_of_str U (Re.group m 1) = inr seconds /\
        Float.to_int (Float.mul1000 seconds) = inr ms /\
        duration_ms r = Some ms
  end.

(** *** Extractors: no pattern matches *)
Definition none {A : Type} (o : option A) : bool :=
  match o with None => true | Some _ => false end.
Definition empty {A : Type} (l : list A) : bool :=
  match l with [] => true | _ :: _ => false end.

Definition jest_silent (output : str) : bool :=
  empty (Re.finditer U Re.S Pat.jest_fail output)
  && none (Re.search U Re.I Pat.jest_summary output)
  && none (Re.search U Re.I Pat.jest_total output)
  && none (Re.search U Re.no_flags Pat.jest_duration output).

Definition pytest_silent (output : str) : bool :=
  empty (Re.finditer U Re.no_flags Pat.pytest_fail output)
  && none (Re.search U Re.I Pat.pytest_summary output)
  && none (Re.search U Re.no_flags Pat.n_passed output)
  && none (Re.search U Re.no_flags Pat.n_skipped output)
  && none (Re.search U Re.no_flags Pat.pytest_duration output).

Definition go_silent (output : str) : bool :=
  empty (Re.finditer U Re.S Pat.go_fail output)
  && empty (Re.finditer U Re.no_flags Pat.go_pass output)
  && none (Re.search U Re.M Pat.go_duration output).

Definition playwright_silent (output : str) : bool :=
  empty (Re.finditer U Re.S Pat.playwright_fail output)
  && none (Re.search U Re.no_flags Pat.playwright_summary output)
  && none (Re.search U Re.no_flags Pat.n_passed output).
End Vocabulary.

(** the zero-valued result *)
Definition zero_result (tag : str) : TestResult :=
  {| framework := tag; total := 0; passed := 0; failed := 0; skipped := 0;
     duration_ms := None; failures := [] |}.

(** *** Rerun commands: the template of a framework tag, filled from the
    fields of a record *)
Definition jest_family : list str := [py "jest"; py "vitest"; py "cypress"].

Definition jest_command (f : FailedTest) : option str :=
  Some (py "npx jest --testNamePattern=" ++ [QUOTATION_MARK] ++ test_name f
          ++ [QUOTATION_MARK]).
Definition pytest_command (f : FailedTest) : option str :=
  Some (py "pytest " ++ file f ++ py "::" ++ test_name f).
Definition go_command (f : FailedTest) : option str :=
  Some (py "go test -run " ++ test_name f ++ py " ./...").
Definition playwright_command (f : FailedTest) (n : Z) : option str :=
  Some (py "npx playwright test " ++ file f ++ py ":" ++ str_of_Z n).

Definition rerun_template (tag : str) (f : FailedTest) : option str :=
  if existsb (str_eqb tag) jest_family then jest_command f
  else if str_eqb tag (py "pytest") then pytest_command f
  else if str_eqb tag (py "go") then go_command f
  else if str_eqb tag (py "playwright") then
    match line_number f with
    | Some n => playwright_command f n
    | None => None
    end
  else None.

(** *** Override tags: the frameworks with an extractor *)
Definition supported_tags : list str :=
  [py "jest"; py "vitest"; py "pytest"; py "go"; py "playwright"; py "cypress"].
Definition supported (tag : str) : bool := existsb (str_eqb tag) supported_tags.

(** *** Remaining set: the tags with a command *)
Definition recognized_tags : list str :=
  [py "jest"; py "vitest"; py "pytest"; py "go"; py "playwright"].
Definition recognized (tag : str) : bool := existsb (str_eqb tag) recognized_tags.

(** all counts non-negative *)
Definition counts_nonneg (r : TestResult) : Prop :=
  (0 <= total r /\ 0 <= passed r /\ 0 <= failed r /\ 0 <= skipped r)%Z.

(** *** Failure records: the loop bodies they come from *)
Inductive made_by (U : unicodedata) (output : str) (f : FailedTest) : Prop :=
| by_jest (file_path : str) (m : Re.Match) :
    f = jest_failure U file_path m -> made_by U output f
| by_pytest (m : Re.Match) : f = pytest_failure U output m -> made_by U output f
| by_go (m : Re.Match) : f = go_failure U m -> made_by U output f
| by_playwright (m : Re.Match) : f = playwright_failure U m -> made_by U output f.

(** *** Failure records: the seven values of [failure_type] *)
Definition failure_tags : list str :=
  map FailureType.value
    [ FailureType.ASSERTION; FailureType.TYPE_ERROR; FailureType.TIMEOUT;
      FailureType.MOCK_ISSUE; FailureType.ENVIRONMENT; FailureType.SYNTAX;
      FailureType.UNKNOWN ].

(** *** Floats: not negative *)
Definition float_nonneg (f : float) : Prop :=
  match f with
  | Finite m _ => (0 <= m)%Z
  | Infinity => True
  end.

Definition b2n (b : bool) : nat := if b then 1 else 0.

(** *** Numbers in text: the dots and the digits of a string *)
Definition is_dot (c : char) : bool := N.eqb c FULL_STOP.
Definition dots (s : str) : nat := List.length (filter is_dot s).
Definition digit_of (U : unicodedata) (c : char) : bool := negb (is_dot c) && isdecimal U c.
Definition digits (U : unicodedata) (s : str) : nat := List.length (filter (digit_of U) s).

(* ===================================================================== *)
(** ** Example inputs *)
(* ===================================================================== *)

Module Examples.
(** the specification's end-to-end example: one failing jest test *)
Definition jest_report : str :=
  py "FAIL src/a.test.js\n  " ++ [MULTIPLICATION_X]
    ++ py " adds numbers (12 ms)\n    expected 3 to equal 4\n\nTests: 1 failed, 2 passed, 3 total\nTime: 1.5 s\n".

(** a jest report without summary line that mentions zero tests *)
Definition jest_zero_tests : str :=
  py "FAIL a.test.js\n" ++ [MULTIPLICATION_X] ++ py " t (1 ms)\nboom\n0 tests".

(** a jest summary with a skipped test *)
Definition jest_skipped : str := py "Tests: 1 failed, 1 skipped, 2 passed, 4 total".

Definition pytest_report : str :=
  py "FAILED tests/t.py::test_a - assert 1 == 2\n=== 1 failed, 2 passed, 1 skipped in 0.12s ===\n".

Definition go_report : str :=
  py "--- FAIL: TestA (0.01s)\n    a_test.go:12: bad\n--- PASS: TestB (0.00s)\nFAIL\nFAIL pkg 0.012s\n".

Definition playwright_report : str :=
  py "  1) [chromium] " ++ [ANGLE_QUOTE] ++ py " tests/a.spec.ts:3:5 " ++ [ANGLE_QUOTE]
    ++ py " basic test\n\n    Error: boom\n\n  1 passed (2.5s)\n  1 failed\n".

(** what the assembler makes of [jest_report] when told it is vitest *)
Definition vitest_result : TestResult :=
  Eval vm_compute in
    match parse_output ascii_tables jest_report (Some (py "vitest")) with
    | inr r => r
    | inl _ => zero_result []
    end.

(** a text with durations in the three forms the extractors look for *)
Definition timed : str := py "Time: 1.5 s\nran in 1.5s\n1.5s".

(** what the jest, pytest and go extractors make of [timed] *)
Definition timed_jest : TestResult :=
  Eval vm_compute in
    match parse_jest ascii_tables timed with inr r => r | inl _ => zero_result [] end.
Definition timed_pytest : TestResult :=
  Eval vm_compute in
    match parse_pytest ascii_tables timed with inr r => r | inl _ => zero_result [] end.
Definition timed_go : TestResult :=
  Eval vm_compute in
    match parse_go ascii_tables timed with inr r => r | inl _ => zero_result [] end.

(** one signature pattern of every framework, and no more *)
Definition one_each : str := py "Jest vitest pytest go test playwright cypress".

(** two signature patterns of jest and two of pytest *)
Definition jest_and_pytest : str := py "Jest PASS pytest FAILED".

(** a text no pattern of any extractor matches *)
Definition chatter : str := py "no output was captured".

(** an encoder that prints the framework tag of a result and nothing
    else *)
Definition tag_encoder (r : TestResult) (indent : option Z) : result str :=
  inr (framework r).

Definition item (i : string) : list_tests.TestItem :=
  {| list_tests.id := py i; list_tests.name := py i; list_tests.file := py i;
     list_tests.line := None; list_tests.suite := None |}.

(** an inventory of five tests *)
Definition five (tag : string) : list_tests.TestList :=
  {| list_tests.framework := py tag;
     list_tests.total := 5;
     list_tests.tests := map item ["a"; "b"; "c"; "d"; "e"]%string;
     list_tests.run_single_command := [];
     list_tests.run_from_command := [];
     list_tests.bail_command := [] |}.
(** a playwright failure whose message has a keyword after 250 other
    characters *)
Definition playwright_long : str :=
  py "1) [chromium] " ++ [ANGLE_QUOTE] ++ py " a.spec.ts:7:1 " ++ [ANGLE_QUOTE]
    ++ py " slow test\n" ++ repeat 120%N 250 ++ py " expected\n".

Definition playwright_long_result : TestResult :=
  Eval vm_compute in
    match parse_playwright ascii_tables playwright_long with
    | inr r => r
    | inl _ => zero_result []
    end.

Definition pytest_result : TestResult :=
  Eval vm_compute in
    match parse_pytest ascii_tables pytest_report with
    | inr r => r
    | inl _ => zero_result []
    end.

(** a jest failure and nothing else *)
Definition jest_bare : str :=
  py "FAIL a.test.js\n" ++ [MULTIPLICATION_X] ++ py " t (1 ms)\nboom".

(** a JavaScript syntax error, as a message *)
Definition js_syntax_error : str := py "SyntaxError: Unexpected token }".

(** what [pytest --collect-only -q] prints *)
Definition pytest_listing : str :=
  py "tests/test_a.py::test_one\ntests/test_a.py::TestB::test_two\n<Module x>\n\n2 tests collected in 0.01s\n".

(** what [go test -list] prints *)
Definition go_listing : str := py "TestAlpha\nBenchmarkBeta\nok  \tpkg\t0.003s\n".

(** what [npx playwright test --list] prints *)
Definition playwright_listing : str :=
  py "Listing tests:\n  " ++ [CHECK_MARK] ++ py "  tests/a.spec.ts:03:5 " ++ [ANGLE_QUOTE]
    ++ py " basic test\nTotal: 1 test in 1 file\n".

(** a tool that prints [stdout] and exits with 0, whatever it is asked *)
Definition prints (stdout : str) : list_tests.run_args -> list_tests.run_outcome :=
  fun _ => list_tests.Completed 0 stdout.

(** a tool that does not finish in time, and a tool that is not there *)
Definition times_out : list_tests.run_args -> list_tests.run_outcome :=
  fun _ => list_tests.TimeoutExpired.
Definition not_found : list_tests.run_args -> list_tests.run_outcome :=
  fun _ => list_tests.FileNotFoundError.
End Examples.

(* ===================================================================== *)
(** ** Basic facts *)
(* ===================================================================== *)

Lemma str_eqb_spec a b : reflect (a = b) (str_eqb a b).
Proof.
  revert b; induction a as [|x a IH]; intros [|y b]; simpl;
    try (constructor; congruence).
  destruct (N.eqb_spec x y) as [->|Hne]; simpl.
  - destruct (IH b) as [->|Hne]; constructor; congruence.
  - constructor; congruence.
Qed.

Lemma str_eqb_refl a : str_eqb a a = true.
Proof. destruct (str_eqb_spec a a); congruence. Qed.

Lemma str_eqb_neq a b : a <> b -> str_eqb a b = false.
Proof. destruct (str_eqb_spec a b); congruence. Qed.

(** What a bind that returns tells about its parts. *)
Lemma bind_inr {A B : Type} (c : result A) (k : A -> result B) (b : B) :
  bind c k = inr b -> exists a, c = inr a /\ k a = inr b.
Proof. destruct c as [e|a]; simpl; [discriminate | eauto]. Qed.

Lemma len_nonneg {A : Type} (l : list A) : (0 <= len l)%Z.
Proof. unfold len; lia. Qed.

Lemma int_of_digits_nonneg U s : (0 <= int_of_digits U s)%Z.
Proof. unfold int_of_digits; lia. Qed.

Lemma int_group_or_nonneg U m n d : (0 <= d)%Z -> (0 <= int_group_or U m n d)%Z.
Proof. destruct m; simpl; auto using int_of_digits_nonneg. Qed.

Lemma int_group_or_zero_nonneg U m n : (0 <= int_group_or U m n 0)%Z.
Proof. apply int_group_or_nonneg. lia. Qed.

Create HintDb counts.
#[local] Hint Resolve len_nonneg int_of_digits_nonneg int_group_or_nonneg
  int_group_or_zero_nonneg : counts.

(* ===================================================================== *)
(** ** The matcher stays inside the text *)
(* ===================================================================== *)

Section MatcherFacts.
Context (U : unicodedata) (fl : Re.flags).
Import Re.

Lemma ahead_refl st : ahead st st.
Proof. exists 0. unfold ahead_by. simpl. repeat split; lia. Qed.

Lemma ahead_trans a b c : ahead a b -> ahead b c -> ahead a c.
Proof.
  intros (n & Hn & Hp & Hr) (m & Hm & Hq & Hs).
  exists (n + m). unfold ahead_by. rewrite Hr in Hm, Hs. rewrite length_skipn in Hm.
  repeat split; [lia | lia |].
  rewrite Hs, skipn_skipn. f_equal. lia.
Qed.

Lemma ahead_step st c s' : rest st = c :: s' -> ahead st (step st s').
Proof.
  intros E. exists 1. unfold ahead_by. rewrite E. simpl. repeat split; lia.
Qed.

Lemma ahead_same st st' : pos st' = pos st -> rest st' = rest st -> ahead st st'.
Proof. intros Hp Hr. exists 0. unfold ahead_by. simpl. repeat split; auto; lia. Qed.

Lemma lit_ahead l : forall st st', lit U fl l st = Some st' -> ahead st st'.
Proof.
  induction l as [|p l IH]; simpl; intros st st' H.
  - injection H as <-. apply ahead_refl.
  - destruct (rest st) as [|c s'] eqn:E; [discriminate|].
    destruct (lit_eq U fl p c); [|discriminate].
    eapply ahead_trans; [apply (ahead_step st c s' E) | apply IH; exact H].
Qed.

(** Wherever a repetition hands over to its continuation, some number of
    characters of the text has been consumed. *)
Lemma rep_greedy_ahead cs k res : forall s min p g,
  rep_greedy U fl cs min s p g k = Some res ->
  exists n, n <= List.length s /\
    k {| pos := p + n; rest := skipn n s; groups := g |} = Some res.
Proof.
  assert (Here : forall s (min p : nat) g,
    (if Nat.eqb min 0 then k {| pos := p; rest := s; groups := g |} else None) = Some res ->
    exists n, n <= List.length s /\
      k {| pos := p + n; rest := skipn n s; groups := g |} = Some res).
  { intros s min p g H. destruct (Nat.eqb min 0); [|discriminate].
    exists 0. rewrite Nat.add_0_r. simpl. split; [lia | exact H]. }
  induction s as [|c s IH]; intros min p g H; simpl in H.
  - apply Here in H. exact H.
  - destruct (in_cset U fl cs c); [|apply Here in H; exact H].
    destruct (rep_greedy U fl cs (Nat.pred min) s (Datatypes.S p) g k) eqn:E.
    + injection H as ->. apply IH in E. destruct E as (n & Hn & Hk).
      exists (Datatypes.S n). simpl. split; [lia|].
      replace (p + Datatypes.S n) with (Datatypes.S p + n) by lia. exact Hk.
    + apply Here in H. exact H.
Qed.

Lemma rep_lazy_ahead cs k res : forall s min p g,
  rep_lazy U fl cs min s p g k = Some res ->
  exists n, n <= List.length s /\
    k {| pos := p + n; rest := skipn n s; groups := g |} = Some res.
Proof.
  induction s as [|c s IH]; intros min p g H; simpl in H.
  - destruct (Nat.eqb min 0); [|discriminate].
    destruct (k {| pos := p; rest := []; groups := g |}) eqn:E; [|discriminate].
    injection H as ->. exists 0. rewrite Nat.add_0_r. simpl. auto.
  - assert (More :
      (if in_cset U fl cs c
       then rep_lazy U fl cs (Nat.pred min) s (Datatypes.S p) g k else None) = Some res ->
      exists n, n <= List.length (c :: s) /\
        k {| pos := p + n; rest := skipn n (c :: s); groups := g |} = Some res).
    { intros M. destruct (in_cset U fl cs c); [|discriminate].
      apply IH in M. destruct M as (n & Hn & Hk).
      exists (Datatypes.S n). simpl. split; [lia|].
      replace (p + Datatypes.S n) with (Datatypes.S p + n) by lia. exact Hk. }
    destruct (Nat.eqb min 0); [|apply More; exact H].
    destruct (k {| pos := p; rest := c :: s; groups := g |}) eqn:E.
    + injection H as ->. exists 0. rewrite Nat.add_0_r. simpl. split; [lia | exact E].
    + apply More; exact H.
Qed.

(** Every state the matcher hands to its continuation lies ahead of the
    state it started from. *)
Lemma exec_ahead r : forall st k res,
  exec U fl r st k = Some res ->
  exists st', ahead st st' /\ k st' = Some res.
Proof.
  induction r as [cs | l | a IHa b IHb | a IHa b IHb | cs min greedy | a IHa
                  | n a IHa | a IHa | | ];
    intros st k res H; simpl in H.
  - destruct (rest st) as [|c s'] eqn:E; [discriminate|].
    destruct (in_cset U fl cs c); [|discriminate].
    eauto using ahead_step.
  - destruct (lit U fl l st) as [st'|] eqn:E; [|discriminate].
    eauto using lit_ahead.
  - apply IHa in H. destruct H as (st1 & H1 & H). apply IHb in H.
    destruct H as (st2 & H2 & H). eauto using ahead_trans.
  - destruct (exec U fl a st k) eqn:E.
    + injection H as ->. apply IHa in E. exact E.
    + apply IHb in H. exact H.
  - assert (R : exists n, n <= List.length (rest st) /\
                k {| pos := pos st + n; rest := skipn n (rest st); groups := groups st |}
                  = Some res).
    { destruct greedy; [apply rep_greedy_ahead in H | apply rep_lazy_ahead in H]; exact H. }
    destruct R as (n & Hn & Hk). eexists. split; [|exact Hk].
    exists n. unfold ahead_by. simpl. auto.
  - destruct (exec U fl a st k) eqn:E.
    + injection H as ->. apply IHa in E. exact E.
    + eauto using ahead_refl.
  - apply IHa in H. destruct H as (st1 & H1 & H). eexists. split; [|exact H].
    destruct H1 as (m & Hm). exists m. exact Hm.
  - destruct (exec U fl a st Some) as [st1|] eqn:E; [|discriminate].
    eexists. split; [|exact H]. apply ahead_same; reflexivity.
  - destruct (rest st); [|discriminate]. eauto using ahead_refl.
  - destruct (at_dollar fl (rest st)); [|discriminate]. eauto using ahead_refl.
Qed.

(** A match attempt at [p] ends between [p] and the end of the text, and
    past [p] when it must advance. *)
Lemma match_at_bounds r s p must_advance st :
  match_at U fl r s p must_advance = Some st ->
  p <= pos st <= p + List.length s /\ (must_advance = true -> p < pos st).
Proof.
  unfold match_at. intros H. apply exec_ahead in H.
  destruct H as (st' & (n & Hn & Hp & _) & H). simpl in Hn, Hp.
  destruct (must_advance && Nat.eqb (pos st') p) eqn:E; [discriminate|].
  injection H as <-. split; [lia|]. intros ->. simpl in E.
  apply Nat.eqb_neq in E. lia.
Qed.

Lemma search_from_bounds r : forall s p b st,
  search_from U fl r s p = Some (b, st) ->
  p <= b /\ b <= pos st <= p + List.length s.
Proof.
  induction s as [|c s IH]; intros p b st H; simpl in H.
  - destruct (match_at U fl r [] p false) as [st0|] eqn:E; [|discriminate].
    injection H as <- <-. apply match_at_bounds in E. simpl in *. lia.
  - destruct (match_at U fl r (c :: s) p false) as [st0|] eqn:E.
    + injection H as <- <-. apply match_at_bounds in E. simpl in *. lia.
    + apply IH in H. simpl. lia.
Qed.

(** The span [re.search] reports lies inside the text. *)
Lemma search_span r text m :
  search U fl r text = Some m ->
  subject m = text /\ fst (span m) <= snd (span m) <= List.length text.
Proof.
  unfold search. destruct (search_from U fl r text 0) as [[b st]|] eqn:E; [|discriminate].
  intros [= <-]. apply search_from_bounds in E. simpl. split; [reflexivity | lia].
Qed.

(** The spans [re.finditer] reports lie inside the text. *)
Lemma scan_spans r text : forall s p skip,
  Forall (fun m => subject m = text /\
                   p <= fst (span m) /\ fst (span m) <= snd (span m) <= p + List.length s)
         (scan U fl r text s p skip).
Proof.
  induction s as [|c s IH]; intros p skip.
  - simpl. destruct skip; [|constructor].
    destruct (match_at U fl r [] p false) as [st|] eqn:E; [|constructor].
    assert (B := match_at_bounds _ _ _ _ _ E). simpl in B.
    destruct (Nat.eqb (pos st) p).
    + constructor; [simpl; split; [reflexivity | lia]|].
      destruct (match_at U fl r [] p true) as [st2|] eqn:E2; [|constructor].
      apply match_at_bounds in E2. simpl in E2.
      constructor; [simpl; split; [reflexivity | lia] | constructor].
    + constructor; [simpl; split; [reflexivity | lia] | constructor].
  - assert (Next : forall n,
      Forall (fun m => subject m = text /\
                       p <= fst (span m) /\
                       fst (span m) <= snd (span m) <= p + List.length (c :: s))
             (scan U fl r text s (Datatypes.S p) n)).
    { intros n. eapply Forall_impl; [|apply IH].
      simpl. intros m (Hs & Hlo & Hhi). split; [exact Hs | lia]. }
    simpl. destruct skip; [|apply Next].
    destruct (match_at U fl r (c :: s) p false) as [st|] eqn:E; [|apply Next].
    assert (B := match_at_bounds _ _ _ _ _ E). simpl in B.
    destruct (Nat.eqb (pos st) p).
    + constructor; [simpl; split; [reflexivity | lia]|].
      destruct (match_at U fl r (c :: s) p true) as [st2|] eqn:E2; [|apply Next].
      apply match_at_bounds in E2. simpl in E2.
      constructor; [simpl; split; [reflexivity | lia] | apply Next].
    + constructor; [simpl; split; [reflexivity | lia] | apply Next].
Qed.

Lemma finditer_spans r text :
  Forall (fun m => subject m = text /\ fst (span m) <= snd (span m) <= List.length text)
         (finditer U fl r text).
Proof.
  unfold finditer. eapply Forall_impl; [|apply scan_spans].
  simpl. intros m (Hs & _ & H). split; [exact Hs | lia].
Qed.
End MatcherFacts.

(* ===================================================================== *)
(** ** The reports of the examples, end to end *)
(* ===================================================================== *)

(** The specification's example: no framework reaches two signature
    matches on it, the jest extractor runs as the fallback and finds the
    one failure. *)
Example jest_report_parsed :
  detect_framework ascii_tables Examples.jest_report = Framework.UNKNOWN /\
  exists r f,
    parse_output ascii_tables Examples.jest_report None = inr r /\
    framework r = py "jest" /\
    (total r, passed r, failed r, skipped r) = (3, 2, 1, 0)%Z /\
    duration_ms r = Some 1500%Z /\
    failures r = [f] /\
    file f = py "src/a.test.js" /\
    test_name f = py "adds numbers" /\
    error_message f = py "expected 3 to equal 4" /\
    line_number f = None /\
    failure_type f = py "assertion".
Proof.
  split; [vm_compute; reflexivity|].
  do 2 eexists. split; [vm_compute; reflexivity|].
  repeat (split; [reflexivity|]). reflexivity.
Qed.

Example go_report_parsed :
  exists r f,
    parse_go ascii_tables Examples.go_report = inr r /\
    (total r, passed r, failed r, skipped r) = (2, 1, 1, 0)%Z /\
    duration_ms r = Some 12%Z /\
    failures r = [f] /\
    file f = py "a_test.go" /\
    test_name f = py "TestA" /\
    error_message f = py "a_test.go:12: bad" /\
    line_number f = Some 12%Z /\
    rerun_command f = Some (py "go test -run TestA ./...").
Proof.
  do 2 eexists. split; [vm_compute; reflexivity|].
  repeat (split; [reflexivity|]). reflexivity.
Qed.

Example playwright_report_parsed :
  exists r f,
    parse_playwright ascii_tables Examples.playwright_report = inr r /\
    (total r, passed r, failed r, skipped r) = (2, 1, 1, 0)%Z /\
    failures r = [f] /\
    file f = py "tests/a.spec.ts" /\
    test_name f = py "basic test" /\
    error_message f = py "Error: boom" /\
    line_number f = Some 3%Z /\
    rerun_command f = Some (py "npx playwright test tests/a.spec.ts:3").
Proof.
  do 2 eexists. split; [vm_compute; reflexivity|].
  repeat (split; [reflexivity|]). reflexivity.
Qed.

(* ===================================================================== *)
(** ** The remaining-set generator *)
(* ===================================================================== *)

Section Remaining.
Import list_tests.

Lemma slice_from_after (A : Type) (l : list A) (i : Z) :
  (0 <= i)%Z -> slice_from l (i + 1) = skipn (S (Z.to_nat i)) l.
Proof.
  intros Hi. unfold slice_from.
  destruct (Z.ltb_spec (i + 1) 0) as [Hneg|_]; [lia|].
  replace (Z.to_nat (i + 1)) with (S (Z.to_nat i)) by lia.
  reflexivity.
Qed.

Lemma skipn_all_iff (A : Type) (l : list A) (n : nat) :
  skipn n l = [] <-> List.length l <= n.
Proof.
  split.
  - intros H. assert (E := length_skipn n l). rewrite H in E. simpl in E. lia.
  - apply skipn_all2.
Qed.

(** What the generator returns once the slice is known. *)
Lemma generate_remaining_tests_cons tl i t rest :
  slice_from (tests tl) (i + 1) = t :: rest ->
  generate_remaining_tests tl i =
    {| remaining_count := len (t :: rest);
       remaining_tests := t :: rest;
       run_remaining_command :=
         let ids := map id (t :: rest) in
         if str_in (framework tl) [py "jest"; py "vitest"] then
           Some (py "npx " ++ framework tl ++ py " " ++ join (py " ") ids)
         else if str_eqb (framework tl) (py "pytest") then
           Some (py "pytest " ++ join (py " ") ids)
         else if str_eqb (framework tl) (py "go") then
           Some (py "go test -run '" ++ join (py "|") ids ++ py "' ./...")
         else if str_eqb (framework tl) (py "playwright") then
           Some (py "npx playwright test " ++ join (py " ") ids)
         else None |}.
Proof. intros E. unfold generate_remaining_tests. rewrite E. reflexivity. Qed.

(** C5.  For an index inside the list, [generate_remaining_tests] returns
    exactly the items after that index, in order, and their number.  The
    suffix is empty exactly when the index is the last one; then the count
    is 0 and there is no command.  A non-empty suffix with a framework tag
    outside jest, vitest, pytest, go and playwright still reports count and
    items, without command.  For those five tags the command joins the ids
    of the remaining items: with spaces after [npx jest], [npx vitest],
    [pytest] and [npx playwright test], with [|] inside the quoted pattern
    of [go test -run]. *)
Theorem remaining_is_the_suffix (tl : TestList) (failed_index : Z) :
  (0 <= failed_index < len (tests tl))%Z ->
  let r := generate_remaining_tests tl failed_index in
  let suffix := skipn (S (Z.to_nat failed_index)) (tests tl) in
  let ids := map id suffix in
  remaining_tests r = suffix /\
  remaining_count r = len suffix /\
  (suffix = [] <-> failed_index = (len (tests tl) - 1)%Z) /\
  (suffix = [] -> remaining_count r = 0%Z /\ run_remaining_command r = None) /\
  (suffix <> [] -> recognized (framework tl) = false ->
     run_remaining_command r = None) /\
  (suffix <> [] ->
     (framework tl = py "jest" ->
        run_remaining_command r = Some (py "npx jest " ++ join (py " ") ids)) /\
     (framework tl = py "vitest" ->
        run_remaining_command r = Some (py "npx vitest " ++ join (py " ") ids)) /\
     (framework tl = py "pytest" ->
        run_remaining_command r = Some (py "pytest " ++ join (py " ") ids)) /\
     (framework tl = py "go" ->
        run_remaining_command r =
          Some (py "go test -run '" ++ join (py "|") ids ++ py "' ./...")) /\
     (framework tl = py "playwright" ->
        run_remaining_command r =
          Some (py "npx playwright test " ++ join (py " ") ids))).
Proof.
  intros [Hlo Hhi] r suffix ids.
  assert (Hslice : slice_from (tests tl) (failed_index + 1) = suffix)
    by (apply slice_from_after; assumption).
  assert (Hlast : suffix = [] <-> failed_index = (len (tests tl) - 1)%Z).
  { unfold suffix. rewrite skipn_all_iff. unfold len in *. lia. }
  subst r ids. destruct suffix as [|t rest] eqn:Esuffix.
  - (* nothing after the index *)
    unfold generate_remaining_tests. rewrite Hslice. simpl.
    repeat split; try tauto; try congruence; apply Hlast; reflexivity.
  - rewrite (generate_remaining_tests_cons tl failed_index t rest Hslice).
    cbv zeta. cbn [remaining_tests remaining_count run_remaining_command].
    split; [reflexivity|]. split; [reflexivity|]. split; [exact Hlast|].
    split; [discriminate|]. split.
    + (* unrecognized tag *)
      intros _ Hrec. unfold recognized, recognized_tags in Hrec.
      cbn [existsb] in Hrec. unfold str_in. cbn [existsb].
      repeat (apply orb_false_iff in Hrec; destruct Hrec as [? Hrec]).
      repeat match goal with H : str_eqb _ _ = false |- _ => rewrite H; clear H end.
      reflexivity.
    + intros _. repeat split; intros ->; reflexivity.
Qed.
End Remaining.

Lemma remaining_is_the_suffix_witness :
  (0 <= 2 < len (list_tests.tests (Examples.five "jest")))%Z /\
  list_tests.remaining_tests (list_tests.generate_remaining_tests (Examples.five "jest") 2)
    = map Examples.item ["d"; "e"]%string /\
  list_tests.remaining_count (list_tests.generate_remaining_tests (Examples.five "jest") 2)
    = 2%Z /\
  list_tests.run_remaining_command
      (list_tests.generate_remaining_tests (Examples.five "jest") 2)
    = Some (py "npx jest d e").
Proof.
  assert (H : (0 <= 2 < len (list_tests.tests (Examples.five "jest")))%Z)
    by (unfold len; simpl; lia).
  split; [exact H|].
  destruct (remaining_is_the_suffix (Examples.five "jest") 2 H)
    as (Hitems & Hcount & _ & _ & _ & Hcmd).
  split; [exact Hitems|]. split; [exact Hcount|].
  apply Hcmd; [discriminate | reflexivity].
Defined.

(* ===================================================================== *)
(** ** The classifier *)
(* ===================================================================== *)

Section Classifier.
Context (U : unicodedata).

Lemma any_in_false kws text :
  (forall kw, In kw kws -> contains kw text = false) -> any_in kws text = false.
Proof.
  intros H. unfold any_in. induction kws as [|kw kws IH]; simpl; [reflexivity|].
  rewrite H by (left; reflexivity). simpl. apply IH. intros; apply H; right; assumption.
Qed.

Lemma any_in_true kws text kw :
  In kw kws -> contains kw text = true -> any_in kws text = true.
Proof. intros Hin Hc. unfold any_in. apply existsb_exists. eauto. Qed.

Lemma classify_failure_first_match message :
  classify_failure U message = first_match U priority message.
Proof. reflexivity. Qed.

(** C3.  [classify_failure] is a function of the message alone that
    gives the first category, in the order assertion, type_error, timeout,
    mock_issue, environment, syntax, one of whose keywords occurs in the
    lower-cased message.  A message that contains, whatever the case, one
    of "expected", "to equal", "to be", "assertion", "assert" is an
    assertion, whichever other keywords it contains; a message that
    contains no keyword of any category is unknown. *)
Theorem classify_failure_priority (message : str) :
  classify_failure U message = first_match U priority message /\
  (forall kw,
      In kw (map py ["expected"; "to equal"; "to be"; "assertion"; "assert"]%string) ->
      contains_ci U kw message = true ->
      classify_failure U message = FailureType.ASSERTION) /\
  ((forall category kws kw,
       In (category, kws) priority -> In kw kws -> contains_ci U kw message = false) ->
   classify_failure U message = FailureType.UNKNOWN).
Proof.
  split; [reflexivity|]. split.
  - intros kw Hin Hc. unfold classify_failure.
    rewrite (any_in_true assertion_kw (lower U message) kw Hin Hc). reflexivity.
  - intros Hnone. unfold classify_failure.
    rewrite !any_in_false; [reflexivity | ..]; intros kw Hin;
      (eapply Hnone; [|exact Hin]); unfold priority; simpl; tauto.
Qed.
End Classifier.

Lemma classify_failure_priority_witness :
  contains_ci ascii_tables (py "timeout") (py "Timeout: Assertion failed") = true /\
  contains_ci ascii_tables (py "assertion") (py "Timeout: Assertion failed") = true /\
  classify_failure ascii_tables (py "Timeout: Assertion failed") = FailureType.ASSERTION.
Proof.
  split; [reflexivity|]. split; [reflexivity|].
  destruct (classify_failure_priority ascii_tables (py "Timeout: Assertion failed"))
    as (_ & Hassert & _).
  apply (Hassert (py "assertion")); [simpl; tauto | reflexivity].
Defined.

(* ===================================================================== *)
(** ** The framework detector *)
(* ===================================================================== *)

Section Detector.
Context (U : unicodedata).

Lemma find_first (A : Type) (p : A -> bool) (l : list A) (x : A) :
  find p l = Some x ->
  exists before after,
    l = before ++ x :: after /\ p x = true /\ forall y, In y before -> p y = false.
Proof.
  induction l as [|a l IH]; simpl; [discriminate|].
  destruct (p a) eqn:Ea.
  - intros [= ->]. exists [], l. simpl. tauto.
  - intros H. destruct (IH H) as (before & after & -> & Hx & Hb).
    exists (a :: before), after. simpl. repeat split; auto.
    intros y [<-|Hy]; auto.
Qed.

Lemma find_nothing (A : Type) (p : A -> bool) (l : list A) :
  (forall y, In y l -> p y = false) -> find p l = None.
Proof.
  induction l as [|a l IH]; simpl; [reflexivity|].
  intros H. rewrite (H a) by tauto. apply IH. intros; apply H; tauto.
Qed.

Lemma detect_framework_first_reaching text :
  detect_framework U text = first_reaching U text.
Proof.
  unfold detect_framework, first_reaching, declared_order, patterns, score.
  cbn [detect_loop find signature].
  repeat match goal with
         | |- context [2 <=? ?n] => destruct (2 <=? n); [reflexivity|]
         end.
  reflexivity.
Qed.

Lemma find_at (A : Type) (p : A -> bool) (before after : list A) (x : A) :
  p x = true -> (forall y, In y before -> p y = false) ->
  find p (before ++ x :: after) = Some x.
Proof.
  intros Hx. induction before as [|a before IH]; simpl; intros Hb.
  - rewrite Hx. reflexivity.
  - rewrite (Hb a) by tauto. apply IH. intros y Hy. apply Hb. tauto.
Qed.

(** C4.  [detect_framework] returns the first framework, in the order
    jest, vitest, pytest, go, playwright, cypress, of whose three
    signature patterns two or more match the text (matched with
    IGNORECASE): it returns a framework only if that framework has two
    matches and none before it has; it does return the framework in that
    position; and when no framework has two matches the answer is
    unknown. *)
Theorem detect_framework_threshold (text : str) :
  declared_order =
    [Framework.JEST; Framework.VITEST; Framework.PYTEST; Framework.GO;
     Framework.PLAYWRIGHT; Framework.CYPRESS] /\
  (forall fw, In fw declared_order -> List.length (signature fw) = 3) /\
  (forall fw,
      detect_framework U text = fw -> fw <> Framework.UNKNOWN ->
      2 <= score U fw text /\
      exists before after,
        declared_order = before ++ fw :: after /\
        forall fw', In fw' before -> score U fw' text < 2) /\
  (forall before fw after,
      declared_order = before ++ fw :: after ->
      2 <= score U fw text ->
      (forall fw', In fw' before -> score U fw' text < 2) ->
      detect_framework U text = fw) /\
  ((forall fw, In fw declared_order -> score U fw text < 2) ->
   detect_framework U text = Framework.UNKNOWN).
Proof.
  split; [reflexivity|]. split.
  { intros fw Hin. unfold declared_order in Hin. simpl in Hin.
    repeat (destruct Hin as [<-|Hin]; [reflexivity|]). contradiction. }
  rewrite detect_framework_first_reaching. unfold first_reaching.
  split; [|split].
  - intros fw Hfw Hknown.
    destruct (find _ declared_order) as [fw0|] eqn:Efind; [|congruence].
    subst fw0. apply find_first in Efind.
    destruct Efind as (before & after & Hsplit & Hreach & Hbefore).
    apply Nat.leb_le in Hreach. split; [exact Hreach|].
    exists before, after. split; [exact Hsplit|].
    intros fw' Hin. specialize (Hbefore fw' Hin).
    apply Nat.leb_gt in Hbefore. exact Hbefore.
  - intros before fw after Hsplit Hreach Hbefore. rewrite Hsplit.
    rewrite find_at; [reflexivity| |].
    + apply Nat.leb_le. exact Hreach.
    + intros fw' Hin. apply Nat.leb_gt. apply Hbefore. exact Hin.
  - intros Hlow. rewrite find_nothing; [reflexivity|].
    intros fw Hin. apply Nat.leb_gt. apply Hlow. exact Hin.
Qed.
End Detector.

Lemma detect_framework_threshold_witness :
  ((forall fw, In fw declared_order -> score ascii_tables fw Examples.one_each = 1) /\
   detect_framework ascii_tables Examples.one_each = Framework.UNKNOWN) /\
  (score ascii_tables Framework.JEST Examples.go_report = 1 /\
   score ascii_tables Framework.GO Examples.go_report = 2 /\
   detect_framework ascii_tables Examples.go_report = Framework.GO) /\
  (score ascii_tables Framework.JEST Examples.jest_and_pytest = 2 /\
   score ascii_tables Framework.PYTEST Examples.jest_and_pytest = 2 /\
   detect_framework ascii_tables Examples.jest_and_pytest = Framework.JEST).
Proof.
  assert (H : forall fw, In fw declared_order -> score ascii_tables fw Examples.one_each = 1).
  { intros fw Hin. unfold declared_order in Hin. simpl in Hin.
    repeat (destruct Hin as [<-|Hin]; [vm_compute; reflexivity|]). contradiction. }
  split; [split; [exact H|]|split].
  - destruct (detect_framework_threshold ascii_tables Examples.one_each) as (_ & _ & _ & _ & Hnone).
    apply Hnone. intros fw Hin. rewrite (H fw Hin). constructor.
  - split; [vm_compute; reflexivity|]. split; [vm_compute; reflexivity|].
    destruct (detect_framework_threshold ascii_tables Examples.go_report) as (_ & _ & _ & Hfirst & _).
    apply (Hfirst [Framework.JEST; Framework.VITEST; Framework.PYTEST] Framework.GO
                  [Framework.PLAYWRIGHT; Framework.CYPRESS]).
    + reflexivity.
    + vm_compute. constructor.
    + intros fw' Hin. simpl in Hin.
      repeat (destruct Hin as [<-|Hin]; [vm_compute; repeat constructor|]). contradiction.
  - split; [vm_compute; reflexivity|]. split; [vm_compute; reflexivity|].
    destruct (detect_framework_threshold ascii_tables Examples.jest_and_pytest) as (_ & _ & _ & Hfirst & _).
    apply (Hfirst [] Framework.JEST
                  [Framework.VITEST; Framework.PYTEST; Framework.GO;
                   Framework.PLAYWRIGHT; Framework.CYPRESS]).
    + reflexivity.
    + vm_compute. constructor.
    + intros fw' [].
Defined.

(* ===================================================================== *)
(** ** The extractors *)
(* ===================================================================== *)

Section Extractors.
Context (U : unicodedata).

(** *** What a returned result is made of *)

Lemma duration_of_Some m :
  duration_of U (Some m) =
    match seconds_to_ms U (Re.group m 1) with
    | inr ms => inr (Some ms)
    | inl e => inl e
    end.
Proof. unfold duration_of. simpl. destruct (seconds_to_ms U (Re.group m 1)); reflexivity. Qed.

Lemma parse_jest_inv output r :
  parse_jest U output = inr r ->
  framework r = py "jest" /\
  failures r = jest_failures U output /\
  skipped r = 0%Z /\
  duration_of U (Re.search U Re.no_flags Pat.jest_duration output) = inr (duration_ms r).
Proof.
  unfold parse_jest.
  destruct (Re.search U Re.I Pat.jest_summary output); cbv zeta; cbv beta iota;
    intros H; apply bind_inr in H; destruct H as (d & Hd & H);
    injection H as <-; simpl; auto.
Qed.

Lemma parse_pytest_inv output r :
  parse_pytest U output = inr r ->
  framework r = py "pytest" /\
  failures r = pytest_failures U output /\
  total r = (passed r + failed r + skipped r)%Z /\
  (0 <= passed r /\ 0 <= failed r /\ 0 <= skipped r)%Z /\
  duration_of U (Re.search U Re.no_flags Pat.pytest_duration output) = inr (duration_ms r).
Proof.
  unfold parse_pytest.
  destruct (Re.search U Re.I Pat.pytest_summary output); cbv zeta; cbv beta iota;
    intros H; apply bind_inr in H; destruct H as (d & Hd & H);
    injection H as <-; simpl; repeat split; auto with counts.
Qed.

Lemma parse_go_inv output r :
  parse_go U output = inr r ->
  framework r = py "go" /\
  failures r = go_failures U output /\
  total r = (passed r + failed r)%Z /\
  (0 <= passed r /\ 0 <= failed r)%Z /\
  skipped r = 0%Z /\
  duration_of U (Re.search U Re.M Pat.go_duration output) = inr (duration_ms r).
Proof.
  unfold parse_go. cbv zeta.
  intros H; apply bind_inr in H; destruct H as (d & Hd & H);
    injection H as <-; simpl; repeat split; auto with counts.
Qed.

Lemma parse_playwright_inv output r :
  parse_playwright U output = inr r ->
  framework r = py "playwright" /\
  failures r = playwright_failures U output /\
  total r = (passed r + failed r)%Z /\
  (0 <= passed r /\ 0 <= failed r)%Z /\
  skipped r = 0%Z /\
  duration_ms r = None.
Proof.
  unfold parse_playwright.
  destruct (Re.search U Re.no_flags Pat.playwright_summary output); cbv zeta; cbv beta iota;
    intros H; injection H as <-; simpl; repeat split; auto with counts.
Qed.

(** *** Counts *)

(** The counts of the pytest, go and playwright extractors are never
    negative. *)
Lemma counts_nonneg_pytest output r : parse_pytest U output = inr r -> counts_nonneg r.
Proof.
  intros H. apply parse_pytest_inv in H. unfold counts_nonneg.
  destruct H as (_ & _ & Ht & (Hp & Hf & Hs) & _). lia.
Qed.

Lemma counts_nonneg_go output r : parse_go U output = inr r -> counts_nonneg r.
Proof.
  intros H. apply parse_go_inv in H. unfold counts_nonneg.
  destruct H as (_ & _ & Ht & (Hp & Hf) & Hs & _). lia.
Qed.

Lemma counts_nonneg_playwright output r : parse_playwright U output = inr r -> counts_nonneg r.
Proof.
  intros H. apply parse_playwright_inv in H. unfold counts_nonneg.
  destruct H as (_ & _ & Ht & (Hp & Hf) & Hs & _). lia.
Qed.

(** So are those of the jest extractor when it finds its summary line. *)
Lemma counts_nonneg_jest_summary output m r :
  Re.search U Re.I Pat.jest_summary output = Some m ->
  parse_jest U output = inr r -> counts_nonneg r.
Proof.
  unfold parse_jest, counts_nonneg. intros ->. cbv zeta; cbv beta iota.
  intros H; apply bind_inr in H; destruct H as (d & Hd & H);
    injection H as <-; simpl; repeat split; auto with counts; lia.
Qed.

(** Without summary line, [passed] is the difference of the number read
    from the text and the number of failures found. *)
Lemma parse_jest_fallback output r :
  Re.search U Re.I Pat.jest_summary output = None ->
  parse_jest U output = inr r ->
  total r = int_group_or U (Re.search U Re.I Pat.jest_total output) 1
              (len (jest_failures U output)) /\
  failed r = len (jest_failures U output) /\
  passed r = (total r - failed r)%Z.
Proof.
  unfold parse_jest. intros ->. cbv zeta; cbv beta iota.
  intros H; apply bind_inr in H; destruct H as (d & Hd & H);
    injection H as <-; simpl; auto.
Qed.

(** C10.  Whenever the pytest extractor returns, its total is the sum
    of its passed, failed and skipped counts. *)
Theorem pytest_total_is_sum (output : str) (r : TestResult) :
  parse_pytest U output = inr r ->
  total r = (passed r + failed r + skipped r)%Z.
Proof. intros H. apply parse_pytest_inv in H. tauto. Qed.
End Extractors.

Lemma pytest_total_is_sum_witness :
  exists r,
    parse_pytest ascii_tables Examples.pytest_report = inr r /\
    (passed r, failed r, skipped r) = (2, 1, 1)%Z /\
    total r = (passed r + failed r + skipped r)%Z.
Proof.
  destruct (parse_pytest ascii_tables Examples.pytest_report) as [e|r] eqn:E;
    [vm_compute in E; discriminate|].
  exists r. split; [reflexivity|]. split.
  - vm_compute in E. injection E as <-. reflexivity.
  - apply (pytest_total_is_sum ascii_tables Examples.pytest_report r E).
Defined.

(** The jest extractor reads its total from the summary line: it need not
    be the sum of the other counts. *)
Lemma jest_total_is_not_a_sum :
  exists r,
    parse_jest ascii_tables Examples.jest_skipped = inr r /\
    total r = 4%Z /\ (passed r + failed r + skipped r = 3)%Z.
Proof. eexists. split; [vm_compute; reflexivity|]. split; reflexivity. Qed.

(** C2.  On a report without summary line that mentions "0 tests" after
    one failure, the jest extractor returns a total of 0, one failure and
    a passed count of -1. *)
Theorem jest_passed_negative :
  exists r,
    parse_jest ascii_tables Examples.jest_zero_tests = inr r /\
    total r = 0%Z /\ failed r = 1%Z /\ passed r = (-1)%Z /\
    ~ counts_nonneg r.
Proof.
  eexists. split; [vm_compute; reflexivity|].
  repeat split. unfold counts_nonneg. simpl. lia.
Qed.

(* ===================================================================== *)
(** ** Input without any match *)
(* ===================================================================== *)

Section Silent.
Context (U : unicodedata).

Lemma none_true (A : Type) (o : option A) : none o = true -> o = None.
Proof. destruct o; [discriminate | reflexivity]. Qed.

Lemma empty_true (A : Type) (l : list A) : empty l = true -> l = [].
Proof. destruct l; [reflexivity | discriminate]. Qed.

Ltac split_silent H :=
  repeat (apply andb_true_iff in H;
          let H' := fresh "H" in destruct H as [H H']);
  repeat match goal with
         | H : none _ = true |- _ => apply none_true in H
         | H : empty _ = true |- _ => apply empty_true in H
         end.

Lemma jest_silent_zero output :
  jest_silent U output = true -> parse_jest U output = inr (zero_result (py "jest")).
Proof.
  unfold jest_silent. intros H. split_silent H.
  unfold parse_jest, jest_failures.
  repeat match goal with E : _ = _ |- _ => rewrite E; clear E end.
  reflexivity.
Qed.

Lemma pytest_silent_zero output :
  pytest_silent U output = true -> parse_pytest U output = inr (zero_result (py "pytest")).
Proof.
  unfold pytest_silent. intros H. split_silent H.
  unfold parse_pytest, pytest_failures.
  repeat match goal with E : _ = _ |- _ => rewrite E; clear E end.
  reflexivity.
Qed.

Lemma go_silent_zero output :
  go_silent U output = true -> parse_go U output = inr (zero_result (py "go")).
Proof.
  unfold go_silent. intros H. split_silent H.
  unfold parse_go, go_failures.
  repeat match goal with E : _ = _ |- _ => rewrite E; clear E end.
  reflexivity.
Qed.

Lemma playwright_silent_zero output :
  playwright_silent U output = true ->
  parse_playwright U output = inr (zero_result (py "playwright")).
Proof.
  unfold playwright_silent. intros H. split_silent H.
  unfold parse_playwright, playwright_failures.
  repeat match goal with E : _ = _ |- _ => rewrite E; clear E end.
  reflexivity.
Qed.

(** C6.  On the empty string each of the four extractors returns, without
    raising, the result with all four counts 0, no failure and no
    duration; and so does each extractor on every input that none of its
    patterns matches. *)
Theorem no_match_zero_result :
  (parse_jest U [] = inr (zero_result (py "jest")) /\
   parse_pytest U [] = inr (zero_result (py "pytest")) /\
   parse_go U [] = inr (zero_result (py "go")) /\
   parse_playwright U [] = inr (zero_result (py "playwright"))) /\
  forall output,
    (jest_silent U output = true ->
     parse_jest U output = inr (zero_result (py "jest"))) /\
    (pytest_silent U output = true ->
     parse_pytest U output = inr (zero_result (py "pytest"))) /\
    (go_silent U output = true ->
     parse_go U output = inr (zero_result (py "go"))) /\
    (playwright_silent U output = true ->
     parse_playwright U output = inr (zero_result (py "playwright"))).
Proof.
  split.
  - split; [|split; [|split]];
      [ apply jest_silent_zero | apply pytest_silent_zero
      | apply go_silent_zero | apply playwright_silent_zero ]; reflexivity.
  - intros output.
    auto using jest_silent_zero, pytest_silent_zero, go_silent_zero, playwright_silent_zero.
Qed.
End Silent.

Lemma no_match_zero_result_witness :
  jest_silent ascii_tables Examples.chatter = true /\
  pytest_silent ascii_tables Examples.chatter = true /\
  go_silent ascii_tables Examples.chatter = true /\
  playwright_silent ascii_tables Examples.chatter = true /\
  parse_jest ascii_tables Examples.chatter = inr (zero_result (py "jest")) /\
  parse_pytest ascii_tables Examples.chatter = inr (zero_result (py "pytest")) /\
  parse_go ascii_tables Examples.chatter = inr (zero_result (py "go")) /\
  parse_playwright ascii_tables Examples.chatter = inr (zero_result (py "playwright")).
Proof.
  assert (Hj : jest_silent ascii_tables Examples.chatter = true) by (vm_compute; reflexivity).
  assert (Hp : pytest_silent ascii_tables Examples.chatter = true) by (vm_compute; reflexivity).
  assert (Hg : go_silent ascii_tables Examples.chatter = true) by (vm_compute; reflexivity).
  assert (Hw : playwright_silent ascii_tables Examples.chatter = true)
    by (vm_compute; reflexivity).
  destruct (no_match_zero_result ascii_tables) as [_ H].
  destruct (H Examples.chatter) as (Hj' & Hp' & Hg' & Hw').
  repeat split; auto.
Defined.

(* ===================================================================== *)
(** ** Rerun commands *)
(* ===================================================================== *)

Section Rerun.
Context (U : unicodedata).

Lemma jest_failures_rerun output f :
  In f (jest_failures U output) -> rerun_command f = jest_command f.
Proof.
  unfold jest_failures. intros H. apply in_flat_map in H.
  destruct H as (m & _ & H). apply in_map_iff in H.
  destruct H as (tm & <- & _). reflexivity.
Qed.

Lemma pytest_failures_rerun output f :
  In f (pytest_failures U output) -> rerun_command f = pytest_command f.
Proof.
  unfold pytest_failures. intros H. apply in_map_iff in H.
  destruct H as (m & <- & _). reflexivity.
Qed.

Lemma go_failures_rerun output f :
  In f (go_failures U output) -> rerun_command f = go_command f.
Proof.
  unfold go_failures. intros H. apply in_map_iff in H.
  destruct H as (m & <- & _). reflexivity.
Qed.

Lemma playwright_failures_rerun output f :
  In f (playwright_failures U output) ->
  exists n, line_number f = Some n /\ rerun_command f = playwright_command f n.
Proof.
  unfold playwright_failures. intros H. apply in_map_iff in H.
  destruct H as (m & <- & _). eexists. split; reflexivity.
Qed.

(** *** The assembler *)

Lemma get_parsers fw :
  get (parsers U) fw (parse_jest U) =
    match fw with
    | Framework.PYTEST => parse_pytest U
    | Framework.GO => parse_go U
    | Framework.PLAYWRIGHT => parse_playwright U
    | _ => parse_jest U
    end.
Proof. destruct fw; reflexivity. Qed.

Lemma parse_output_inv output framework r :
  parse_output U output framework = inr r ->
  exists fw r0,
    resolve U output framework = inr fw /\
    get (parsers U) fw (parse_jest U) output = inr r0 /\
    r = if negb (Framework.eqb fw Framework.UNKNOWN)
        then set_framework r0 (Framework.value fw) else r0.
Proof.
  unfold parse_output. intros H.
  apply bind_inr in H. destruct H as (fw & Hfw & H).
  apply bind_inr in H. destruct H as (r0 & Hr0 & H).
  injection H as <-. exists fw, r0. auto.
Qed.

Lemma parse_output_rerun output override r f :
  parse_output U output override = inr r ->
  In f (failures r) ->
  rerun_command f = rerun_template (framework r) f /\ rerun_command f <> None.
Proof.
  intros H Hin. apply parse_output_inv in H.
  destruct H as (fw & r0 & _ & Hr0 & ->).
  rewrite get_parsers in Hr0.
  assert (Hf : In f (failures r0)) by (destruct fw; exact Hin). clear Hin.
  destruct fw; simpl negb; cbv iota;
    try (apply parse_jest_inv in Hr0; destruct Hr0 as (Htag & Hfs & _);
         rewrite Hfs in Hf; apply jest_failures_rerun in Hf;
         try rewrite Htag; rewrite Hf; split; [reflexivity | discriminate]).
  - apply parse_pytest_inv in Hr0. destruct Hr0 as (_ & Hfs & _).
    rewrite Hfs in Hf. apply pytest_failures_rerun in Hf.
    rewrite Hf. split; [reflexivity | discriminate].
  - apply parse_go_inv in Hr0. destruct Hr0 as (_ & Hfs & _).
    rewrite Hfs in Hf. apply go_failures_rerun in Hf.
    rewrite Hf. split; [reflexivity | discriminate].
  - apply parse_playwright_inv in Hr0. destruct Hr0 as (_ & Hfs & _).
    rewrite Hfs in Hf. apply playwright_failures_rerun in Hf.
    destruct Hf as (n & Hn & Hf). rewrite Hf. split; [|discriminate].
    unfold rerun_template. simpl. rewrite Hn. reflexivity.
Qed.

(** C7.  The rerun command of every failure record an extractor returns
    is its framework's template filled with the record's own fields:
    [npx jest --testNamePattern="<test_name>"] for the jest extractor,
    [pytest <file>::<test_name>] for pytest, [go test -run <test_name> ./...]
    for go, [npx playwright test <file>:<line_number>] for playwright.
    In a result of [parse_output] it is the template of the result's
    framework tag, the jest template for the tags vitest and cypress
    too, and it is never absent. *)
Theorem rerun_command_is_template (output : str) :
  (forall r f, parse_jest U output = inr r -> In f (failures r) ->
     rerun_command f =
       Some (py "npx jest --testNamePattern=" ++ [QUOTATION_MARK] ++ test_name f
               ++ [QUOTATION_MARK])) /\
  (forall r f, parse_pytest U output = inr r -> In f (failures r) ->
     rerun_command f = Some (py "pytest " ++ file f ++ py "::" ++ test_name f)) /\
  (forall r f, parse_go U output = inr r -> In f (failures r) ->
     rerun_command f = Some (py "go test -run " ++ test_name f ++ py " ./...")) /\
  (forall r f, parse_playwright U output = inr r -> In f (failures r) ->
     exists n, line_number f = Some n /\
       rerun_command f =
         Some (py "npx playwright test " ++ file f ++ py ":" ++ str_of_Z n)) /\
  (forall override r f, parse_output U output override = inr r -> In f (failures r) ->
     rerun_command f = rerun_template (framework r) f /\
     rerun_command f <> None).
Proof.
  split; [|split; [|split; [|split]]].
  - intros r f H Hin. apply parse_jest_inv in H. destruct H as (_ & Hfs & _).
    rewrite Hfs in Hin. exact (jest_failures_rerun output f Hin).
  - intros r f H Hin. apply parse_pytest_inv in H. destruct H as (_ & Hfs & _).
    rewrite Hfs in Hin. exact (pytest_failures_rerun output f Hin).
  - intros r f H Hin. apply parse_go_inv in H. destruct H as (_ & Hfs & _).
    rewrite Hfs in Hin. exact (go_failures_rerun output f Hin).
  - intros r f H Hin. apply parse_playwright_inv in H. destruct H as (_ & Hfs & _).
    rewrite Hfs in Hin. exact (playwright_failures_rerun output f Hin).
  - intros override r f. apply parse_output_rerun.
Qed.
End Rerun.

Lemma rerun_command_is_template_witness :
  parse_output ascii_tables Examples.jest_report (Some (py "vitest"))
    = inr Examples.vitest_result /\
  framework Examples.vitest_result = py "vitest" /\
  List.length (failures Examples.vitest_result) = 1 /\
  forall f, In f (failures Examples.vitest_result) ->
    test_name f = py "adds numbers" /\
    rerun_command f =
      Some (py "npx jest --testNamePattern=" ++ [QUOTATION_MARK] ++ py "adds numbers"
              ++ [QUOTATION_MARK]).
Proof.
  assert (E : parse_output ascii_tables Examples.jest_report (Some (py "vitest"))
              = inr Examples.vitest_result) by (vm_compute; reflexivity).
  split; [exact E|]. split; [reflexivity|]. split; [reflexivity|].
  intros f Hin.
  destruct (rerun_command_is_template ascii_tables Examples.jest_report)
    as (_ & _ & _ & _ & H).
  destruct (H (Some (py "vitest")) Examples.vitest_result f E Hin) as [Hcmd _].
  rewrite Hcmd. destruct Hin as [<-|[]]. split; reflexivity.
Defined.

(* ===================================================================== *)
(** ** Durations *)
(* ===================================================================== *)

Section Durations.
Context (U : unicodedata).

Lemma duration_reported_intro duration_match r :
  duration_of U duration_match = inr (duration_ms r) ->
  duration_reported U duration_match r.
Proof.
  destruct duration_match as [m|]; unfold duration_reported.
  - rewrite duration_of_Some. unfold seconds_to_ms.
    destruct (float_of_str U (Re.group m 1)) as [e|seconds] eqn:Ef; [discriminate|].
    change (bind (inr seconds) ?k) with (k seconds).
    destruct (Float.to_int (Float.mul1000 seconds)) as [e|ms] eqn:Ei; [discriminate|].
    intros [= H]. exists seconds, ms. auto.
  - unfold duration_of. intros [= H]. auto.
Qed.

(** C8, as the code has it.  Of every result the jest, pytest or go
    extractor returns: when the extractor's duration pattern does not
    match the text the result has no duration (not a zero); when it
    matches, the captured text reads as a float of seconds and the
    duration is that float times 1000, truncated to an integer.  The
    playwright extractor has no duration pattern: no result it returns
    has a duration. *)
Theorem duration_of_three_extractors (output : str) (r : TestResult) :
  (parse_jest U output = inr r ->
   duration_reported U (Re.search U Re.no_flags Pat.jest_duration output) r) /\
  (parse_pytest U output = inr r ->
   duration_reported U (Re.search U Re.no_flags Pat.pytest_duration output) r) /\
  (parse_go U output = inr r ->
   duration_reported U (Re.search U Re.M Pat.go_duration output) r) /\
  (parse_playwright U output = inr r -> duration_ms r = None).
Proof.
  split; [|split; [|split]]; intros H.
  - apply duration_reported_intro. apply parse_jest_inv in H. tauto.
  - apply duration_reported_intro. apply parse_pytest_inv in H. tauto.
  - apply duration_reported_intro. apply parse_go_inv in H. tauto.
  - apply parse_playwright_inv in H. tauto.
Qed.
End Durations.

Lemma duration_of_three_extractors_witness :
  (parse_jest ascii_tables Examples.timed = inr Examples.timed_jest /\
   duration_reported ascii_tables
     (Re.search ascii_tables Re.no_flags Pat.jest_duration Examples.timed)
     Examples.timed_jest /\
   duration_ms Examples.timed_jest = Some 1500%Z) /\
  (parse_pytest ascii_tables Examples.timed = inr Examples.timed_pytest /\
   duration_reported ascii_tables
     (Re.search ascii_tables Re.no_flags Pat.pytest_duration Examples.timed)
     Examples.timed_pytest /\
   duration_ms Examples.timed_pytest = Some 1500%Z) /\
  (parse_go ascii_tables Examples.timed = inr Examples.timed_go /\
   duration_reported ascii_tables
     (Re.search ascii_tables Re.M Pat.go_duration Examples.timed)
     Examples.timed_go /\
   duration_ms Examples.timed_go = Some 1500%Z) /\
  (parse_jest ascii_tables Examples.chatter = inr (zero_result (py "jest")) /\
   duration_reported ascii_tables
     (Re.search ascii_tables Re.no_flags Pat.jest_duration Examples.chatter)
     (zero_result (py "jest")) /\
   Re.search ascii_tables Re.no_flags Pat.jest_duration Examples.chatter = None) /\
  (parse_playwright ascii_tables Examples.playwright_long
     = inr Examples.playwright_long_result /\
   duration_ms Examples.playwright_long_result = None).
Proof.
  split; [|split; [|split; [|split]]].
  - assert (H : parse_jest ascii_tables Examples.timed = inr Examples.timed_jest)
      by (vm_compute; reflexivity).
    split; [exact H|]. split; [|reflexivity].
    destruct (duration_of_three_extractors ascii_tables Examples.timed Examples.timed_jest)
      as (Hj & _).
    exact (Hj H).
  - assert (H : parse_pytest ascii_tables Examples.timed = inr Examples.timed_pytest)
      by (vm_compute; reflexivity).
    split; [exact H|]. split; [|reflexivity].
    destruct (duration_of_three_extractors ascii_tables Examples.timed Examples.timed_pytest)
      as (_ & Hp & _).
    exact (Hp H).
  - assert (H : parse_go ascii_tables Examples.timed = inr Examples.timed_go)
      by (vm_compute; reflexivity).
    split; [exact H|]. split; [|reflexivity].
    destruct (duration_of_three_extractors ascii_tables Examples.timed Examples.timed_go)
      as (_ & _ & Hg & _).
    exact (Hg H).
  - assert (H : parse_jest ascii_tables Examples.chatter = inr (zero_result (py "jest")))
      by (vm_compute; reflexivity).
    split; [exact H|]. split; [|vm_compute; reflexivity].
    destruct (duration_of_three_extractors ascii_tables Examples.chatter
                (zero_result (py "jest"))) as (Hj & _).
    exact (Hj H).
  - assert (H : parse_playwright ascii_tables Examples.playwright_long
                = inr Examples.playwright_long_result) by (vm_compute; reflexivity).
    split; [exact H|].
    destruct (duration_of_three_extractors ascii_tables Examples.playwright_long
                Examples.playwright_long_result) as (_ & _ & _ & Hw).
    exact (Hw H).
Defined.

(** C8, as the claim has it, fails for playwright: a report that ends
    with "1 passed (2.5s)" gets no duration. *)
Lemma playwright_duration_absent :
  contains (py "1 passed (2.5s)") Examples.playwright_report = true /\
  exists r,
    parse_playwright ascii_tables Examples.playwright_report = inr r /\
    (passed r, failed r) = (1, 1)%Z /\
    duration_ms r = None.
Proof.
  split; [reflexivity|]. eexists. split; [vm_compute; reflexivity|].
  split; reflexivity.
Qed.

(** A duration pattern can capture what is no number: then the extractor
    raises instead of returning. *)
Lemma jest_duration_of_a_dot : parse_jest ascii_tables (py "Time: . s") = inl ValueError.
Proof. reflexivity. Qed.

(* ===================================================================== *)
(** ** The assembler and its override *)
(* ===================================================================== *)

Section Assembler.
Context (U : unicodedata).

Lemma str_eqb_sym a b : str_eqb a b = str_eqb b a.
Proof.
  destruct (str_eqb_spec a b) as [->|Hne].
  - symmetry. apply str_eqb_refl.
  - symmetry. apply str_eqb_neq. congruence.
Qed.

(** The enumeration has no member for a tag that is neither one of the
    six supported ones nor "unknown". *)
Lemma of_value_unsupported tag :
  supported tag = false -> tag <> py "unknown" ->
  Framework.of_value tag = raise ValueError.
Proof.
  intros Hs Hu. unfold supported, supported_tags in Hs. cbn [existsb] in Hs.
  repeat (apply orb_false_iff in Hs; destruct Hs as [? Hs]).
  unfold Framework.of_value, Framework.members. cbn [find Framework.value].
  repeat match goal with
         | H : str_eqb tag _ = false |- _ => rewrite str_eqb_sym in H; rewrite H; clear H
         end.
  rewrite (str_eqb_neq (py "unknown") tag) by congruence.
  reflexivity.
Qed.

Lemma of_value_value fw : Framework.of_value (Framework.value fw) = inr fw.
Proof. destruct fw; reflexivity. Qed.

(** With a supported tag as override, the result carries that tag. *)
Lemma supported_override output fw r :
  fw <> Framework.UNKNOWN ->
  parse_output U output (Some (Framework.value fw)) = inr r ->
  framework r = Framework.value fw.
Proof.
  intros Hfw H. apply parse_output_inv in H.
  destruct H as (fw' & r0 & Hres & _ & ->).
  unfold resolve in Hres.
  replace (truthy (Some (Framework.value fw))) with true in Hres
    by (destruct fw; reflexivity).
  rewrite of_value_value in Hres. injection Hres as <-.
  destruct fw; try congruence; reflexivity.
Qed.

(** C1, as the code has it.  For an override tag that names no supported
    framework: the empty tag counts as no override, and the detector runs;
    the tag "unknown" falls back to the jest extractor, whose result comes
    back untouched, its framework field "jest"; any other tag makes
    [parse_output] raise ValueError. *)
Theorem unsupported_override (output tag : str) :
  supported tag = false ->
  (tag = [] -> parse_output U output (Some tag) = parse_output U output None) /\
  (tag = py "unknown" ->
     parse_output U output (Some tag) = parse_jest U output /\
     forall r, parse_output U output (Some tag) = inr r -> framework r = py "jest") /\
  (tag <> [] -> tag <> py "unknown" ->
     parse_output U output (Some tag) = raise ValueError).
Proof.
  intros Hs. split; [|split].
  - intros ->. reflexivity.
  - intros ->.
    assert (E : parse_output U output (Some (py "unknown")) = parse_jest U output).
    { unfold parse_output. simpl. destruct (parse_jest U output); reflexivity. }
    split; [exact E|]. intros r Hr. rewrite E in Hr.
    apply parse_jest_inv in Hr. tauto.
  - intros Hne Hu. unfold parse_output.
    destruct tag as [|c tag]; [congruence|]. cbn [truthy].
    rewrite (of_value_unsupported (c :: tag) Hs Hu). reflexivity.
Qed.
End Assembler.

Lemma unsupported_override_witness :
  supported (py "mocha") = false /\
  parse_output ascii_tables Examples.jest_report (Some (py "mocha")) = raise ValueError.
Proof.
  assert (H : supported (py "mocha") = false) by reflexivity.
  split; [exact H|].
  destruct (unsupported_override ascii_tables Examples.jest_report (py "mocha") H)
    as (_ & _ & Hraise).
  apply Hraise; discriminate.
Defined.

(** C1, as the claim has it, fails: the override "mocha" makes
    [parse_output] raise, and the override "unknown" gives a result tagged
    "jest". *)
Lemma override_not_attached :
  supported (py "mocha") = false /\
  parse_output ascii_tables Examples.jest_report (Some (py "mocha")) = inl ValueError /\
  supported (py "unknown") = false /\
  exists r,
    parse_output ascii_tables Examples.jest_report (Some (py "unknown")) = inr r /\
    framework r = py "jest" /\
    framework r <> py "unknown".
Proof.
  split; [reflexivity|]. split; [reflexivity|]. split; [reflexivity|].
  eexists. split; [vm_compute; reflexivity|]. split; [reflexivity | discriminate].
Qed.

(* ===================================================================== *)
(** ** Two calls in a row *)
(* ===================================================================== *)

Section Twice.
Context (U : unicodedata).

Lemma run_bind {A B : Type} (c : M A) (k : A -> M B) h :
  bind c k h = match c h with inl e => inl e | inr (a, h') => k a h' end.
Proof. reflexivity. Qed.

Lemma run_ret {A : Type} (a : A) (h : Store.t) : (ret a : M A) h = inr (a, h).
Proof. reflexivity. Qed.

Lemma update_last h o f : Store.update (h ++ [o]) (List.length h) f = h ++ [f o].
Proof. induction h as [|x h IH]; simpl; [reflexivity | rewrite IH; reflexivity]. Qed.

Lemma read_last h o : Store.read (h ++ [o]) (List.length h) = Some o.
Proof. unfold Store.read. rewrite nth_error_app2, Nat.sub_diag by lia. reflexivity. Qed.

Lemma read_older h k a : a < List.length h -> Store.read (h ++ k) a = Store.read h a.
Proof. intros H. unfold Store.read. apply nth_error_app1. exact H. Qed.

Lemma append_last h l x :
  append (List.length h) x (h ++ [Store.ListObj l])
  = inr (tt, h ++ [Store.ListObj (l ++ [x])]).
Proof. unfold append. rewrite update_last. reflexivity. Qed.

Lemma items_last h l :
  items (List.length h) (h ++ [Store.ListObj l]) = inr (l, h ++ [Store.ListObj l]).
Proof. unfold items. rewrite read_last. reflexivity. Qed.

(** A loop whose body extends the list at the end of the store extends
    it by what the bodies add, in the order of the iteration. *)
Lemma for_each_extends {A : Type} (xs : list A) (body : A -> M unit)
    (g : A -> list FailedTest) h :
  (forall x l, body x (h ++ [Store.ListObj l]) = inr (tt, h ++ [Store.ListObj (l ++ g x)])) ->
  forall l,
    for_each xs body (h ++ [Store.ListObj l])
    = inr (tt, h ++ [Store.ListObj (l ++ flat_map g xs)]).
Proof.
  intros Hbody. induction xs as [|x xs IH]; intros l.
  - simpl. rewrite app_nil_r. reflexivity.
  - cbn [for_each flat_map]. rewrite run_bind, Hbody, IH, app_assoc. reflexivity.
Qed.

Lemma flat_map_single {A B : Type} (f : A -> B) (xs : list A) :
  flat_map (fun x => [f x]) xs = map f xs.
Proof. induction xs as [|x xs IH]; simpl; [reflexivity | rewrite IH; reflexivity]. Qed.

Lemma for_each_append {A : Type} (xs : list A) (f : A -> FailedTest) h l :
  for_each xs (fun x => append (List.length h) (f x)) (h ++ [Store.ListObj l])
  = inr (tt, h ++ [Store.ListObj (l ++ map f xs)]).
Proof.
  rewrite <- flat_map_single. apply for_each_extends.
  intros x l'. apply append_last.
Qed.

Lemma new_result_last h l r :
  new_result r (h ++ [Store.ListObj l])
  = inr (S (List.length h), h ++ [Store.ListObj l; Store.ResultObj r]).
Proof.
  unfold new_result, Store.alloc. rewrite length_app, <- app_assoc. simpl.
  rewrite Nat.add_1_r. reflexivity.
Qed.

Lemma parse_go_obj_spec output h :
  parse_go_obj U output h = returned h (parse_go U output).
Proof.
  unfold parse_go_obj, parse_go. cbv zeta.
  rewrite run_bind. unfold new_list, Store.alloc.
  rewrite run_bind, for_each_append.
  rewrite run_bind, items_last.
  rewrite run_bind. unfold lift at 1.
  destruct (duration_of U (Re.search U Re.M Pat.go_duration output)) as [e|d];
    [reflexivity|].
  rewrite run_bind, items_last, new_result_last. reflexivity.
Qed.
Lemma parse_pytest_obj_spec output h :
  parse_pytest_obj U output h = returned h (parse_pytest U output).
Proof.
  unfold parse_pytest_obj, parse_pytest, pytest_failures. cbv zeta.
  rewrite run_bind. unfold new_list, Store.alloc.
  rewrite run_bind, for_each_append.
  rewrite run_bind.
  destruct (Re.search U Re.I Pat.pytest_summary output) as [m|].
  - rewrite run_ret. cbv beta iota.
    rewrite run_bind. unfold lift at 1.
    destruct (duration_of U (Re.search U Re.no_flags Pat.pytest_duration output)) as [e|d];
      [reflexivity|].
    rewrite run_bind, items_last, new_result_last. reflexivity.
  - rewrite run_bind, items_last, run_ret. cbv beta iota.
    rewrite run_bind. unfold lift at 1.
    destruct (duration_of U (Re.search U Re.no_flags Pat.pytest_duration output)) as [e|d];
      [reflexivity|].
    rewrite run_bind, items_last, new_result_last. reflexivity.
Qed.

Lemma parse_playwright_obj_spec output h :
  parse_playwright_obj U output h = returned h (parse_playwright U output).
Proof.
  unfold parse_playwright_obj, parse_playwright, playwright_failures. cbv zeta.
  rewrite run_bind. unfold new_list, Store.alloc.
  rewrite run_bind, for_each_append.
  rewrite run_bind.
  destruct (Re.search U Re.no_flags Pat.playwright_summary output) as [m|].
  - rewrite run_ret. cbv beta iota.
    rewrite run_bind, items_last, new_result_last. reflexivity.
  - rewrite run_bind, items_last, run_ret. cbv beta iota.
    rewrite run_bind, items_last, new_result_last. reflexivity.
Qed.

Lemma jest_loops output h l :
  for_each (Re.finditer U Re.S Pat.jest_fail output)
    (fun m =>
       let file_path := Re.group m 1 in
       let block := Re.group m 2 in
       for_each (Re.finditer U Re.S Pat.jest_test block)
         (fun test_match =>
            append (List.length h) (jest_failure U file_path test_match)))
    (h ++ [Store.ListObj l])
  = inr (tt, h ++ [Store.ListObj (l ++ jest_failures U output)]).
Proof.
  unfold jest_failures. apply for_each_extends.
  intros m l'. cbv zeta. apply for_each_append.
Qed.

Lemma parse_jest_obj_spec output h :
  parse_jest_obj U output h = returned h (parse_jest U output).
Proof.
  unfold parse_jest_obj, parse_jest. cbv zeta.
  rewrite run_bind. unfold new_list, Store.alloc.
  rewrite run_bind, jest_loops.
  rewrite run_bind.
  destruct (Re.search U Re.I Pat.jest_summary output) as [m|].
  - rewrite run_ret. cbv beta iota.
    rewrite run_bind. unfold lift at 1.
    destruct (duration_of U (Re.search U Re.no_flags Pat.jest_duration output)) as [e|d];
      [reflexivity|].
    rewrite run_bind, items_last, new_result_last. reflexivity.
  - rewrite run_bind.
    destruct (Re.search U Re.I Pat.jest_total output) as [m|];
      [rewrite run_ret | rewrite run_bind, items_last, run_ret];
      cbv beta iota;
      rewrite run_bind, items_last, run_ret; cbv beta iota;
      rewrite run_bind; unfold lift at 1;
      (destruct (duration_of U (Re.search U Re.no_flags Pat.jest_duration output)) as [e|d];
        [reflexivity|]);
      rewrite run_bind, items_last, new_result_last; reflexivity.
Qed.

Lemma get_obj_spec fw output h :
  get_obj (parsers_obj U) fw (parse_jest_obj U) output h
  = returned h (get (parsers U) fw (parse_jest U) output).
Proof.
  destruct fw; cbn [get_obj get parsers_obj parsers Framework.eqb];
    auto using parse_jest_obj_spec, parse_pytest_obj_spec, parse_go_obj_spec,
      parse_playwright_obj_spec.
Qed.

(** The assembler on objects leaves, at the end of the store, the list of
    the extractor and then the value the assembler on values returns; it
    raises when that one raises. *)
Lemma parse_output_obj_spec output framework h :
  parse_output_obj U output framework h = returned h (parse_output U output framework).
Proof.
  unfold parse_output_obj, parse_output. cbv zeta.
  rewrite run_bind. unfold lift.
  destruct (if truthy framework then _ else _) as [e|fw]; [reflexivity|].
  change (bind (inr fw) ?k) with (k fw). cbv beta iota.
  rewrite run_bind, get_obj_spec.
  destruct (get (parsers U) fw (parse_jest U) output) as [e|r0]; [reflexivity|].
  change (bind (inr r0) ?k) with (k r0). cbv beta.
  unfold returned at 1. cbv beta iota.
  rewrite run_bind.
  destruct (Framework.eqb fw Framework.UNKNOWN); cbn [negb]; cbv iota.
  - rewrite run_ret. reflexivity.
  - unfold setattr_framework.
    change (h ++ [Store.ListObj (failures r0); Store.ResultObj r0])
      with (h ++ [Store.ListObj (failures r0)] ++ [Store.ResultObj r0]).
    rewrite app_assoc.
    replace (S (List.length h)) with (List.length (h ++ [Store.ListObj (failures r0)]))
      by (rewrite length_app; simpl; lia).
    rewrite update_last, <- app_assoc. rewrite length_app; simpl.
    rewrite Nat.add_1_r. reflexivity.
Qed.

(** C9.  Two calls of [parse_output] in a row on the same arguments,
    with the lists and results the calls make held in a store of mutable
    objects, started from any store.  If the first call raises, every
    call raises the same exception.  If it returns, it has changed no
    object that was there before; the second call returns another object,
    which holds the same [TestResult] value (counts, duration, failure
    records and their order), and changes nothing the first call left;
    and a call from any other store returns a new object with that value,
    without changing an object of that store. *)
Theorem parse_twice_identical (h : Store.t) (output : str) (framework : option str) :
  match parse_output_obj U output framework h with
  | inl e => forall h', parse_output_obj U output framework h' = inl e
  | inr (first, h1) =>
      (forall a, a < List.length h -> Store.read h1 a = Store.read h a) /\
      exists r,
        Store.read h1 first = Some (Store.ResultObj r) /\
        (exists second h2,
            parse_output_obj U output framework h1 = inr (second, h2) /\
            first <> second /\
            Store.read h2 second = Some (Store.ResultObj r) /\
            Store.read h2 first = Some (Store.ResultObj r) /\
            forall a, a < List.length h1 -> Store.read h2 a = Store.read h1 a) /\
        (forall h', exists again h'',
            parse_output_obj U output framework h' = inr (again, h'') /\
            List.length h' <= again /\
            Store.read h'' again = Some (Store.ResultObj r) /\
            forall a, a < List.length h' -> Store.read h'' a = Store.read h' a)
  end.
Proof.
  assert (Hlast : forall k l r,
             Store.read (k ++ [Store.ListObj l; Store.ResultObj r]) (S (List.length k))
             = Some (Store.ResultObj r)).
  { intros k l r. unfold Store.read. rewrite nth_error_app2 by lia.
    replace (S (List.length k) - List.length k) with 1 by lia. reflexivity. }
  rewrite parse_output_obj_spec.
  destruct (parse_output U output framework) as [e|r] eqn:E; unfold returned.
  - intros h'. rewrite parse_output_obj_spec, E. reflexivity.
  - split; [intros a Ha; apply read_older; exact Ha|].
    exists r. split; [apply Hlast|]. split.
    + rewrite parse_output_obj_spec, E. unfold returned.
      eexists. eexists. split; [reflexivity|].
      split; [rewrite length_app; simpl; lia|].
      split; [apply Hlast|].
      split; [|intros a Ha; apply read_older; exact Ha].
      rewrite read_older by (rewrite length_app; simpl; lia). apply Hlast.
    + intros h'. rewrite parse_output_obj_spec, E. unfold returned.
      eexists. eexists. split; [reflexivity|].
      split; [lia|]. split; [apply Hlast|].
      intros a Ha. apply read_older. exact Ha.
Qed.
End Twice.

Lemma parse_twice_identical_witness :
  exists first h1 second h2 r,
    parse_output_obj ascii_tables Examples.go_report None [] = inr (first, h1) /\
    parse_output_obj ascii_tables Examples.go_report None h1 = inr (second, h2) /\
    (first, second) = (1, 3) /\
    Store.read h2 first = Some (Store.ResultObj r) /\
    Store.read h2 second = Some (Store.ResultObj r) /\
    (framework r, total r, passed r, failed r) = (py "go", 2, 1, 1)%Z /\
    List.length (failures r) = 1.
Proof.
  pose proof (parse_twice_identical ascii_tables [] Examples.go_report None) as H.
  destruct (parse_output_obj ascii_tables Examples.go_report None []) as [e|[first h1]] eqn:E;
    [vm_compute in E; discriminate|].
  destruct H as (_ & r & Hfirst & (second & h2 & Hsecond & _ & Hr2 & Hr1 & _) & _).
  exists first, h1, second, h2, r.
  split; [reflexivity|]. split; [exact Hsecond|].
  assert (E1 := E). vm_compute in E1. injection E1 as <- <-.
  assert (E2 := Hsecond). vm_compute in E2. injection E2 as <- <-.
  split; [reflexivity|]. split; [exact Hr1|]. split; [exact Hr2|].
  vm_compute in Hr1. injection Hr1 as <-. split; reflexivity.
Defined.

(* ===================================================================== *)
(** ** More about strings *)
(* ===================================================================== *)

Lemma startswith_app p s : startswith p (p ++ s) = true.
Proof. induction p as [|x p IH]; simpl; [reflexivity|]. rewrite N.eqb_refl. exact IH. Qed.

Lemma startswith_inv p : forall s, startswith p s = true -> exists t, s = p ++ t.
Proof.
  induction p as [|x p IH]; intros s H; simpl in H.
  - exists s. reflexivity.
  - destruct s as [|y s]; [discriminate|].
    apply andb_true_iff in H. destruct H as [Hxy H].
    apply N.eqb_eq in Hxy. subst y. destruct (IH s H) as [t ->].
    exists t. reflexivity.
Qed.

(** [needle in hay] says that [hay] is [needle] with something before and
    something after. *)
Lemma contains_intro needle : forall before after,
  contains needle (before ++ needle ++ after) = true.
Proof.
  induction before as [|c before IH]; intros after.
  - simpl app. destruct (needle ++ after) eqn:E; simpl;
      rewrite <- E, startswith_app; reflexivity.
  - simpl. rewrite IH. apply orb_true_r.
Qed.

Lemma contains_inv needle : forall hay,
  contains needle hay = true -> exists before after, hay = before ++ needle ++ after.
Proof.
  induction hay as [|c hay IH]; intros H; simpl in H.
  - rewrite orb_false_r in H. apply startswith_inv in H. destruct H as [t ->].
    exists [], t. reflexivity.
  - apply orb_true_iff in H. destruct H as [H|H].
    + apply startswith_inv in H. destruct H as [t ->]. exists [], t. reflexivity.
    + destruct (IH H) as (before & after & ->). exists (c :: before), after. reflexivity.
Qed.

Lemma contains_trans a b c :
  contains a b = true -> contains b c = true -> contains a c = true.
Proof.
  intros Hab Hbc.
  apply contains_inv in Hab. destruct Hab as (p & q & ->).
  apply contains_inv in Hbc. destruct Hbc as (p' & q' & ->).
  replace (p' ++ (p ++ a ++ q) ++ q') with ((p' ++ p) ++ a ++ (q ++ q'))
    by (rewrite <- !app_assoc; reflexivity).
  apply contains_intro.
Qed.

(** *** split and join *)

Lemma split_aux_skip sep : forall s cur k,
  k <= List.length s -> split_aux sep cur s k = split_aux sep cur (skipn k s) 0.
Proof.
  induction s as [|c s IH]; intros cur k Hk; simpl in Hk.
  - replace k with 0 by lia. reflexivity.
  - destruct k as [|k]; [reflexivity|]. simpl. apply IH. lia.
Qed.

Lemma split_aux_nonempty sep : forall s cur k, split_aux sep cur s k <> [].
Proof.
  induction s as [|c s IH]; intros cur k; simpl; [discriminate|].
  destruct k; [|apply IH]. destruct (startswith sep (c :: s)); [discriminate | apply IH].
Qed.

Lemma join_cons sep p rest : rest <> [] -> join sep (p :: rest) = p ++ sep ++ join sep rest.
Proof. destruct rest; [congruence | reflexivity]. Qed.

(** Joining the pieces with the separator gives the string back. *)
Lemma join_split_aux sep : sep <> [] -> forall n s cur,
  List.length s <= n -> join sep (split_aux sep cur s 0) = rev cur ++ s.
Proof.
  intros Hsep. induction n as [|n IH]; intros s cur Hn.
  - destruct s; [|simpl in Hn; lia]. simpl. rewrite app_nil_r. reflexivity.
  - destruct s as [|c s]; [simpl; rewrite app_nil_r; reflexivity|].
    simpl in Hn. cbn [split_aux].
    destruct (startswith sep (c :: s)) eqn:E.
    + apply startswith_inv in E. destruct E as [t Et].
      destruct sep as [|x sep]; [congruence|]. simpl in Et. injection Et as <- ->.
      rewrite join_cons by apply split_aux_nonempty.
      cbn [List.length]. rewrite Nat.sub_succ, Nat.sub_0_r.
      rewrite split_aux_skip by (rewrite length_app; lia).
      rewrite skipn_app, skipn_all, Nat.sub_diag. cbn [skipn app].
      rewrite IH by (rewrite length_app in Hn; lia).
      simpl. reflexivity.
    + rewrite IH by lia. simpl. rewrite <- app_assoc. reflexivity.
Qed.

Lemma join_split sep s : sep <> [] -> join sep (split sep s) = s.
Proof. intros Hsep. unfold split. apply (join_split_aux sep Hsep (List.length s)). lia. Qed.

(* ===================================================================== *)
(** ** The classifier: keywords that never decide *)
(* ===================================================================== *)

(** X1.  "unexpected token" contains "expected": a message with the syntax
    keyword "unexpected token" is classified assertion, and a message
    classified syntax contains "syntaxerror". *)
Theorem unexpected_token_is_assertion (U : unicodedata) (message : str) :
  (contains_ci U (py "unexpected token") message = true ->
   classify_failure U message = FailureType.ASSERTION) /\
  (classify_failure U message = FailureType.SYNTAX ->
   contains_ci U (py "syntaxerror") message = true).
Proof.
  assert (Hsub : contains (py "expected") (py "unexpected token") = true) by reflexivity.
  assert (Hassert : contains_ci U (py "unexpected token") message = true ->
                    any_in assertion_kw (lower U message) = true).
  { intros H. apply (any_in_true assertion_kw (lower U message) (py "expected")).
    - simpl. tauto.
    - exact (contains_trans _ _ _ Hsub H). }
  split.
  - intros H. unfold classify_failure. rewrite (Hassert H). reflexivity.
  - unfold classify_failure.
    destruct (any_in assertion_kw (lower U message)) eqn:Ea; [discriminate|].
    destruct (any_in type_error_kw (lower U message)); [discriminate|].
    destruct (any_in timeout_kw (lower U message)); [discriminate|].
    destruct (any_in mock_kw (lower U message)); [discriminate|].
    destruct (any_in environment_kw (lower U message)); [discriminate|].
    destruct (any_in syntax_kw (lower U message)) eqn:Es; [|discriminate].
    intros _. unfold any_in, syntax_kw in Es. cbn [map existsb] in Es.
    rewrite orb_false_r in Es. apply orb_true_iff in Es. destruct Es as [Es|Es].
    + exact Es.
    + discriminate (Hassert Es).
Qed.

Lemma unexpected_token_is_assertion_witness :
  contains_ci ascii_tables (py "unexpected token") Examples.js_syntax_error = true /\
  contains_ci ascii_tables (py "syntaxerror") Examples.js_syntax_error = true /\
  classify_failure ascii_tables Examples.js_syntax_error = FailureType.ASSERTION.
Proof.
  assert (H : contains_ci ascii_tables (py "unexpected token") Examples.js_syntax_error = true)
    by reflexivity.
  split; [exact H|]. split; [reflexivity|].
  destruct (unexpected_token_is_assertion ascii_tables Examples.js_syntax_error) as [Ha _].
  exact (Ha H).
Defined.

(* ===================================================================== *)
(** ** The failure records *)
(* ===================================================================== *)


Section Records.
Context (U : unicodedata).

Lemma jest_failures_made output f :
  In f (jest_failures U output) -> exists file_path m, f = jest_failure U file_path m.
Proof.
  unfold jest_failures. intros H. apply in_flat_map in H.
  destruct H as (m & _ & H). apply in_map_iff in H.
  destruct H as (tm & <- & _). eauto.
Qed.

Lemma pytest_failures_made output f :
  In f (pytest_failures U output) -> exists m, f = pytest_failure U output m.
Proof.
  unfold pytest_failures. intros H. apply in_map_iff in H.
  destruct H as (m & <- & _). eauto.
Qed.

Lemma go_failures_made output f :
  In f (go_failures U output) -> exists m, f = go_failure U m.
Proof.
  unfold go_failures. intros H. apply in_map_iff in H.
  destruct H as (m & <- & _). eauto.
Qed.

Lemma playwright_failures_made output f :
  In f (playwright_failures U output) -> exists m, f = playwright_failure U m.
Proof.
  unfold playwright_failures. intros H. apply in_map_iff in H.
  destruct H as (m & <- & _). eauto.
Qed.

(** Every record of a result of [parse_output] comes out of one of the
    four loop bodies. *)
Lemma parse_output_made output override r f :
  parse_output U output override = inr r -> In f (failures r) -> made_by U output f.
Proof.
  intros H Hin. apply parse_output_inv in H.
  destruct H as (fw & r0 & _ & Hr0 & ->).
  rewrite get_parsers in Hr0.
  assert (Hf : In f (failures r0)) by (destruct fw; exact Hin). clear Hin.
  destruct fw;
    try (apply parse_jest_inv in Hr0; destruct Hr0 as (_ & Hfs & _);
         rewrite Hfs in Hf; apply jest_failures_made in Hf;
         destruct Hf as (fp & m & ->); eapply by_jest; reflexivity).
  - apply parse_pytest_inv in Hr0. destruct Hr0 as (_ & Hfs & _).
    rewrite Hfs in Hf. apply pytest_failures_made in Hf.
    destruct Hf as (m & ->). eapply by_pytest; reflexivity.
  - apply parse_go_inv in Hr0. destruct Hr0 as (_ & Hfs & _).
    rewrite Hfs in Hf. apply go_failures_made in Hf.
    destruct Hf as (m & ->). eapply by_go; reflexivity.
  - apply parse_playwright_inv in Hr0. destruct Hr0 as (_ & Hfs & _).
    rewrite Hfs in Hf. apply playwright_failures_made in Hf.
    destruct Hf as (m & ->). eapply by_playwright; reflexivity.
Qed.

Lemma value_in_failure_tags ft : In (FailureType.value ft) failure_tags.
Proof. destruct ft; unfold failure_tags; simpl; tauto. Qed.

Lemma option_int_nonneg (o : option Re.Match) (k : nat) (n : Z) :
  match o with Some m => Some (int_of_digits U (Re.group m k)) | None => None end = Some n ->
  (0 <= n)%Z.
Proof. destruct o; intros [= <-]. apply int_of_digits_nonneg. Qed.

(** X2.  In every result of [parse_output], whatever the extractor, each
    failure record has no stack trace, a failure type that is one of the
    seven category names, and a line number that, when present, is not
    negative. *)
Theorem failure_record_shape (output : str) (override : option str)
    (r : TestResult) (f : FailedTest) :
  parse_output U output override = inr r ->
  In f (failures r) ->
  stack_trace f = None /\
  In (failure_type f) failure_tags /\
  (forall n, line_number f = Some n -> (0 <= n)%Z).
Proof.
  intros H Hin. destruct (parse_output_made output override r f H Hin) as [fp m ->|m ->|m ->|m ->].
  - split; [reflexivity|]. split; [apply value_in_failure_tags|].
    intros n. apply option_int_nonneg.
  - split; [reflexivity|]. split; [apply value_in_failure_tags|]. discriminate.
  - split; [reflexivity|]. split; [apply value_in_failure_tags|].
    intros n. apply option_int_nonneg.
  - split; [reflexivity|]. split; [apply value_in_failure_tags|].
    intros n [= <-]. apply int_of_digits_nonneg.
Qed.

(** X3.  The jest, pytest and go extractors classify the message they
    record: the failure type of each of their records is the class of the
    record's own error message.  The playwright extractor classifies the
    message before cutting it to 200 characters. *)
Theorem failure_type_of_message (output : str) :
  (forall r f, parse_jest U output = inr r -> In f (failures r) ->
     failure_type f = FailureType.value (classify_failure U (error_message f))) /\
  (forall r f, parse_pytest U output = inr r -> In f (failures r) ->
     failure_type f = FailureType.value (classify_failure U (error_message f))) /\
  (forall r f, parse_go U output = inr r -> In f (failures r) ->
     failure_type f = FailureType.value (classify_failure U (error_message f))) /\
  (forall r f, parse_playwright U output = inr r -> In f (failures r) ->
     exists message,
       error_message f = firstn 200 message /\
       failure_type f = FailureType.value (classify_failure U message)).
Proof.
  split; [|split; [|split]]; intros r f H Hin.
  - apply parse_jest_inv in H. destruct H as (_ & Hfs & _). rewrite Hfs in Hin.
    apply jest_failures_made in Hin. destruct Hin as (fp & m & ->). reflexivity.
  - apply parse_pytest_inv in H. destruct H as (_ & Hfs & _). rewrite Hfs in Hin.
    apply pytest_failures_made in Hin. destruct Hin as (m & ->). reflexivity.
  - apply parse_go_inv in H. destruct H as (_ & Hfs & _). rewrite Hfs in Hin.
    apply go_failures_made in Hin. destruct Hin as (m & ->). reflexivity.
  - apply parse_playwright_inv in H. destruct H as (_ & Hfs & _). rewrite Hfs in Hin.
    apply playwright_failures_made in Hin. destruct Hin as (m & ->).
    eexists. split; reflexivity.
Qed.

(** X4.  The pytest and playwright extractors never record an error
    message of more than 200 characters. *)
Theorem error_message_at_most_200 (output : str) :
  (forall r f, parse_pytest U output = inr r -> In f (failures r) ->
     List.length (error_message f) <= 200) /\
  (forall r f, parse_playwright U output = inr r -> In f (failures r) ->
     List.length (error_message f) <= 200).
Proof.
  split; intros r f H Hin.
  - apply parse_pytest_inv in H. destruct H as (_ & Hfs & _). rewrite Hfs in Hin.
    apply pytest_failures_made in Hin. destruct Hin as (m & ->).
    unfold pytest_failure. cbn [error_message].
    destruct (Re.search U Re.S (Pat.pytest_error (Re.group m 2)) output).
    + unfold first200. rewrite length_firstn. lia.
    + vm_compute. lia.
  - apply parse_playwright_inv in H. destruct H as (_ & Hfs & _). rewrite Hfs in Hin.
    apply playwright_failures_made in Hin. destruct Hin as (m & ->).
    unfold playwright_failure. cbn [error_message].
    unfold first200. rewrite length_firstn. lia.
Qed.
End Records.

Lemma failure_record_shape_witness :
  parse_output ascii_tables Examples.jest_report (Some (py "vitest"))
    = inr Examples.vitest_result /\
  forall f, In f (failures Examples.vitest_result) ->
    stack_trace f = None /\
    In (failure_type f) failure_tags /\
    (forall n, line_number f = Some n -> (0 <= n)%Z).
Proof.
  assert (E : parse_output ascii_tables Examples.jest_report (Some (py "vitest"))
              = inr Examples.vitest_result) by (vm_compute; reflexivity).
  split; [exact E|]. intros f Hin.
  exact (failure_record_shape ascii_tables Examples.jest_report (Some (py "vitest"))
           Examples.vitest_result f E Hin).
Defined.

Lemma failure_type_of_message_witness :
  parse_playwright ascii_tables Examples.playwright_long = inr Examples.playwright_long_result /\
  forall f, In f (failures Examples.playwright_long_result) ->
    failure_type f = py "assertion" /\
    classify_failure ascii_tables (error_message f) = FailureType.UNKNOWN /\
    exists message,
      error_message f = firstn 200 message /\
      failure_type f = FailureType.value (classify_failure ascii_tables message).
Proof.
  assert (E : parse_playwright ascii_tables Examples.playwright_long
              = inr Examples.playwright_long_result) by (vm_compute; reflexivity).
  split; [exact E|]. intros f Hin.
  destruct (failure_type_of_message ascii_tables Examples.playwright_long)
    as (_ & _ & _ & H).
  split; [destruct Hin as [<-|[]]; reflexivity|].
  split; [destruct Hin as [<-|[]]; vm_compute; reflexivity|].
  exact (H Examples.playwright_long_result f E Hin).
Defined.

Lemma error_message_at_most_200_witness :
  parse_playwright ascii_tables Examples.playwright_long = inr Examples.playwright_long_result /\
  forall f, In f (failures Examples.playwright_long_result) ->
    List.length (error_message f) <= 200.
Proof.
  assert (E : parse_playwright ascii_tables Examples.playwright_long
              = inr Examples.playwright_long_result) by (vm_compute; reflexivity).
  split; [exact E|]. intros f Hin.
  destruct (error_message_at_most_200 ascii_tables Examples.playwright_long) as (_ & H).
  exact (H Examples.playwright_long_result f E Hin).
Defined.

(* ===================================================================== *)
(** ** Counts and failure records *)
(* ===================================================================== *)

Section Counts.
Context (U : unicodedata).

Lemma parse_pytest_fallback output r :
  Re.search U Re.I Pat.pytest_summary output = None ->
  parse_pytest U output = inr r ->
  failed r = len (failures r).
Proof.
  unfold parse_pytest. intros ->. cbv zeta; cbv beta iota.
  intros H; apply bind_inr in H; destruct H as (d & Hd & H);
    injection H as <-; reflexivity.
Qed.

Lemma parse_playwright_fallback output r :
  Re.search U Re.no_flags Pat.playwright_summary output = None ->
  parse_playwright U output = inr r ->
  failed r = len (failures r).
Proof.
  unfold parse_playwright. intros ->. cbv zeta; cbv beta iota.
  intros H; injection H as <-; reflexivity.
Qed.

Lemma parse_go_counts output r :
  parse_go U output = inr r ->
  failed r = len (failures r) /\
  passed r = len (Re.finditer U Re.no_flags Pat.go_pass output).
Proof.
  unfold parse_go. cbv zeta.
  intros H; apply bind_inr in H; destruct H as (d & Hd & H);
    injection H as <-; split; reflexivity.
Qed.

(** X5.  The failed count of the go extractor is always the number of its
    failure records, and its total the sum of passed and failed.  The jest,
    pytest and playwright extractors count their failure records too when
    they find no summary line; the jest extractor then also has
    total = passed + failed. *)
Theorem failed_counts_the_records (output : str) :
  (forall r, parse_go U output = inr r ->
     failed r = len (failures r) /\ total r = (passed r + failed r)%Z /\ skipped r = 0%Z) /\
  (forall r, Re.search U Re.I Pat.jest_summary output = None ->
     parse_jest U output = inr r ->
     failed r = len (failures r) /\ total r = (passed r + failed r)%Z) /\
  (forall r, Re.search U Re.I Pat.pytest_summary output = None ->
     parse_pytest U output = inr r -> failed r = len (failures r)) /\
  (forall r, Re.search U Re.no_flags Pat.playwright_summary output = None ->
     parse_playwright U output = inr r -> failed r = len (failures r)).
Proof.
  split; [|split; [|split]].
  - intros r H. destruct (parse_go_counts output r H) as [Hf _].
    apply parse_go_inv in H. destruct H as (_ & _ & Ht & _ & Hs & _). auto.
  - intros r Hs H. destruct (parse_jest_fallback U output r Hs H) as (Ht & Hf & Hp).
    apply parse_jest_inv in H. destruct H as (_ & Hfs & _).
    rewrite Hfs. split; [exact Hf | lia].
  - intros r Hs H. exact (parse_pytest_fallback output r Hs H).
  - intros r Hs H. exact (parse_playwright_fallback output r Hs H).
Qed.

(** X6.  When the jest extractor finds neither its summary line nor a
    number of tests or specs in the text, it reports no passed test: total
    and failed are both the number of failure records. *)
Theorem jest_without_numbers (output : str) (r : TestResult) :
  Re.search U Re.I Pat.jest_summary output = None ->
  Re.search U Re.I Pat.jest_total output = None ->
  parse_jest U output = inr r ->
  passed r = 0%Z /\ total r = len (failures r) /\ failed r = len (failures r).
Proof.
  intros Hs Ht H. destruct (parse_jest_fallback U output r Hs H) as (Htot & Hf & Hp).
  rewrite Ht in Htot. simpl in Htot.
  apply parse_jest_inv in H. destruct H as (_ & Hfs & _).
  rewrite Hfs. split; [lia|]. split; assumption.
Qed.
End Counts.

(* ===================================================================== *)
(** ** Seconds to milliseconds *)
(* ===================================================================== *)

Section Rounding.
Local Open Scope Z_scope.

Lemma round_nonneg p q : 0 <= p -> 0 < q -> float_nonneg (Float.round p q).
Proof.
  intros Hp Hq. unfold Float.round.
  destruct (p =? 0); [simpl; lia|]. cbv zeta.
  set (x := Z.max (Float.ilog2_ratio p q - 52) (-1074)).
  set (n := if 0 <=? x then p else p * 2 ^ (- x)).
  set (d := if 0 <=? x then q * 2 ^ x else q).
  assert (Hn : 0 <= n).
  { unfold n. destruct (0 <=? x); [lia|]. apply Z.mul_nonneg_nonneg; [lia|].
    apply Z.pow_nonneg. lia. }
  assert (Hd : 0 < d).
  { unfold d. destruct (Z.leb_spec 0 x); [|lia]. apply Z.mul_pos_pos; [lia|].
    apply Z.pow_pos_nonneg; lia. }
  assert (Hm : 0 <= n / d) by (apply Z.div_pos; lia).
  destruct (1024 <=? _); [exact I|].
  simpl. destruct (_ || _); lia.
Qed.

Lemma mul1000_nonneg f : float_nonneg f -> float_nonneg (Float.mul1000 f).
Proof.
  destruct f as [m e|]; [|simpl; auto]. unfold Float.mul1000. intros Hm. simpl in Hm.
  destruct (Z.leb_spec 0 e).
  - apply round_nonneg; [|lia]. apply Z.mul_nonneg_nonneg; [lia|]. apply Z.pow_nonneg. lia.
  - apply round_nonneg; [lia|]. apply Z.pow_pos_nonneg; lia.
Qed.

Lemma to_int_nonneg f n : float_nonneg f -> Float.to_int f = inr n -> 0 <= n.
Proof.
  destruct f as [m e|]; [|discriminate]. unfold Float.to_int. intros Hm [= <-]. simpl in Hm.
  destruct (Z.leb_spec 0 e).
  - apply Z.mul_nonneg_nonneg; [lia|]. apply Z.pow_nonneg. lia.
  - apply Z.div_pos; [lia|]. apply Z.pow_pos_nonneg; lia.
Qed.

(* exactness *)
Lemma round_exact k j :
  0 < k < 2 ^ 53 -> 0 <= j ->
  Float.round (k * 2 ^ j) (2 ^ j) = Finite (k * 2 ^ (52 - Z.log2 k)) (Z.log2 k - 52).
Proof.
  intros [Hk0 Hk] Hj.
  assert (Hpj : 0 < 2 ^ j) by (apply Z.pow_pos_nonneg; lia).
  assert (Hl0 : 0 <= Z.log2 k) by apply Z.log2_nonneg.
  assert (Hl : Z.log2 k < 53) by (apply Z.log2_lt_pow2; lia).
  destruct (Z.log2_spec k Hk0) as [Hlo Hhi].
  unfold Float.round.
  destruct (Z.eqb_spec (k * 2 ^ j) 0) as [E|_]; [nia|].
  cbv zeta.
  assert (Hi : Float.ilog2_ratio (k * 2 ^ j) (2 ^ j) = Z.log2 k).
  { unfold Float.ilog2_ratio. rewrite Z.log2_mul_pow2, Z.log2_pow2 by lia.
    replace (j + Z.log2 k - j) with (Z.log2 k) by lia.
    destruct (Z.leb_spec 0 (Z.log2 k)); [|lia].
    destruct (Z.leb_spec (2 ^ j * 2 ^ Z.log2 k) (k * 2 ^ j)); [reflexivity|nia]. }
  rewrite Hi.
  replace (Z.max (Z.log2 k - 52) (-1074)) with (Z.log2 k - 52) by lia.
  destruct (Z.leb_spec 0 (Z.log2 k - 52)) as [Hx|Hx].
  - assert (El : Z.log2 k = 52) by lia. rewrite El. simpl (52 - 52). simpl (2 ^ 0).
    rewrite !Z.mul_1_r. rewrite Z.div_mul, Z.mod_mul by lia.
    replace (2 ^ j <? 2 * 0) with false by (symmetry; apply Z.ltb_ge; lia).
    replace (2 ^ j =? 2 * 0) with false by (symmetry; apply Z.eqb_neq; lia).
    simpl. rewrite El. reflexivity.
  - replace (- (Z.log2 k - 52)) with (52 - Z.log2 k) by lia.
    replace (k * 2 ^ j * 2 ^ (52 - Z.log2 k)) with (k * 2 ^ (52 - Z.log2 k) * 2 ^ j) by ring.
    rewrite Z.div_mul, Z.mod_mul by lia.
    replace (2 ^ j <? 2 * 0) with false by (symmetry; apply Z.ltb_ge; lia).
    replace (2 ^ j =? 2 * 0) with false by (symmetry; apply Z.eqb_neq; lia).
    simpl orb. cbv iota.
    rewrite Z.log2_mul_pow2 by lia.
    destruct (Z.leb_spec 1024 (52 - Z.log2 k + Z.log2 k + (Z.log2 k - 52))); [lia|].
    reflexivity.
Qed.

End Rounding.

Section Conversions.
Context (U : unicodedata).
Local Open Scope nat_scope.

Lemma read_decimal_spec s :
  Forall (fun c => is_dot c = true \/ isdecimal U c = true) s ->
  forall seen mant scale nd,
    match read_decimal U s seen mant scale nd with
    | None => 2 <= dots s + b2n seen
    | Some (_, _, nd') => dots s + b2n seen <= 1 /\ nd' = nd + digits U s
    end.
Proof.
  induction 1 as [|c s Hc Hs IH]; intros seen mant scale nd.
  - simpl. unfold dots, digits. simpl. destruct seen; simpl; lia.
  - cbn [read_decimal]. unfold dots, digits, digit_of in *. cbn [filter].
    fold (is_dot c). destruct (is_dot c) eqn:Ed.
    + cbn [negb andb List.length]. destruct seen.
      * simpl. lia.
      * specialize (IH true mant scale nd).
        destruct (read_decimal U s true mant scale nd) as [[[? ?] ?]|];
          simpl in *; lia.
    + destruct Hc as [Hc|Hc]; [discriminate|]. rewrite Hc.
      cbn [negb andb List.length].
      specialize (IH seen (10 * mant + todecimal U c)%N
                    (if seen then N.succ scale else scale) (S nd)).
      destruct (read_decimal U s seen _ _ (S nd)) as [[[? ?] ?]|]; simpl in *; lia.
Qed.

Lemma float_of_str_syntax s :
  Forall (fun c => is_dot c = true \/ isdecimal U c = true) s ->
  (float_of_str U s = raise ValueError <-> digits U s = 0 \/ 2 <= dots s).
Proof.
  intros Hs. unfold float_of_str.
  assert (H := read_decimal_spec s Hs false 0%N 0%N 0).
  destruct (read_decimal U s false 0%N 0%N 0) as [[[m sc] nd]|].
  - simpl in H. destruct H as [Hd ->]. simpl.
    destruct (digits U s) eqn:E.
    + split; [left; reflexivity | reflexivity].
    + split; [discriminate | lia].
  - simpl in H. split; [intros _; right; lia | reflexivity].
Qed.

Lemma float_of_str_raises_ValueError s e : float_of_str U s = inl e -> e = ValueError.
Proof.
  unfold float_of_str.
  destruct (read_decimal U s false 0%N 0%N 0) as [[[m sc] [|nd]]|];
    simpl; try discriminate; intros [= <-]; reflexivity.
Qed.

Lemma read_decimal_digits s :
  Forall (fun c => digit_of U c = true) s ->
  forall mant nd,
    read_decimal U s false mant 0%N nd =
      Some (fold_left (fun acc c => (10 * acc + todecimal U c)%N) s mant, 0%N,
            nd + List.length s).
Proof.
  induction 1 as [|c s Hc Hs IH]; intros mant nd.
  - simpl. rewrite Nat.add_0_r. reflexivity.
  - cbn [read_decimal]. unfold digit_of, is_dot in Hc.
    apply andb_true_iff in Hc. destruct Hc as [Hdot Hdec].
    apply negb_true_iff in Hdot. rewrite Hdot, Hdec. rewrite IH. simpl.
    repeat f_equal. lia.
Qed.

Local Open Scope Z_scope.

Lemma to_int_mul1000_exact n :
  0 <= n -> 1000 * n < 2 ^ 53 ->
  Float.to_int (Float.mul1000 (Float.round n 1)) = inr (1000 * n).
Proof.
  intros Hn Hb.
  destruct (Z.eq_dec n 0) as [->|Hn0]; [reflexivity|].
  assert (R1 := round_exact n 0).
  change (2 ^ 0) with 1 in R1. rewrite Z.mul_1_r in R1.
  rewrite R1 by lia. clear R1.
  assert (Hl0 : 0 <= Z.log2 n) by apply Z.log2_nonneg.
  assert (Hl : Z.log2 n < 52).
  { apply Z.log2_lt_pow2; [lia|]. change (2 ^ 53) with (2 * 2 ^ 52) in Hb. lia. }
  unfold Float.mul1000.
  destruct (Z.leb_spec 0 (Z.log2 n - 52)); [lia|].
  replace (- (Z.log2 n - 52)) with (52 - Z.log2 n) by lia.
  replace (1000 * (n * 2 ^ (52 - Z.log2 n))) with (1000 * n * 2 ^ (52 - Z.log2 n)) by ring.
  rewrite round_exact by lia.
  assert (HL0 : 0 <= Z.log2 (1000 * n)) by apply Z.log2_nonneg.
  assert (HL : Z.log2 (1000 * n) < 53) by (apply Z.log2_lt_pow2; lia).
  unfold Float.to_int. f_equal.
  destruct (Z.leb_spec 0 (Z.log2 (1000 * n) - 52)).
  - replace (Z.log2 (1000 * n)) with 52 by lia. simpl. lia.
  - replace (- (Z.log2 (1000 * n) - 52)) with (52 - Z.log2 (1000 * n)) by lia.
    apply Z.div_mul. apply Z.pow_nonzero; lia.
Qed.

(** X8.  A duration written as a whole number of seconds, small enough
    for its thousandfold to stay below 2^53, converts without rounding: the
    milliseconds are exactly 1000 times the number. *)
Theorem whole_seconds_exact s :
  s <> [] ->
  Forall (fun c => digit_of U c = true) s ->
  1000 * int_of_digits U s < 2 ^ 53 ->
  seconds_to_ms U s = inr (1000 * int_of_digits U s).
Proof.
  intros Hne Hs Hb. unfold seconds_to_ms, float_of_str.
  rewrite (read_decimal_digits s Hs). destruct s as [|c s]; [congruence|].
  cbn [List.length Nat.add]. change (10 ^ Z.of_N 0) with 1.
  change (bind (inr ?f) ?k) with (k f). cbv beta.
  apply to_int_mul1000_exact; [apply int_of_digits_nonneg | exact Hb].
Qed.
End Conversions.

Lemma whole_seconds_exact_witness :
  py "12" <> [] /\
  Forall (fun c => digit_of ascii_tables c = true) (py "12") /\
  (1000 * int_of_digits ascii_tables (py "12") < 2 ^ 53)%Z /\
  seconds_to_ms ascii_tables (py "12") = inr 12000%Z.
Proof.
  assert (Hne : py "12" <> []) by discriminate.
  assert (Hd : Forall (fun c => digit_of ascii_tables c = true) (py "12"))
    by (repeat constructor).
  assert (Hb : (1000 * int_of_digits ascii_tables (py "12") < 2 ^ 53)%Z)
    by (vm_compute; reflexivity).
  repeat (split; [assumption|]).
  exact (whole_seconds_exact ascii_tables (py "12") Hne Hd Hb).
Defined.

(** The conversion does round: 1.001 seconds are 1000 milliseconds. *)
Example a_thousandth_is_lost : seconds_to_ms ascii_tables (py "1.001") = inr 1000%Z.
Proof. reflexivity. Qed.

Section DurationText.
Context (U : unicodedata).

(** X7.  What [float] makes of a text of digits and dots, which is what a
    duration pattern captures: it raises ValueError exactly when the text
    has no digit or more than one dot, and it raises nothing else. *)
Theorem duration_text_syntax (s : str) :
  Forall (fun c => is_dot c = true \/ isdecimal U c = true) s ->
  (float_of_str U s = raise ValueError <-> digits U s = 0 \/ 2 <= dots s) /\
  (forall e, float_of_str U s = inl e -> e = ValueError).
Proof.
  intros Hs. split.
  - apply float_of_str_syntax. exact Hs.
  - apply float_of_str_raises_ValueError.
Qed.

Lemma seconds_to_ms_nonneg s ms : seconds_to_ms U s = inr ms -> (0 <= ms)%Z.
Proof.
  unfold seconds_to_ms. intros H. apply bind_inr in H. destruct H as (f & Hf & H).
  apply (to_int_nonneg (Float.mul1000 f)); [|exact H].
  apply mul1000_nonneg.
  unfold float_of_str in Hf.
  destruct (read_decimal U s false 0%N 0%N 0) as [[[m sc] [|nd]]|]; try discriminate.
  injection Hf as <-. apply round_nonneg; [lia|].
  apply Z.pow_pos_nonneg; lia.
Qed.

Lemma duration_of_inv o d :
  duration_of U o = inr (Some d) ->
  exists m, o = Some m /\ seconds_to_ms U (Re.group m 1) = inr d.
Proof.
  destruct o as [m|]; [|discriminate]. rewrite duration_of_Some.
  destruct (seconds_to_ms U (Re.group m 1)) eqn:E; [discriminate|].
  intros [= <-]. eauto.
Qed.

(** The duration of a result, whichever extractor made it, comes out of
    [seconds_to_ms]. *)
Lemma parse_output_duration output override r d :
  parse_output U output override = inr r -> duration_ms r = Some d ->
  exists s, seconds_to_ms U s = inr d.
Proof.
  intros H Hd. apply parse_output_inv in H.
  destruct H as (fw & r0 & _ & Hr0 & ->).
  rewrite get_parsers in Hr0.
  assert (Hd0 : duration_ms r0 = Some d) by (destruct fw; exact Hd). clear Hd.
  destruct fw;
    try (apply parse_jest_inv in Hr0; destruct Hr0 as (_ & _ & _ & Hdur);
         rewrite Hd0 in Hdur; apply duration_of_inv in Hdur;
         destruct Hdur as (m & _ & Hms); eauto).
  - apply parse_pytest_inv in Hr0. destruct Hr0 as (_ & _ & _ & _ & Hdur).
    rewrite Hd0 in Hdur. apply duration_of_inv in Hdur.
    destruct Hdur as (m & _ & Hms); eauto.
  - apply parse_go_inv in Hr0. destruct Hr0 as (_ & _ & _ & _ & _ & Hdur).
    rewrite Hd0 in Hdur. apply duration_of_inv in Hdur.
    destruct Hdur as (m & _ & Hms); eauto.
  - apply parse_playwright_inv in Hr0. destruct Hr0 as (_ & _ & _ & _ & _ & Hdur).
    congruence.
Qed.

(** X9.  The duration of a result of [parse_output], when present, is not
    negative. *)
Theorem duration_not_negative (output : str) (override : option str)
    (r : TestResult) (d : Z) :
  parse_output U output override = inr r ->
  duration_ms r = Some d ->
  (0 <= d)%Z.
Proof.
  intros H Hd. destruct (parse_output_duration output override r d H Hd) as [s Hs].
  exact (seconds_to_ms_nonneg s d Hs).
Qed.

(** X10.  A duration that does not convert is fatal.  When the duration
    pattern of the jest, pytest or go extractor matches the text and the
    conversion of what it captured raises (the text is no float, or the
    product is too large for an integer), the extractor returns no
    result, whatever else the text holds. *)
Theorem unreadable_duration_is_fatal (output : str) (m : Re.Match) (e : exn)
    (r : TestResult) :
  seconds_to_ms U (Re.group m 1) = inl e ->
  (Re.search U Re.no_flags Pat.jest_duration output = Some m ->
   parse_jest U output <> inr r) /\
  (Re.search U Re.no_flags Pat.pytest_duration output = Some m ->
   parse_pytest U output <> inr r) /\
  (Re.search U Re.M Pat.go_duration output = Some m ->
   parse_go U output <> inr r).
Proof.
  intros He.
  assert (Hno : forall d, duration_of U (Some m) <> inr d).
  { intros d. rewrite duration_of_Some, He. discriminate. }
  split; [|split]; intros Hm H.
  - apply parse_jest_inv in H. destruct H as (_ & _ & _ & H).
    rewrite Hm in H. exact (Hno _ H).
  - apply parse_pytest_inv in H. destruct H as (_ & _ & _ & _ & H).
    rewrite Hm in H. exact (Hno _ H).
  - apply parse_go_inv in H. destruct H as (_ & _ & _ & _ & _ & H).
    rewrite Hm in H. exact (Hno _ H).
Qed.
End DurationText.

Lemma duration_text_syntax_witness :
  Forall (fun c => is_dot c = true \/ isdecimal ascii_tables c = true) (py "1.2.3") /\
  dots (py "1.2.3") = 2 /\
  float_of_str ascii_tables (py "1.2.3") = raise ValueError.
Proof.
  assert (H : Forall (fun c => is_dot c = true \/ isdecimal ascii_tables c = true) (py "1.2.3")).
  { repeat constructor; (left; reflexivity) || (right; reflexivity). }
  split; [exact H|]. split; [reflexivity|].
  destruct (duration_text_syntax ascii_tables (py "1.2.3") H) as [Hiff _].
  apply Hiff. right. vm_compute. lia.
Defined.

Lemma unreadable_duration_is_fatal_witness :
  (exists m,
     Re.search ascii_tables Re.no_flags Pat.jest_duration (py "Tests: 1 total\nTime: . s")
       = Some m /\
     Re.group m 1 = py "." /\
     seconds_to_ms ascii_tables (Re.group m 1) = inl ValueError) /\
  forall r, parse_jest ascii_tables (py "Tests: 1 total\nTime: . s") <> inr r.
Proof.
  destruct (Re.search ascii_tables Re.no_flags Pat.jest_duration
              (py "Tests: 1 total\nTime: . s")) as [m|] eqn:E;
    [|vm_compute in E; discriminate].
  assert (Hg : Re.group m 1 = py ".")
    by (vm_compute in E; injection E as <-; reflexivity).
  assert (He : seconds_to_ms ascii_tables (Re.group m 1) = inl ValueError)
    by (rewrite Hg; reflexivity).
  split; [exists m; auto|].
  intros r.
  destruct (unreadable_duration_is_fatal ascii_tables (py "Tests: 1 total\nTime: . s")
              m ValueError r He) as (Hj & _).
  apply Hj. exact E.
Defined.

Lemma duration_not_negative_witness :
  parse_output ascii_tables Examples.jest_report (Some (py "vitest"))
    = inr Examples.vitest_result /\
  duration_ms Examples.vitest_result = Some 1500%Z /\
  (0 <= 1500)%Z.
Proof.
  assert (E : parse_output ascii_tables Examples.jest_report (Some (py "vitest"))
              = inr Examples.vitest_result) by (vm_compute; reflexivity).
  assert (D : duration_ms Examples.vitest_result = Some 1500%Z) by reflexivity.
  split; [exact E|]. split; [exact D|].
  exact (duration_not_negative ascii_tables Examples.jest_report (Some (py "vitest"))
           Examples.vitest_result 1500 E D).
Defined.

Lemma failed_counts_the_records_witness :
  exists r,
    parse_go ascii_tables Examples.go_report = inr r /\
    failed r = 1%Z /\
    failed r = len (failures r) /\ total r = (passed r + failed r)%Z /\ skipped r = 0%Z.
Proof.
  destruct (parse_go ascii_tables Examples.go_report) as [e|r] eqn:E;
    [vm_compute in E; discriminate|].
  exists r. split; [reflexivity|].
  destruct (failed_counts_the_records ascii_tables Examples.go_report) as (H & _).
  split; [|exact (H r E)].
  vm_compute in E. injection E as <-. reflexivity.
Defined.

Lemma jest_without_numbers_witness :
  exists r,
    parse_jest ascii_tables Examples.jest_bare = inr r /\
    List.length (failures r) = 1 /\
    passed r = 0%Z /\ total r = len (failures r) /\ failed r = len (failures r).
Proof.
  destruct (parse_jest ascii_tables Examples.jest_bare) as [e|r] eqn:E;
    [vm_compute in E; discriminate|].
  exists r. split; [reflexivity|]. split.
  - vm_compute in E. injection E as <-. reflexivity.
  - apply (jest_without_numbers ascii_tables Examples.jest_bare r);
      [vm_compute; reflexivity | vm_compute; reflexivity | exact E].
Defined.

(* ===================================================================== *)
(** ** The tag of a result *)
(* ===================================================================== *)

Section Tags.
Context (U : unicodedata).

Lemma extractor_tag fw output r0 :
  get (parsers U) fw (parse_jest U) output = inr r0 ->
  framework r0 =
    match fw with
    | Framework.PYTEST => py "pytest"
    | Framework.GO => py "go"
    | Framework.PLAYWRIGHT => py "playwright"
    | _ => py "jest"
    end.
Proof.
  rewrite get_parsers. destruct fw; intros H;
    try (apply parse_jest_inv in H; tauto).
  - apply parse_pytest_inv in H. tauto.
  - apply parse_go_inv in H. tauto.
  - apply parse_playwright_inv in H. tauto.
Qed.

(** X11.  The framework of a result of [parse_output] is always one of
    the six supported names, never "unknown": without override it is the
    name of the framework detected, and "jest" when none is detected. *)
Theorem result_tag (output : str) (override : option str) (r : TestResult) :
  parse_output U output override = inr r ->
  In (framework r) supported_tags /\
  framework r <> py "unknown" /\
  (truthy override = false ->
   framework r =
     match detect_framework U output with
     | Framework.UNKNOWN => py "jest"
     | fw => Framework.value fw
     end).
Proof.
  intros H. apply parse_output_inv in H.
  destruct H as (fw & r0 & Hres & Hr0 & ->).
  apply extractor_tag in Hr0.
  assert (Htag : framework (if negb (Framework.eqb fw Framework.UNKNOWN)
                            then set_framework r0 (Framework.value fw) else r0)
                 = match fw with
                   | Framework.UNKNOWN => py "jest"
                   | _ => Framework.value fw
                   end).
  { destruct fw; simpl; try reflexivity. exact Hr0. }
  rewrite Htag. split; [|split].
  - destruct fw; unfold supported_tags; simpl; tauto.
  - destruct fw; discriminate.
  - intros Hno. unfold resolve in Hres. rewrite Hno in Hres.
    injection Hres as <-. destruct (detect_framework U output); reflexivity.
Qed.

(** X12.  The overrides "jest", "vitest" and "cypress" all run the jest
    extractor: they give its result, or its exception, with nothing but
    the framework field set to the override. *)
Theorem jest_family_override (output tag : str) :
  In tag jest_family ->
  parse_output U output (Some tag) =
    match parse_jest U output with
    | inr r => inr (set_framework r tag)
    | inl e => inl e
    end.
Proof.
  unfold jest_family. simpl.
  intros [<-|[<-|[<-|[]]]]; unfold parse_output; simpl;
    destruct (parse_jest U output); reflexivity.
Qed.
End Tags.

Lemma result_tag_witness :
  parse_output ascii_tables Examples.jest_report None <> inl ValueError /\
  exists r,
    parse_output ascii_tables Examples.jest_report None = inr r /\
    detect_framework ascii_tables Examples.jest_report = Framework.UNKNOWN /\
    framework r = py "jest".
Proof.
  destruct (parse_output ascii_tables Examples.jest_report None) as [e|r] eqn:E;
    [vm_compute in E; discriminate|].
  split; [discriminate|]. exists r. split; [reflexivity|].
  assert (D : detect_framework ascii_tables Examples.jest_report = Framework.UNKNOWN)
    by (vm_compute; reflexivity).
  split; [exact D|].
  destruct (result_tag ascii_tables Examples.jest_report None r E) as (_ & _ & H).
  rewrite H by reflexivity. rewrite D. reflexivity.
Defined.

Lemma jest_family_override_witness :
  In (py "cypress") jest_family /\
  parse_output ascii_tables Examples.jest_bare (Some (py "cypress")) =
    match parse_jest ascii_tables Examples.jest_bare with
    | inr r => inr (set_framework r (py "cypress"))
    | inl e => inl e
    end.
Proof.
  assert (H : In (py "cypress") jest_family) by (unfold jest_family; simpl; tauto).
  split; [exact H|].
  exact (jest_family_override ascii_tables Examples.jest_bare (py "cypress") H).
Defined.

(* ===================================================================== *)
(** ** The remaining set, for every index *)
(* ===================================================================== *)

Section RemainingAnywhere.
Import list_tests.

Lemma slice_from_is_skipn (A : Type) (l : list A) (start : Z) :
  exists n, slice_from l start = skipn n l /\
    n = Z.to_nat (if (start <? 0)%Z then Z.max (len l + start) 0 else start).
Proof. eexists. split; reflexivity. Qed.

Lemma generate_remaining_tests_items tl i :
  remaining_tests (generate_remaining_tests tl i) = slice_from (tests tl) (i + 1) /\
  remaining_count (generate_remaining_tests tl i) = len (slice_from (tests tl) (i + 1)).
Proof.
  unfold generate_remaining_tests.
  destruct (slice_from (tests tl) (i + 1)); split; reflexivity.
Qed.

Lemma run_remaining_command_none_iff (tl : TestList) (failed_index : Z) :
  run_remaining_command (generate_remaining_tests tl failed_index) = None <->
  remaining_tests (generate_remaining_tests tl failed_index) = [] \/
  recognized (framework tl) = false.
Proof.
  destruct (slice_from (tests tl) (failed_index + 1)) as [|t rest] eqn:E.
  - unfold generate_remaining_tests. rewrite E. simpl. tauto.
  - rewrite (generate_remaining_tests_cons tl failed_index t rest E).
    cbn [run_remaining_command remaining_tests]. cbv zeta.
    unfold recognized, recognized_tags, str_in. cbn [existsb].
    repeat match goal with
           | |- context [str_eqb (framework tl) ?x] =>
               destruct (str_eqb (framework tl) x)
           end;
      cbn [orb]; cbv iota;
      (split;
       [ first [discriminate | intros _; right; reflexivity]
       | intros [H|H]; first [discriminate | reflexivity] ]).
Qed.

Lemma remaining_count_formula (tl : TestList) (failed_index : Z) :
  remaining_count (generate_remaining_tests tl failed_index) =
    (if len (tests tl) - 1 <=? failed_index then 0
     else if -1 <=? failed_index then len (tests tl) - failed_index - 1
     else Z.min (len (tests tl)) (- failed_index - 1))%Z.
Proof.
  destruct (generate_remaining_tests_items tl failed_index) as [_ ->].
  unfold slice_from, len. rewrite length_skipn.
  destruct (Z.leb_spec (Z.of_nat (List.length (tests tl)) - 1) failed_index);
    destruct (Z.leb_spec (-1) failed_index);
    destruct (Z.ltb_spec (failed_index + 1) 0); lia.
Qed.

(** X13.  Whatever the index, [generate_remaining_tests] returns a suffix
    of the inventory and its length as count; the command is absent
    exactly when nothing remains or the framework is none of jest, vitest,
    pytest, go, playwright. *)
Theorem remaining_is_always_a_suffix (tl : TestList) (failed_index : Z) :
  let r := generate_remaining_tests tl failed_index in
  (exists before, tests tl = before ++ remaining_tests r) /\
  remaining_count r = len (remaining_tests r) /\
  (run_remaining_command r = None <->
   remaining_tests r = [] \/ recognized (framework tl) = false).
Proof.
  cbv zeta.
  destruct (generate_remaining_tests_items tl failed_index) as [Hitems Hcount].
  split; [|split].
  - rewrite Hitems. destruct (slice_from_is_skipn _ (tests tl) (failed_index + 1)) as (n & -> & _).
    exists (firstn n (tests tl)). symmetry. apply firstn_skipn.
  - rewrite Hcount, Hitems. reflexivity.
  - apply run_remaining_command_none_iff.
Qed.

(** X14.  The count for every integer index.  From the last index on,
    nothing remains.  For an index from -1 to the last but one, what remains
    are the [len - index - 1] items after it; the index -1 gives the whole
    inventory.  An index below -1 counts from the end, as a Python slice
    does: it gives the last [- index - 1] items, or all when there are
    fewer. *)
Theorem remaining_count_for_every_index (tl : TestList) (failed_index : Z) :
  remaining_count (generate_remaining_tests tl failed_index) =
    (if len (tests tl) - 1 <=? failed_index then 0
     else if -1 <=? failed_index then len (tests tl) - failed_index - 1
     else Z.min (len (tests tl)) (- failed_index - 1))%Z.
Proof. apply remaining_count_formula. Qed.
End RemainingAnywhere.

(* ===================================================================== *)
(** ** The listers *)
(* ===================================================================== *)

Lemma split_aux_two sep : sep <> [] -> forall s cur,
  contains sep s = true -> 2 <= List.length (split_aux sep cur s 0).
Proof.
  intros Hsep. induction s as [|c s IH]; intros cur H.
  - simpl in H. destruct sep; [congruence | discriminate].
  - cbn [split_aux]. cbn [contains] in H.
    destruct (startswith sep (c :: s)) eqn:E.
    + cbn [List.length].
      assert (N := split_aux_nonempty sep s [] (List.length sep - 1)).
      destruct (split_aux sep [] s (List.length sep - 1)); [congruence | simpl; lia].
    + simpl in H. apply IH. exact H.
Qed.

Lemma join_snoc sep z : forall mid,
  mid <> [] -> join sep (mid ++ [z]) = join sep mid ++ sep ++ z.
Proof.
  induction mid as [|a mid IH]; intros Hne; [congruence|].
  destruct mid as [|b mid].
  - reflexivity.
  - change ((a :: b :: mid) ++ [z]) with (a :: ((b :: mid) ++ [z])).
    rewrite join_cons by (destruct mid; discriminate).
    rewrite IH by discriminate.
    rewrite (join_cons sep a (b :: mid)) by discriminate.
    rewrite <- !app_assoc. reflexivity.
Qed.

Section ListerFacts.
Context (U : unicodedata) (run : list_tests.run_args -> list_tests.run_outcome).
Import list_tests.

Lemma pytest_item_id l :
  contains (py "::") l = true ->
  id (pytest_item l) = l /\
  l = file (pytest_item l) ++ py "::"
        ++ match suite (pytest_item l) with Some su => su ++ py "::" | None => [] end
        ++ name (pytest_item l).
Proof.
  intros H. split; [reflexivity|].
  assert (Hsep : py "::" <> []) by discriminate.
  assert (Hlen := split_aux_two (py "::") Hsep l [] H).
  assert (Hjoin := join_split (py "::") l Hsep).
  unfold pytest_item. fold (split (py "::") l) in Hlen.
  destruct (split (py "::") l) as [|a [|b rest]] eqn:E; [simpl in Hlen; lia .. |].
  cbn [file name suite hd tl]. 
  replace (1 <? List.length (a :: b :: rest)) with true by reflexivity.
  destruct rest as [|c rest].
  - simpl. rewrite <- Hjoin. reflexivity.
  - replace (2 <? List.length (a :: b :: c :: rest)) with true by reflexivity.
    rewrite <- Hjoin at 1.
    rewrite join_cons by discriminate.
    rewrite (app_removelast_last (l := b :: c :: rest) []) at 1 by discriminate.
    rewrite join_snoc.
    + change (last (a :: b :: c :: rest) []) with (last (b :: c :: rest) []).
      rewrite <- !app_assoc. reflexivity.
    + simpl. destruct rest; discriminate.
Qed.

Lemma pytest_tests_made stdout item :
  In item (pytest_tests U stdout) ->
  exists l, item = pytest_item l /\ pytest_wanted l = true.
Proof.
  unfold pytest_tests. intros H. apply in_map_iff in H.
  destruct H as (l & <- & H). apply filter_In in H. destruct H as [_ H]. eauto.
Qed.

Lemma list_pytest_tests_inv path tl :
  list_pytest_tests U run path = Some tl ->
  framework tl = py "pytest" /\ total tl = len (tests tl) /\
  (tests tl = [] \/ exists rc stdout, tests tl = pytest_tests U stdout /\
     run {| cmd := py "pytest --collect-only -q " ++ path; cwd := None; timeout := 120 |}
       = Completed rc stdout).
Proof.
  unfold list_pytest_tests.
  destruct (run _) as [rc stdout| | |] eqn:E; intros [= <-]; simpl;
    repeat split; eauto.
Qed.

(** X15.  Every item [list_pytest_tests] returns has an id with "::" in
    it that does not start with "<", and the id can be put together again
    from the other fields: it is file::name, or file::suite::name when the
    item has a suite. *)
Theorem pytest_id_from_fields (path : str) (tl : TestList) (item : TestItem) :
  list_pytest_tests U run path = Some tl -> In item (tests tl) ->
  contains (py "::") (id item) = true /\
  startswith (py "<") (id item) = false /\
  line item = None /\
  id item = file item ++ py "::"
        ++ match suite item with Some su => su ++ py "::" | None => [] end
        ++ name item.
Proof.
  intros H Hin. apply list_pytest_tests_inv in H.
  destruct H as (_ & _ & [Hnil|(rc & stdout & Ht & _)]); [rewrite Hnil in Hin; contradiction|].
  rewrite Ht in Hin. apply pytest_tests_made in Hin. destruct Hin as (l & -> & Hw).
  unfold pytest_wanted in Hw. apply andb_true_iff in Hw. destruct Hw as [Hc Hs].
  apply negb_true_iff in Hs.
  destruct (pytest_item_id l Hc) as [Hid Hl].
  rewrite Hid. repeat split; try assumption.
Qed.

Lemma go_package_line_no_test l : go_package_line l = true -> go_test_line l = false.
Proof.
  unfold go_package_line. intros H. apply orb_true_iff in H.
  destruct H as [H|H]; apply startswith_inv in H; destruct H as [t ->]; reflexivity.
Qed.

Lemma go_tests_filter path stdout :
  go_tests U path stdout =
    map (go_item path) (filter go_test_line (map (strip U) (split_lines stdout))).
Proof.
  unfold go_tests. induction (map (strip U) (split_lines stdout)) as [|l ls IH]; [reflexivity|].
  cbn [flat_map filter]. rewrite IH.
  destruct (go_package_line l) eqn:Ep.
  - rewrite (go_package_line_no_test l Ep). reflexivity.
  - destruct (go_test_line l); reflexivity.
Qed.
Lemma list_go_tests_inv path tl :
  list_go_tests U run path = Some tl ->
  framework tl = py "go" /\ total tl = len (tests tl) /\
  (tests tl = [] \/ exists stdout, tests tl = go_tests U path stdout).
Proof.
  unfold list_go_tests.
  destruct (run _) as [rc stdout| | |] eqn:E; intros [= <-]; simpl;
    repeat split; eauto.
Qed.

(** X16.  Every item [list_go_tests] returns is a line that starts with
    "Test" or "Benchmark"; its name is its id, and its file is the path
    the lister was given, never a package read from the listing. *)
Theorem go_items path tl item :
  list_go_tests U run path = Some tl -> In item (tests tl) ->
  (startswith (py "Test") (id item) = true \/ startswith (py "Benchmark") (id item) = true) /\
  name item = id item /\
  file item = path /\
  line item = None /\ suite item = None.
Proof.
  intros H Hin. apply list_go_tests_inv in H.
  destruct H as (_ & _ & [Hnil|(stdout & Ht)]); [rewrite Hnil in Hin; contradiction|].
  rewrite Ht, go_tests_filter in Hin. apply in_map_iff in Hin.
  destruct Hin as (l & <- & Hl). apply filter_In in Hl. destruct Hl as [_ Hl].
  unfold go_test_line in Hl. apply orb_true_iff in Hl.
  repeat split; auto.
Qed.

Lemma list_playwright_tests_inv path tl :
  list_playwright_tests U run path = Some tl ->
  framework tl = py "playwright" /\ total tl = len (tests tl) /\
  (tests tl = [] \/ exists stdout, tests tl = playwright_tests U stdout).
Proof.
  unfold list_playwright_tests.
  destruct (run _) as [rc stdout| | |] eqn:E; intros [= <-]; simpl;
    repeat split; eauto.
Qed.

(** X17.  Every item [list_playwright_tests] returns has a line number
    that is not negative, and its id is its file, a colon and that
    number in decimal. *)
Theorem playwright_items path tl item :
  list_playwright_tests U run path = Some tl -> In item (tests tl) ->
  exists n, line item = Some n /\ (0 <= n)%Z /\
    id item = file item ++ py ":" ++ str_of_Z n /\ suite item = None.
Proof.
  intros H Hin. apply list_playwright_tests_inv in H.
  destruct H as (_ & _ & [Hnil|(stdout & Ht)]); [rewrite Hnil in Hin; contradiction|].
  rewrite Ht in Hin. unfold playwright_tests in Hin. apply in_flat_map in Hin.
  destruct Hin as (l & _ & Hin).
  destruct (Re.search U Re.no_flags ListPat.playwright_line l) as [m|]; [|contradiction].
  destruct Hin as [<-|[]]. eexists. split; [reflexivity|].
  split; [apply int_of_digits_nonneg|]. split; reflexivity.
Qed.

(** What a lister returns can be resumed: its tag is one that
    [generate_remaining_tests] has a command for. *)
Lemma listed_inv path tl :
  list_pytest_tests U run path = Some tl \/
  list_go_tests U run path = Some tl \/
  list_playwright_tests U run path = Some tl ->
  total tl = len (tests tl) /\ recognized (framework tl) = true.
Proof.
  intros [H|[H|H]].
  - apply list_pytest_tests_inv in H. destruct H as (-> & Ht & _). auto.
  - apply list_go_tests_inv in H. destruct H as (-> & Ht & _). auto.
  - apply list_playwright_tests_inv in H. destruct H as (-> & Ht & _). auto.
Qed.

(** X18.  What the pytest, go and playwright listers return, and what
    resuming makes of it.  When the tool times out or is not found, the
    lister does not raise: it returns the empty inventory of its
    framework, with a total of zero, no tests and the command templates.
    And every inventory a lister returns, that one included, has its total
    equal to the number of its tests; resuming after any of its tests but
    the last gives [total - index - 1] remaining tests and a command,
    while resuming after the last gives none. *)
Theorem listed_inventory_resumes (path : str) :
  (forall o, o = TimeoutExpired \/ o = FileNotFoundError ->
     (run {| cmd := py "pytest --collect-only -q " ++ path; cwd := None; timeout := 120 |} = o ->
      list_pytest_tests U run path =
        Some {| framework := py "pytest";
                total := 0;
                tests := [];
                run_single_command := py "pytest {test_id}";
                run_from_command := py "pytest {test_id}";
                bail_command := py "pytest -x" |}) /\
     (run {| cmd := py "go test -list '.*' " ++ path; cwd := None; timeout := 60 |} = o ->
      list_go_tests U run path =
        Some {| framework := py "go";
                total := 0;
                tests := [];
                run_single_command := py "go test -run {test_id} " ++ path;
                run_from_command := py "go test -run '{test_id}.*' " ++ path;
                bail_command := py "go test -failfast " ++ path |}) /\
     (run {| cmd := py "npx playwright test --list"; cwd := Some path; timeout := 60 |} = o ->
      list_playwright_tests U run path =
        Some {| framework := py "playwright";
                total := 0;
                tests := [];
                run_single_command := py "npx playwright test {test_id}";
                run_from_command := py "npx playwright test {test_id}";
                bail_command := py "npx playwright test --max-failures=1" |})) /\
  (forall tl failed_index,
     list_pytest_tests U run path = Some tl \/
     list_go_tests U run path = Some tl \/
     list_playwright_tests U run path = Some tl ->
     total tl = len (tests tl) /\
     ((0 <= failed_index < total tl - 1)%Z ->
      remaining_count (generate_remaining_tests tl failed_index)
        = (total tl - failed_index - 1)%Z /\
      run_remaining_command (generate_remaining_tests tl failed_index) <> None) /\
     ((total tl - 1 <= failed_index)%Z ->
      remaining_count (generate_remaining_tests tl failed_index) = 0%Z /\
      run_remaining_command (generate_remaining_tests tl failed_index) = None)).
Proof.
  split.
  { intros o Ho. unfold list_pytest_tests, list_go_tests, list_playwright_tests.
    split; [|split]; intros ->; destruct Ho as [->| ->]; reflexivity. }
  intros tl failed_index H. destruct (listed_inv path tl H) as [Ht Hrec].
  split; [exact Ht|]. rewrite Ht.
  assert (Hc := remaining_count_formula tl failed_index).
  destruct (generate_remaining_tests_items tl failed_index) as [Hitems Hcount].
  split.
  - intros Hi.
    destruct (Z.leb_spec (len (tests tl) - 1) failed_index); [lia|].
    destruct (Z.leb_spec (-1) failed_index); [|lia].
    split; [exact Hc|]. intros Hnone.
    apply run_remaining_command_none_iff in Hnone. destruct Hnone as [Hnil|Hno].
    + rewrite Hitems in Hnil. rewrite Hnil in Hcount. unfold len in Hcount at 1.
      simpl in Hcount. lia.
    + congruence.
  - intros Hi.
    destruct (Z.leb_spec (len (tests tl) - 1) failed_index); [|lia].
    split; [exact Hc|].
    apply run_remaining_command_none_iff. left.
    rewrite Hcount in Hc. rewrite Hitems. unfold len in Hc.
    destruct (slice_from (tests tl) (failed_index + 1)); [reflexivity|simpl in Hc; lia].
Qed.
End ListerFacts.

(* ===================================================================== *)
(** ** Numbers written and read back *)
(* ===================================================================== *)

Section RoundTrip.
Context (U : unicodedata).
Hypothesis ascii_digits : forall d, (d < 10)%N -> todecimal U (48 + d)%N = d.

Lemma digits_read_back : forall fuel n acc,
  (n < 2 ^ N.of_nat fuel)%N ->
  fold_left (fun a c => (10 * a + todecimal U c)%N) (digits_of_pos_fuel fuel n acc) 0%N =
  fold_left (fun a c => (10 * a + todecimal U c)%N) acc n.
Proof.
  induction fuel as [|fuel IH]; intros n acc Hn.
  - simpl in *. replace n with 0%N by lia. reflexivity.
  - cbn [digits_of_pos_fuel]. cbv zeta.
    assert (Hmod : (n mod 10 < 10)%N) by (apply N.mod_lt; lia).
    destruct (N.ltb_spec n 10) as [Hlt|Hge].
    + cbn [fold_left]. rewrite ascii_digits by exact Hmod.
      rewrite N.mod_small by exact Hlt. reflexivity.
    + rewrite IH.
      * cbn [fold_left]. rewrite ascii_digits by exact Hmod.
        f_equal. rewrite (N.div_mod n 10) at 3 by lia. reflexivity.
      * rewrite Nat2N.inj_succ, N.pow_succ_r' in Hn.
        apply N.Div0.div_lt_upper_bound. lia.
Qed.

Lemma int_of_str_of_Z n : (0 <= n)%Z -> int_of_digits U (str_of_Z n) = n.
Proof.
  intros Hn. unfold str_of_Z. destruct (Z.ltb_spec n 0); [lia|].
  unfold int_of_digits, str_of_N. rewrite digits_read_back.
  - simpl. lia.
  - rewrite Nat2N.inj_succ, N2Nat.id.
    destruct (Z.to_N n) as [|p] eqn:E; [reflexivity|].
    apply N.log2_spec. lia.
Qed.

(** X19.  Where the tables give the ASCII digits their values, the line
    number the playwright extractor writes into a rerun command reads back
    as the line number of the record. *)
Theorem playwright_line_reads_back (output : str) (r : TestResult) (f : FailedTest) :
  parse_playwright U output = inr r -> In f (failures r) ->
  exists n written,
    line_number f = Some n /\
    rerun_command f = Some (py "npx playwright test " ++ file f ++ py ":" ++ written) /\
    int_of_digits U written = n.
Proof.
  intros H Hin. apply parse_playwright_inv in H. destruct H as (_ & Hfs & _).
  rewrite Hfs in Hin. unfold playwright_failures in Hin. apply in_map_iff in Hin.
  destruct Hin as (m & <- & _).
  exists (int_of_digits U (Re.group m 3)), (str_of_Z (int_of_digits U (Re.group m 3))).
  split; [reflexivity|]. split; [reflexivity|].
  apply int_of_str_of_Z. apply int_of_digits_nonneg.
Qed.
End RoundTrip.

Lemma pytest_id_from_fields_witness :
  exists tl,
    list_tests.list_pytest_tests ascii_tables (Examples.prints Examples.pytest_listing)
      (py "tests") = Some tl /\
    map list_tests.id (list_tests.tests tl) =
      [py "tests/test_a.py::test_one"; py "tests/test_a.py::TestB::test_two"] /\
    map list_tests.suite (list_tests.tests tl) = [None; Some (py "TestB")] /\
    forall item, In item (list_tests.tests tl) ->
      list_tests.id item =
        list_tests.file item ++ py "::"
          ++ match list_tests.suite item with Some su => su ++ py "::" | None => [] end
          ++ list_tests.name item.
Proof.
  destruct (list_tests.list_pytest_tests ascii_tables
              (Examples.prints Examples.pytest_listing) (py "tests")) as [tl|] eqn:E;
    [|vm_compute in E; discriminate].
  exists tl. split; [reflexivity|].
  assert (H : forall item, In item (list_tests.tests tl) ->
    list_tests.id item =
      list_tests.file item ++ py "::"
        ++ match list_tests.suite item with Some su => su ++ py "::" | None => [] end
        ++ list_tests.name item).
  { intros item Hin.
    apply (pytest_id_from_fields ascii_tables (Examples.prints Examples.pytest_listing)
             (py "tests") tl item E Hin). }
  vm_compute in E. injection E as <-.
  split; [reflexivity|]. split; [reflexivity|]. exact H.
Defined.

Lemma go_items_witness :
  exists tl,
    list_tests.list_go_tests ascii_tables (Examples.prints Examples.go_listing)
      (py "./...") = Some tl /\
    map list_tests.id (list_tests.tests tl) = [py "TestAlpha"; py "BenchmarkBeta"] /\
    forall item, In item (list_tests.tests tl) ->
      list_tests.name item = list_tests.id item /\ list_tests.file item = py "./...".
Proof.
  destruct (list_tests.list_go_tests ascii_tables
              (Examples.prints Examples.go_listing) (py "./...")) as [tl|] eqn:E;
    [|vm_compute in E; discriminate].
  exists tl. split; [reflexivity|].
  assert (H : forall item, In item (list_tests.tests tl) ->
    list_tests.name item = list_tests.id item /\ list_tests.file item = py "./...").
  { intros item Hin.
    destruct (go_items ascii_tables (Examples.prints Examples.go_listing)
                (py "./...") tl item E Hin) as (_ & Hn & Hf & _).
    split; assumption. }
  vm_compute in E. injection E as <-.
  split; [reflexivity | exact H].
Defined.

Lemma playwright_items_witness :
  exists tl,
    list_tests.list_playwright_tests ascii_tables
      (Examples.prints Examples.playwright_listing) (py ".") = Some tl /\
    map list_tests.id (list_tests.tests tl) = [py "tests/a.spec.ts:3"] /\
    forall item, In item (list_tests.tests tl) ->
      exists n, list_tests.line item = Some n /\ (0 <= n)%Z /\
        list_tests.id item = list_tests.file item ++ py ":" ++ str_of_Z n /\
        list_tests.suite item = None.
Proof.
  destruct (list_tests.list_playwright_tests ascii_tables
              (Examples.prints Examples.playwright_listing) (py ".")) as [tl|] eqn:E;
    [|vm_compute in E; discriminate].
  exists tl. split; [reflexivity|].
  assert (H : forall item, In item (list_tests.tests tl) ->
    exists n, list_tests.line item = Some n /\ (0 <= n)%Z /\
      list_tests.id item = list_tests.file item ++ py ":" ++ str_of_Z n /\
      list_tests.suite item = None).
  { intros item Hin.
    exact (playwright_items ascii_tables (Examples.prints Examples.playwright_listing)
             (py ".") tl item E Hin). }
  vm_compute in E. injection E as <-.
  split; [reflexivity | exact H].
Defined.

Lemma listed_inventory_resumes_witness :
  (exists tl,
     list_tests.list_pytest_tests ascii_tables (Examples.prints Examples.pytest_listing)
       (py "tests") = Some tl /\
     list_tests.total tl = 2%Z /\
     list_tests.remaining_count (list_tests.generate_remaining_tests tl 0) = 1%Z /\
     list_tests.run_remaining_command (list_tests.generate_remaining_tests tl 0) <> None) /\
  (exists tl,
     list_tests.list_go_tests ascii_tables Examples.times_out (py "./...") = Some tl /\
     list_tests.total tl = 0%Z /\
     list_tests.tests tl = [] /\
     list_tests.bail_command tl = py "go test -failfast ./..." /\
     list_tests.run_remaining_command (list_tests.generate_remaining_tests tl 0) = None) /\
  (exists tl,
     list_tests.list_playwright_tests ascii_tables Examples.not_found (py ".") = Some tl /\
     list_tests.total tl = 0%Z /\
     list_tests.tests tl = []).
Proof.
  split; [|split].
  - destruct (list_tests.list_pytest_tests ascii_tables
                (Examples.prints Examples.pytest_listing) (py "tests")) as [tl|] eqn:E;
      [|vm_compute in E; discriminate].
    exists tl. split; [reflexivity|].
    destruct (listed_inventory_resumes ascii_tables (Examples.prints Examples.pytest_listing)
                (py "tests")) as (_ & Hall).
    destruct (Hall tl 0%Z (or_introl E)) as (_ & Hin & _).
    assert (Ht : list_tests.total tl = 2%Z)
      by (vm_compute in E; injection E as <-; reflexivity).
    split; [exact Ht|]. rewrite Ht in Hin.
    assert (Hi : (0 <= 0 < 2 - 1)%Z) by lia.
    destruct (Hin Hi) as [Hc Hcmd]. split; [exact Hc | exact Hcmd].
  - destruct (listed_inventory_resumes ascii_tables Examples.times_out (py "./..."))
      as (Hcaught & Hall).
    destruct (Hcaught list_tests.TimeoutExpired (or_introl eq_refl)) as (_ & Hgo & _).
    specialize (Hgo eq_refl).
    eexists. split; [exact Hgo|].
    split; [reflexivity|]. split; [reflexivity|]. split; [reflexivity|].
    destruct (Hall _ 0%Z (or_intror (or_introl Hgo))) as (_ & _ & Hlast).
    apply Hlast. simpl. lia.
  - destruct (listed_inventory_resumes ascii_tables Examples.not_found (py "."))
      as (Hcaught & _).
    destruct (Hcaught list_tests.FileNotFoundError (or_intror eq_refl)) as (_ & _ & Hpw).
    specialize (Hpw eq_refl).
    eexists. split; [exact Hpw|]. split; reflexivity.
Defined.

Lemma playwright_line_reads_back_witness :
  (forall d, (d < 10)%N -> todecimal ascii_tables (48 + d)%N = d) /\
  parse_playwright ascii_tables Examples.playwright_long = inr Examples.playwright_long_result /\
  forall f, In f (failures Examples.playwright_long_result) ->
    exists n written,
      line_number f = Some n /\
      rerun_command f = Some (py "npx playwright test " ++ file f ++ py ":" ++ written) /\
      int_of_digits ascii_tables written = n.
Proof.
  assert (Hd : forall d, (d < 10)%N -> todecimal ascii_tables (48 + d)%N = d)
    by (intros d _; unfold ascii_tables; cbn [todecimal]; lia).
  assert (E : parse_playwright ascii_tables Examples.playwright_long
              = inr Examples.playwright_long_result) by (vm_compute; reflexivity).
  split; [exact Hd|]. split; [exact E|]. intros f Hin.
  exact (playwright_line_reads_back ascii_tables Hd Examples.playwright_long
           Examples.playwright_long_result f E Hin).
Defined.

(* ===================================================================== *)
(** ** The command line of the parser *)
(* ===================================================================== *)

Section MainFacts.
Context (U : unicodedata) (dumps : TestResult -> option Z -> result str).

Lemma resolve_cli output framework :
  resolve U output (option_map cli_value framework) =
    inr match framework with
        | Some cli_jest => Framework.JEST
        | Some cli_vitest => Framework.VITEST
        | Some cli_pytest => Framework.PYTEST
        | Some cli_go => Framework.GO
        | Some cli_playwright => Framework.PLAYWRIGHT
        | None => detect_framework U output
        end.
Proof. destruct framework as [[]|]; reflexivity. Qed.

(** X20.  How [main] ends, whatever the JSON encoder does.  On input
    that is empty or all white space it prints the error "No input
    provided" and exits with code 1, whatever the options.  Every
    framework the command line can name is a member of the enumeration
    other than unknown, with the name as its value.  And when [main]
    prints a text, the input was not blank and the text is what the
    encoder makes, with indentation 2 under --pretty and none otherwise,
    of the result [parse_output] returned for the input and the framework
    named, a result that carries the framework named. *)
Theorem main_outcomes (stdin : str) (named : option cli_framework) (pretty : bool) :
  (strip U stdin = [] ->
   main U dumps stdin named pretty = ExitError (py "No input provided") 1) /\
  (forall c, exists fw,
     Framework.of_value (cli_value c) = inr fw /\
     fw <> Framework.UNKNOWN /\
     Framework.value fw = cli_value c) /\
  (forall text, main U dumps stdin named pretty = Printed text ->
     strip U stdin <> [] /\
     exists result,
       parse_output U stdin (option_map cli_value named) = inr result /\
       dumps result (if pretty then Some 2%Z else None) = inr text /\
       forall c, named = Some c -> framework result = cli_value c).
Proof.
  unfold main. cbv zeta. split; [|split].
  - intros ->. reflexivity.
  - intros c. destruct c; eexists; (split; [reflexivity|]); split;
      (discriminate || reflexivity).
  - intros text.
    destruct (str_eqb_spec (strip U stdin) []) as [_|Hne]; [discriminate|].
    destruct (parse_output U stdin (option_map cli_value named)) as [e'|r] eqn:E;
      [discriminate|].
    destruct (dumps r (if pretty then Some 2%Z else None)) as [e'|t] eqn:Ed;
      [discriminate|].
    intros [= <-]. split; [exact Hne|]. exists r.
    split; [reflexivity|]. split; [exact Ed|].
    intros c ->. apply parse_output_inv in E. destruct E as (fw & r0 & Hres & _ & ->).
    rewrite (resolve_cli stdin (Some c)) in Hres. injection Hres as <-.
    destruct c; reflexivity.
Qed.
End MainFacts.

Lemma main_outcomes_witness :
  strip ascii_tables (py " \n") = [] /\
  main ascii_tables Examples.tag_encoder (py " \n") (Some cli_go) true
    = ExitError (py "No input provided") 1 /\
  main ascii_tables Examples.tag_encoder Examples.jest_report (Some cli_vitest) false
    = Printed (py "vitest") /\
  exists result,
    parse_output ascii_tables Examples.jest_report (Some (py "vitest")) = inr result /\
    framework result = py "vitest".
Proof.
  assert (Hblank : strip ascii_tables (py " \n") = []) by reflexivity.
  assert (Hrun : main ascii_tables Examples.tag_encoder Examples.jest_report
                   (Some cli_vitest) false = Printed (py "vitest"))
    by (vm_compute; reflexivity).
  destruct (main_outcomes ascii_tables Examples.tag_encoder (py " \n") (Some cli_go) true)
    as (Hexit & _ & _).
  destruct (main_outcomes ascii_tables Examples.tag_encoder Examples.jest_report
              (Some cli_vitest) false) as (_ & _ & Hprinted).
  split; [exact Hblank|]. split; [exact (Hexit Hblank)|]. split; [exact Hrun|].
  destruct (Hprinted (py "vitest") Hrun) as (_ & result & Hres & _ & Htag).
  exists result. split; [exact Hres|]. exact (Htag cli_vitest eq_refl).
Defined.

(* ===================================================================== *)
(** ** Literal patterns and substrings *)
(* ===================================================================== *)

Section Literals.
Context (U : unicodedata).

Lemma lit_startswith l : forall st,
  (exists st', Re.lit U Re.no_flags l st = Some st') <-> startswith l (Re.rest st) = true.
Proof.
  induction l as [|p l IH]; intros st; simpl.
  - split; eauto.
  - destruct (Re.rest st) as [|c s'] eqn:E.
    + split; [intros [st' H]; discriminate | discriminate].
    + unfold Re.lit_eq. cbn [Re.IGNORECASE Re.no_flags].
      destruct (N.eqb p c); simpl.
      * rewrite IH. reflexivity.
      * split; [intros [st' H]; discriminate | discriminate].
Qed.

Lemma match_at_lit l s p :
  Re.match_at U Re.no_flags (Re.Lit l) s p false = None <-> startswith l s = false.
Proof.
  unfold Re.match_at. cbn [Re.exec andb].
  assert (H := lit_startswith l {| Re.pos := p; Re.rest := s; Re.groups := [] |}).
  cbn [Re.rest] in H.
  destruct (Re.lit U Re.no_flags l _) as [st'|].
  - split; [discriminate|]. intros Hs.
    assert (Ht : startswith l s = true) by (apply H; eauto). congruence.
  - split; [|reflexivity]. intros _.
    destruct (startswith l s); [|reflexivity].
    destruct (proj2 H eq_refl) as [st' Hst]. discriminate.
Qed.

Lemma search_from_lit l : forall s p,
  Re.search_from U Re.no_flags (Re.Lit l) s p = None <-> contains l s = false.
Proof.
  induction s as [|c s IH]; intros p; cbn [Re.search_from contains].
  - rewrite orb_false_r. rewrite <- (match_at_lit l [] p).
    destruct (Re.match_at U Re.no_flags (Re.Lit l) [] p false); split; congruence.
  - rewrite orb_false_iff, <- (match_at_lit l (c :: s) p), <- (IH (S p)).
    destruct (Re.match_at U Re.no_flags (Re.Lit l) (c :: s) p false).
    + split; [discriminate | intros [H _]; discriminate].
    + tauto.
Qed.

(** [finditer] finds nothing exactly when [search] finds nothing. *)
Lemma scan_nothing fl r text : forall s p,
  Re.scan U fl r text s p 0 = [] <-> Re.search_from U fl r s p = None.
Proof.
  induction s as [|c s IH]; intros p; cbn [Re.scan Re.search_from].
  - destruct (Re.match_at U fl r [] p false) as [st|].
    + destruct (Nat.eqb (Re.pos st) p); split; discriminate.
    + tauto.
  - destruct (Re.match_at U fl r (c :: s) p false) as [st|].
    + destruct (Nat.eqb (Re.pos st) p); split; discriminate.
    + apply IH.
Qed.

(** X21.  The go extractor reports no passed test exactly when the text
    does not contain "--- PASS:". *)
Theorem go_passed_none (output : str) (r : TestResult) :
  parse_go U output = inr r ->
  (passed r = 0%Z <-> contains (py "--- PASS:") output = false).
Proof.
  intros H. apply parse_go_counts in H. destruct H as [_ ->].
  unfold Re.finditer, Pat.go_pass, Re.L.
  rewrite <- (search_from_lit (py "--- PASS:") output 0).
  rewrite <- (scan_nothing Re.no_flags (Re.Lit (py "--- PASS:")) output output 0).
  unfold len.
  destruct (Re.scan U Re.no_flags (Re.Lit (py "--- PASS:")) output output 0 0);
    simpl; split; try reflexivity; try discriminate; lia.
Qed.
End Literals.

Lemma go_passed_none_witness :
  exists r,
    parse_go ascii_tables Examples.chatter = inr r /\
    contains (py "--- PASS:") Examples.chatter = false /\
    passed r = 0%Z.
Proof.
  destruct (parse_go ascii_tables Examples.chatter) as [e|r] eqn:E;
    [vm_compute in E; discriminate|].
  exists r. split; [reflexivity|].
  assert (Hc : contains (py "--- PASS:") Examples.chatter = false) by reflexivity.
  split; [exact Hc|].
  apply (go_passed_none ascii_tables Examples.chatter r E). exact Hc.
Defined.
